(** * Sales & Pricing Operations Dashboard: the pipeline of main-application.py

    The program reads two tables ([fetch_retail_data]), narrows them
    ([prepare_data]), derives four views for the dashboard
    ([create_dashboard]) and five scalars for the insights file
    ([generate_insights]); [main] runs these stages in order and prints
    its progress.  The tables are pandas data frames; what follows
    embeds the frame operations the program calls, by their documented
    behaviour, over the data the program holds: binary64 floats for the
    amount and price columns, 64-bit nanosecond counts for timestamps,
    Python strings for labels.

    [prepare_data] assigns to a column of the frame it is given, so it is
    modelled on frames held in an object store.  [create_dashboard] and
    [generate_insights] only read the prepared tables; they take them by
    value, one record per row, in which an order id, an order date, a
    status, an amount or a price may be missing.  The figure of
    [create_dashboard] is built through the grid and the placement check
    of the plotting library.  The network, the CSV reader, the date
    parser and the writing of the figure as a page are parameters of the
    stages that call them. *)

From Stdlib Require Import Floats Uint63 ZArith NArith List String Ascii Bool Lia.
From Stdlib Require Import Sorted Permutation DecimalString OrdersEx.
From Stdlib Require DecimalPos DecimalN.
From stdpp Require Import gmap strings.
Import ListNotations.

Set Warnings "-inexact-float,-abstract-large-number".
Local Open Scope Z_scope.

(** * The program *)

(** ** binary64 values

    [TotalDue] and [ListPrice] are float64 columns.  The kernel's
    primitive floats are IEEE 754 binary64, so [+], [/], [<?] below are
    the operations numpy performs.  Their order is read off
    [SpecFloat.SFcompare] through a rank in Z * Z * Z. *)
Module F64.

Definition notna (x : float) : bool := negb (PrimFloat.is_nan x).

(** The place of a float that is not NaN in the order of [SFcompare]:
    sign class first, then exponent, then mantissa. *)
Definition rank (f : spec_float) : option (Z * Z * Z) :=
  match f with
  | S754_nan => None
  | S754_infinity true => Some (-2, 0, 0)
  | S754_infinity false => Some (2, 0, 0)
  | S754_zero _ => Some (0, 0, 0)
  | S754_finite true m e => Some (-1, - e, Z.neg m)
  | S754_finite false m e => Some (1, e, Z.pos m)
  end.

Definition lex3 (a b : Z * Z * Z) : comparison :=
  let '(a1, a2, a3) := a in
  let '(b1, b2, b3) := b in
  match a1 ?= b1 with
  | Eq => match a2 ?= b2 with Eq => a3 ?= b3 | c => c end
  | c => c
  end.

Definition key (x : float) : option (Z * Z * Z) := rank (Prim2SF x).

End F64.

(** ** Text: decimal digits and padding *)

Definition nl : string := String (ascii_of_nat 10) EmptyString.

(** The decimal digits of a natural number, as Python's [str] gives them. *)
Definition digits (n : N) : string := NilZero.string_of_uint (N.to_uint n).

Definition str_Z (z : Z) : string :=
  if z <? 0 then ("-" +:+ digits (Z.abs_N z))%string else digits (Z.to_N z).

(** Zero padding on the left up to [w] characters (the [%m] and [02d] widths). *)
Definition zfill (w : nat) (s : string) : string :=
  (string_of_list_ascii (repeat "0"%char (w - String.length s)) +:+ s)%string.

(** ** Timestamps

    A datetime64[ns] value is a signed count of nanoseconds since
    1970-01-01T00:00:00.  The calendar fields are those of the proleptic
    Gregorian calendar. *)
Definition Timestamp := Z.

Definition ns_per_day : Z := 86400 * 1000000000.

Definition days_from_civil (y m d : Z) : Z :=
  let y' := if m <=? 2 then y - 1 else y in
  let era := y' / 400 in
  let yoe := y' - era * 400 in
  let mp := if 2 <? m then m - 3 else m + 9 in
  let doy := (153 * mp + 2) / 5 + d - 1 in
  let doe := yoe * 365 + yoe / 4 - yoe / 100 + doy in
  era * 146097 + doe - 719468.

Definition civil_from_days (z : Z) : Z * Z * Z :=
  let z' := z + 719468 in
  let era := z' / 146097 in
  let doe := z' - era * 146097 in
  let yoe := (doe - doe / 1460 + doe / 36524 - doe / 146096) / 365 in
  let doy := doe - (365 * yoe + yoe / 4 - yoe / 100) in
  let mp := (5 * doy + 2) / 153 in
  let d := doy - (153 * mp + 2) / 5 + 1 in
  let m := if mp <? 10 then mp + 3 else mp - 9 in
  ((if m <=? 2 then yoe + era * 400 + 1 else yoe + era * 400), m, d).

(** The timestamp of midnight on a calendar date. *)
Definition ymd (y m d : Z) : Timestamp := days_from_civil y m d * ns_per_day.

Definition year_of (t : Timestamp) : Z := (civil_from_days (t / ns_per_day)).1.1.

Definition month_of (t : Timestamp) : Z := (civil_from_days (t / ns_per_day)).1.2.

(** The missing date, NaT: the least 64-bit value. *)
Definition NaT : Timestamp := - 2 ^ 63.

Definition isnat (t : Timestamp) : bool := t =? NaT.

(** [Series.dt.strftime('%Y-%m')] on a date that is present: the year, a
    dash, the month on two digits.  The years of datetime64[ns], 1677 to
    2262, have four digits.  On NaT it gives the missing value; the
    callers below test [isnat] first. *)
Definition strftime_Ym (t : Timestamp) : string :=
  (str_Z (year_of t) +:+ "-" +:+ zfill 2 (str_Z (month_of t)))%string.

(** ** Column types that are summed

    pandas infers the type of [TotalDue] from the file: float64 when the
    amounts carry decimals, int64 when they are whole numbers.  What the
    aggregations need of a column type is collected in [Dtype]: its
    arithmetic, the test for a missing value, and the sum numpy takes of
    an array of the type. *)
Class Dtype (A : Type) := {
  num_zero : A;
  num_add : A -> A -> A;
  num_sub : A -> A -> A;
  num_notna : A -> bool;
  num_sum : list A -> A
}.

(** numpy's sum of a float64 array ([pairwise_sum] of its add loop):
    fewer than 8 values are added from the left; up to 128 values are
    added in eight interleaved accumulators, which are then combined,
    and the values after the last full group of eight are added to the
    result; a longer array is split near its middle, at a multiple of 8,
    and the sums of the two parts are added. *)
Fixpoint pairwise_block (r0 r1 r2 r3 r4 r5 r6 r7 : float) (a : list float) : float :=
  match a with
  | a0 :: a1 :: a2 :: a3 :: a4 :: a5 :: a6 :: a7 :: rest =>
      pairwise_block (r0 + a0) (r1 + a1) (r2 + a2) (r3 + a3)
                     (r4 + a4) (r5 + a5) (r6 + a6) (r7 + a7) rest
  | _ =>
      fold_left PrimFloat.add a
        (((r0 + r1) + (r2 + r3)) + ((r4 + r5) + (r6 + r7)))
  end%float.

(** [fuel] bounds the depth of the splitting; the length of the array
    is always enough ([pairwise_rec_fuel] below). *)
Fixpoint pairwise_rec (fuel : nat) (a : list float) : float :=
  let n := length a in
  if (n <? 8)%nat then fold_left PrimFloat.add a 0%float
  else if (n <=? 128)%nat then
    match a with
    | a0 :: a1 :: a2 :: a3 :: a4 :: a5 :: a6 :: a7 :: rest =>
        pairwise_block a0 a1 a2 a3 a4 a5 a6 a7 rest
    | _ => fold_left PrimFloat.add a 0%float
    end
  else
    match fuel with
    | O => 0%float
    | S fuel' =>
        let n2 := (n / 2 - (n / 2) mod 8)%nat in
        (pairwise_rec fuel' (firstn n2 a) + pairwise_rec fuel' (skipn n2 a))%float
    end.

Definition pairwise_sum (a : list float) : float := pairwise_rec (length a) a.

(** The reduction starts from the identity 0 and adds the pairwise sum. *)
#[export] Instance float64 : Dtype float := {|
  num_zero := 0%float;
  num_add := PrimFloat.add;
  num_sub := PrimFloat.sub;
  num_notna := F64.notna;
  num_sum := fun a => (0 + pairwise_sum a)%float
|}.

(** Whole-number amounts: int64 arithmetic wraps around at 2^63, and
    the sum of an int64 array is taken from the left. *)
Definition wrap64 (z : Z) : Z := (z + 2 ^ 63) mod 2 ^ 64 - 2 ^ 63.

#[export] Instance int64 : Dtype Z := {|
  num_zero := 0;
  num_add := fun x y => wrap64 (x + y);
  num_sub := fun x y => wrap64 (x - y);
  num_notna := fun _ => true;
  num_sum := fun a => fold_left (fun x y => wrap64 (x + y)) a 0
|}.

(** A column type whose arithmetic is exact: no rounding and no missing
    value, so that the compensation of a grouped sum is always zero and
    the sum of an array is the plain sum of its values. *)
Class ExactDtype (A : Type) `{Dtype A} : Prop := {
  num_add_assoc : forall x y z : A, num_add x (num_add y z) = num_add (num_add x y) z;
  num_add_comm : forall x y : A, num_add x y = num_add y x;
  num_add_zero_zero : num_add num_zero num_zero = num_zero;
  num_add_zero_sum : forall x y : A, num_add num_zero (num_add x y) = num_add x y;
  num_add_sub_zero : forall s v : A, num_add s (num_sub v num_zero) = num_add s v;
  num_compensation : forall s y : A, num_sub (num_sub (num_add s y) s) y = num_zero;
  num_sum_plain : forall l : list A, num_sum l = fold_left num_add l num_zero;
  num_all_present : forall x : A, num_notna x = true
}.

(** [Series.sum()] with the default [skipna=True]: the missing values
    are replaced by 0 and the array is summed. *)
Definition fillna {A} `{Dtype A} (x : A) : A := if num_notna x then x else num_zero.

Definition series_sum {A} `{Dtype A} (l : list A) : A := num_sum (map fillna l).

(** The values added from the left, as they stand. *)
Definition plain_sum {A} `{Dtype A} (l : list A) : A := fold_left num_add l num_zero.

(** The grouped ['sum'] (pandas' [group_sum]): the values of the group
    that are present are added in row order with a compensation term
    (Kahan summation); a compensation that is not a number, which an
    infinite value gives, is reset to 0; the result is the running sum.
    A group without a value sums to 0. *)
Definition kahan_step {A} `{Dtype A} (acc : A * A) (val : A) : A * A :=
  let y := num_sub val acc.2 in
  let t := num_add acc.1 y in
  let c := num_sub (num_sub t acc.1) y in
  (t, if num_notna c then c else num_zero).

Definition group_sum {A} `{Dtype A} (l : list A) : A :=
  (fold_left kahan_step (List.filter num_notna l) (num_zero, num_zero)).1.

(** The cells of a column that may lack values: the values present, in
    row order, and their number (the ['count'] aggregation). *)
Fixpoint dropna {X} (l : list (option X)) : list X :=
  match l with
  | [] => []
  | Some x :: l' => x :: dropna l'
  | None :: l' => dropna l'
  end.

Definition count {X} (l : list (option X)) : nat := length (dropna l).

(** ** The prepared tables

    One record per row, in row order; the row label of a freshly read
    and narrowed frame is its position (RangeIndex).  A cell may be
    missing: an order id or a status is then [None], an order date is
    [NaT], an amount or a price of type float64 is NaN. *)
Record SalesRow (A : Type) := {
  SalesOrderID : option Z;
  OrderDate : Timestamp;
  TotalDue : A;
  Status : option string;
  CustomerID : Z
}.
Arguments SalesOrderID {A} _.
Arguments OrderDate {A} _.
Arguments TotalDue {A} _.
Arguments Status {A} _.
Arguments CustomerID {A} _.

Record ProductRow := {
  ProductID : Z;
  Name : string;
  ListPrice : float;
  ProductLine : string
}.

(** ** Frame operations *)

(** [groupby(key)] with the default [sort=True]: one group per distinct
    key, groups in ascending key order, the rows of a group in table
    order. *)
Section GroupBy.
Context {K R : Type} (cmp : K -> K -> comparison).

Fixpoint add_to_group (k : K) (r : R) (gs : list (K * list R)) : list (K * list R) :=
  match gs with
  | [] => [(k, [r])]
  | (k', rs) :: gs' =>
      match cmp k k' with
      | Lt => (k, [r]) :: gs
      | Eq => (k', rs ++ [r]) :: gs'
      | Gt => (k', rs) :: add_to_group k r gs'
      end
  end.

Definition groupby (key : R -> K) (rows : list R) : list (K * list R) :=
  fold_left (fun gs r => add_to_group (key r) r gs) rows [].

Definition rows_of (gs : list (K * list R)) : list R := concat (map snd gs).

(** Reading a grouping: the rows recorded under a key, none when the key
    is absent; the order of the groups. *)
Definition is_key (k k' : K) : bool :=
  match cmp k k' with Eq => true | _ => false end.

Fixpoint rows_for (k : K) (gs : list (K * list R)) : list R :=
  match gs with
  | [] => []
  | (k', rs) :: gs' => if is_key k k' then rs else rows_for k gs'
  end.

Definition key_lt (g g' : K * list R) : Prop := cmp g.1 g'.1 = Lt.

End GroupBy.

(** A stable sort in descending order: [lt a b] reads "a is strictly
    below b"; equal elements keep their order. *)
Section SortDesc.
Context {A : Type} (lt : A -> A -> bool).

Fixpoint insert_desc (x : A) (l : list A) : list A :=
  match l with
  | [] => [x]
  | y :: l' => if lt x y then y :: insert_desc x l' else x :: l
  end.

Definition sort_desc (l : list A) : list A := fold_right insert_desc [] l.

End SortDesc.

(** [Series.value_counts()] with the default [dropna=True]: the
    distinct values that are present with their numbers of occurrences,
    most frequent first; values met equally often stay in the order of
    their first occurrence.  Missing values are not counted. *)
Fixpoint tally (x : string) (cs : list (string * nat)) : list (string * nat) :=
  match cs with
  | [] => [(x, 1%nat)]
  | (y, n) :: cs' => if String.eqb x y then (y, S n) :: cs' else (y, n) :: tally x cs'
  end.

Definition tallies (l : list string) : list (string * nat) :=
  fold_left (fun cs x => tally x cs) l [].

Definition value_counts (l : list (option string)) : list (string * nat) :=
  sort_desc (fun a b => (a.2 <? b.2)%nat) (tallies (dropna l)).

(** The count recorded for a label; 0 when the label is absent. *)
Fixpoint count_of (y : string) (cs : list (string * nat)) : nat :=
  match cs with
  | [] => 0
  | (x, n) :: cs' => if String.eqb y x then n else count_of y cs'
  end.

(** The rows of a table with their labels. *)
Definition indexed {R} (t : list R) : list (nat * R) := combine (seq 0 (length t)) t.

Definition label_lt {R} (a b : nat * R) : Prop := (a.1 < b.1)%nat.

Definition price_below (a b : nat * ProductRow) : bool :=
  (ListPrice a.2 <? ListPrice b.2)%float.

(** The rows of a table in the order [nlargest] ranks them: descending
    price, rows of equal price in table order, rows without a price
    last. *)
Definition ranked (t : list ProductRow) : list (nat * ProductRow) :=
  sort_desc price_below (List.filter (fun r => F64.notna (ListPrice r.2)) (indexed t))
  ++ List.filter (fun r => PrimFloat.is_nan (ListPrice r.2)) (indexed t).

(** [DataFrame.nlargest(n, 'ListPrice')] with the default [keep='first']:
    the first [n] rows of that order, each with its label. *)
Definition nlargest (n : nat) (t : list ProductRow) : list (nat * ProductRow) :=
  firstn n (ranked t).

(** Descending price, a row without a price after every other. *)
Definition price_desc (a b : nat * ProductRow) : Prop :=
  (ListPrice b.2 <=? ListPrice a.2)%float = true
  \/ PrimFloat.is_nan (ListPrice b.2) = true.

(** Rows of equal price stand in table order. *)
Definition ties_in_table_order (a b : nat * ProductRow) : Prop :=
  (ListPrice a.2 =? ListPrice b.2)%float = true -> (a.1 < b.1)%nat.

Definition has_price (a : nat * ProductRow) : Prop := F64.notna (ListPrice a.2) = true.

(** ** The four views of the dashboard (create_dashboard, lines 47-85) *)

Definition month_key {A} (r : SalesRow A) : string := strftime_Ym (OrderDate r).

(** The row has an order date; an order id; a status. *)
Definition dated {A} (r : SalesRow A) : bool := negb (isnat (OrderDate r)).

Definition identified {A} (r : SalesRow A) : bool :=
  match SalesOrderID r with Some _ => true | None => false end.

Definition labelled {A} (r : SalesRow A) : bool :=
  match Status r with Some _ => true | None => false end.

(** Panel 1: [groupby(OrderDate.dt.strftime('%Y-%m'))
    .agg({'TotalDue': 'sum', 'SalesOrderID': 'count'}).reset_index()].
    A row without a date has no key and [groupby], with its default
    [dropna=True], leaves it out; there is one row (month, grouped sum
    of the amounts, number of order ids present) per month of the rows
    that are dated. *)
Definition monthly_sales {A} `{Dtype A} (sales_data : list (SalesRow A))
  : list (string * A * nat) :=
  map (fun g => (g.1, group_sum (map TotalDue g.2), count (map SalesOrderID g.2)))
      (groupby String_as_OT.compare month_key (List.filter dated sales_data)).

(** The dated rows of a month, in table order. *)
Definition rows_of_month {A} (k : string) (t : list (SalesRow A)) : list (SalesRow A) :=
  List.filter (fun r => String.eqb k (month_key r)) (List.filter dated t).

(** Panel 2: [sales_data['Status'].value_counts()]. *)
Definition status_dist {A} (sales_data : list (SalesRow A)) : list (string * nat) :=
  value_counts (map Status sales_data).

(** Panel 3: the histogram is drawn from the price column as it is. *)
Definition price_column (product_data : list ProductRow) : list float :=
  map ListPrice product_data.

(** Panel 4: [product_data.nlargest(10, 'ListPrice')]. *)
Definition top_products (product_data : list ProductRow) : list (nat * ProductRow) :=
  nlargest 10 product_data.

(** ** Number formatting (the format specs [,.2f] and [,]) *)

(** Separators are put in from the right, one after every third digit
    that has a digit to its left. *)
Fixpoint group3 (l : list ascii) : list ascii :=
  match l with
  | a :: b :: c :: ((_ :: _) as rest) => a :: b :: c :: ","%char :: group3 rest
  | _ => l
  end.

Definition commas (s : string) : string :=
  string_of_list_ascii (rev (group3 (rev (list_ascii_of_string s)))).

(** [f"{n:,}"] for a count. *)
Definition format_count (n : nat) : string := commas (digits (N.of_nat n)).

(** [num/den] rounded to the nearest integer, a tie going to the even one. *)
Definition round_half_even (num den : N) : N :=
  let q := (num / den)%N in
  let r := (num mod den)%N in
  match (2 * r ?= den)%N with
  | Lt => q
  | Gt => (q + 1)%N
  | Eq => if N.even q then q else (q + 1)%N
  end.

(** The magnitude [m * 2^e] in hundredths, correctly rounded. *)
Definition hundredths (m : positive) (e : Z) : N :=
  match e with
  | Z.neg k => round_half_even (100 * N.pos m) (2 ^ N.pos k)
  | _ => (100 * N.pos m * 2 ^ Z.to_N e)%N
  end.

Definition fixed2 (h : N) : string :=
  (commas (digits (h / 100)) +:+ "." +:+ zfill 2 (digits (h mod 100)))%string.

Definition sign_str (s : bool) : string := if s then "-"%string else ""%string.

(** [f"{x:,.2f}"] for a float: two decimals of the exact binary value,
    rounded half to even; the sign is kept on a negative zero; NaN and
    the infinities print by name. *)
Definition format_2f (x : float) : string :=
  match Prim2SF x with
  | S754_nan => "nan"%string
  | S754_infinity s => (sign_str s +:+ "inf")%string
  | S754_zero s => (sign_str s +:+ fixed2 0)%string
  | S754_finite s m e => (sign_str s +:+ fixed2 (hundredths m e))%string
  end.

(** The shape of a formatted number, read character by character. *)
Definition chars (s : string) : list ascii := list_ascii_of_string s.

Definition is_digit (c : ascii) : bool :=
  let n := nat_of_ascii c in (48 <=? n)%nat && (n <=? 57)%nat.

Definition all_digits (l : list ascii) : bool := forallb is_digit l.

(** Digits with thousands separators: one to three digits, then groups
    of a comma and three digits. *)
Inductive Grouped : list ascii -> Prop :=
| Grouped_head (d : list ascii) :
    all_digits d = true -> (1 <= length d <= 3)%nat -> Grouped d
| Grouped_more (g d : list ascii) :
    Grouped g -> all_digits d = true -> length d = 3%nat ->
    Grouped (g ++ ","%char :: d).

(** An amount: an optional minus sign, grouped digits, a point, and
    exactly two decimals. *)
Definition Amount (s : string) : Prop :=
  exists sg g d,
    chars s = sg ++ g ++ "."%char :: d
    /\ (sg = [] \/ sg = ["-"%char])
    /\ Grouped g
    /\ all_digits d = true /\ length d = 2%nat.

(** The floats that are numbers: zeros and finite values. *)
Definition is_finite (x : float) : bool :=
  match Prim2SF x with
  | S754_zero _ | S754_finite _ _ _ => true
  | _ => false
  end.

(** ** Raw frames, the object store and effects

    A raw frame is what [read_csv] returns: named columns, each of one
    type.  Frames are Python objects: a variable holds a reference, and
    an item assignment changes the frame every holder of the reference
    sees. *)
Inductive Series :=
| Int64 (l : list Z)
| Float64 (l : list float)
| Object (l : list string)
| Datetime64 (l : list Timestamp).

Definition DataFrame := list (string * Series).

Inductive exn :=
| KeyError (key : string)
| ValueError (msg : string)
| Exception (msg : string)
| Unbound.

Definition loc := positive.

Record World := {
  heap : gmap loc DataFrame;
  files : gmap string string;
  stdout : list string
}.

(** Computations that read and change the world and may raise. *)
Definition M (A : Type) : Type := World -> (exn + A) * World.

Definition ret {A} (a : A) : M A := fun w => (inr a, w).

Definition bind {A B} (m : M A) (k : A -> M B) : M B :=
  fun w => match m w with
           | (inl e, w') => (inl e, w')
           | (inr a, w') => k a w'
           end.

Definition lift {A} (r : exn + A) : M A := fun w => (r, w).

Notation "'do' x <- m ; k" := (bind m (fun x => k))
  (at level 10, x pattern, m at level 100, k at level 200).

Definition deref (l : loc) : M DataFrame :=
  fun w => match heap w !! l with
           | Some d => (inr d, w)
           | None => (inl Unbound, w)
           end.

Definition assign (l : loc) (d : DataFrame) : M unit :=
  fun w => (inr tt, {| heap := <[l := d]> (heap w); files := files w; stdout := stdout w |}).

Definition alloc (d : DataFrame) : M loc :=
  fun w => let l := fresh (dom (heap w)) in
           (inr l, {| heap := <[l := d]> (heap w); files := files w; stdout := stdout w |}).

(** [open(path, "w")] followed by writes and the close: the file holds
    exactly what was written. *)
Definition write_file (path content : string) : M unit :=
  fun w => (inr tt, {| heap := heap w; files := <[path := content]> (files w);
                        stdout := stdout w |}).

(** [df[c]] *)
Fixpoint getitem (df : DataFrame) (c : string) : exn + Series :=
  match df with
  | [] => inl (KeyError c)
  | (c', s) :: df' => if String.eqb c c' then inr s else getitem df' c
  end.

(** [df[[c1, ..., cn]]]: a new frame with these columns in this order. *)
Fixpoint select (df : DataFrame) (cs : list string) : exn + DataFrame :=
  match cs with
  | [] => inr []
  | c :: cs' =>
      match getitem df c with
      | inl e => inl e
      | inr s => match select df cs' with
                 | inl e => inl e
                 | inr d => inr ((c, s) :: d)
                 end
      end
  end.

(** [df[c] = s]: the column is replaced where it stands, or added last. *)
Fixpoint setitem (df : DataFrame) (c : string) (s : Series) : DataFrame :=
  match df with
  | [] => [(c, s)]
  | (c', s') :: df' => if String.eqb c c' then (c', s) :: df' else (c', s') :: setitem df' c s
  end.

Definition columns (df : DataFrame) : list string := map fst df.

(** ** prepare_data (lines 25-34) *)
Section Prepare.
(** What [pd.to_datetime] makes of a column that is not yet
    datetime64: strings are parsed, numbers are counted from the epoch;
    a value it cannot read raises. *)
Variable convert : Series -> exn + list Timestamp.

Definition to_datetime (s : Series) : exn + Series :=
  match s with
  | Datetime64 l => inr (Datetime64 l)
  | _ => match convert s with
         | inl e => inl e
         | inr l => inr (Datetime64 l)
         end
  end.

Definition sales_columns : list string :=
  ["SalesOrderID"; "OrderDate"; "TotalDue"; "Status"; "CustomerID"]%string.

Definition product_columns : list string :=
  ["ProductID"; "Name"; "ListPrice"; "ProductLine"]%string.

Definition prepare_data (sales_data product_data : loc) : M (loc * loc) :=
  do sales <- deref sales_data;
  do col <- lift (getitem sales "OrderDate");
  do parsed <- lift (to_datetime col);
  do _ <- assign sales_data (setitem sales "OrderDate" parsed);
  do sales <- deref sales_data;
  do narrowed_sales <- lift (select sales sales_columns);
  do sales_data' <- alloc narrowed_sales;
  do products <- deref product_data;
  do narrowed_products <- lift (select products product_columns);
  do product_data' <- alloc narrowed_products;
  ret (sales_data', product_data').

End Prepare.

(** The prepared schemas: the narrowed columns, in the order the
    projection lists them, the order dates already datetime64. *)
Definition prepared_sales (df : DataFrame) : Prop :=
  columns df = sales_columns
  /\ exists dates, getitem df "OrderDate" = inr (Datetime64 dates).

Definition prepared_products (df : DataFrame) : Prop :=
  columns df = product_columns.

(** ** generate_insights (lines 95-112) *)

Definition float_of_nat (n : nat) : float := PrimFloat.of_uint63 (Uint63.of_Z (Z.of_nat n)).

(** [Series.mean()]: the sum of the column, as [Series.sum()] takes it,
    over the number of values that are present; NaN when there is
    none. *)
Definition series_mean (l : list float) : float :=
  match length (List.filter F64.notna l) with
  | O => PrimFloat.nan
  | n => (series_sum l / float_of_nat n)%float
  end.

(** The running maximum behind [idxmax]: the label and value of the
    first greatest value met so far, missing values skipped. *)
Fixpoint argmax_from (i : nat) (best : option (nat * float)) (l : list float)
  : option (nat * float) :=
  match l with
  | [] => best
  | x :: l' =>
      let best' :=
        if F64.notna x then
          match best with
          | None => Some (i, x)
          | Some (j, b) => if (b <? x)%float then Some (i, x) else best
          end
        else best in
      argmax_from (S i) best' l'
  end.

(** What the running maximum knows after the values [pre]. *)
Definition argmax_inv (pre : list float) (best : option (nat * float)) : Prop :=
  match best with
  | None => Forall (fun x => F64.notna x = false) pre
  | Some (k, v) =>
      nth_error pre k = Some v /\ F64.notna v = true
      /\ (forall j x, nth_error pre j = Some x -> F64.notna x = true ->
            (x <=? v)%float = true)
      /\ (forall j x, (j < k)%nat -> nth_error pre j = Some x -> F64.notna x = true ->
            (x <? v)%float = true)
  end.

(** [Series.idxmax()]: the label of the first occurrence of the
    maximum, missing values skipped.  An empty series raises; a series
    without a value gives the missing label NaN (with a warning, which
    the program silences). *)
Definition idxmax (l : list float) : exn + option nat :=
  match l with
  | [] => inl (ValueError "attempt to get argmax of an empty sequence")
  | _ => inr (option_map fst (argmax_from 0 None l))
  end.

(** [product_data.loc[label, 'Name']]; NaN is the label of no row. *)
Definition loc_Name (product_data : list ProductRow) (label : option nat) : exn + string :=
  match label with
  | None => inl (KeyError "nan")
  | Some k =>
      match nth_error product_data k with
      | Some r => inr (Name r)
      | None => inl (KeyError (digits (N.of_nat k)))
      end
  end.

Record Insights := {
  total_sales : float;
  total_orders : nat;
  avg_order_value : float;
  avg_product_price : float;
  most_expensive_product : string
}.

(** The dictionary of lines 97-103; its entries are evaluated in order. *)
Definition insights (sales_data : list (SalesRow float)) (product_data : list ProductRow)
  : exn + Insights :=
  let total := series_sum (map TotalDue sales_data) in
  let orders := length sales_data in
  let avg_order := series_mean (map TotalDue sales_data) in
  let avg_price := series_mean (map ListPrice product_data) in
  match idxmax (map ListPrice product_data) with
  | inl e => inl e
  | inr label =>
      match loc_Name product_data label with
      | inl e => inl e
      | inr name =>
          inr {| total_sales := total; total_orders := orders;
                 avg_order_value := avg_order; avg_product_price := avg_price;
                 most_expensive_product := name |}
      end
  end.

(** What lines 107-112 write, one [f.write] after the other. *)
Definition insights_lines (i : Insights) : list string :=
  [ "Key Business Insights:";
    "";
    "Total Sales: $" +:+ format_2f (total_sales i);
    "Total Orders: " +:+ format_count (total_orders i);
    "Average Order Value: $" +:+ format_2f (avg_order_value i);
    "Average Product Price: $" +:+ format_2f (avg_product_price i);
    "Most Expensive Product: " +:+ most_expensive_product i ]%string.

Definition insights_text (i : Insights) : string :=
  fold_right (fun line rest => (line +:+ nl +:+ rest)%string) ""%string (insights_lines i).

Definition generate_insights (sales_data : list (SalesRow float))
    (product_data : list ProductRow) : M unit :=
  do i <- lift (insights sales_data product_data);
  write_file "insights.txt" (insights_text i).

(** Some row of the table has a price. *)
Definition priced (product_data : list ProductRow) : bool :=
  existsb (fun r => F64.notna (ListPrice r)) product_data.

(** ** create_dashboard (lines 36-93)

    The figure is a plotly object local to the function.  What the
    function needs of plotly is the grid that [make_subplots] lays out
    and the check [add_trace] makes before it places a trace in a cell:
    a cell of a grid has a subplot type, ['xy'] unless its spec names
    another; a trace that is drawn against axes (scatter, histogram,
    bar) goes into an ['xy'] cell only, a pie into a ['domain'] cell
    only. *)
Inductive SubplotType := xy | domain.

Definition subplot_name (ty : SubplotType) : string :=
  match ty with xy => "xy" | domain => "domain" end.

Definition same_subplot (a b : SubplotType) : bool :=
  match a, b with xy, xy | domain, domain => true | _, _ => false end.

(** One dictionary of [specs]; [{}] is [default_spec]. *)
Record Spec := {
  spec_type : SubplotType;
  secondary_y : bool
}.

Definition default_spec : Spec := {| spec_type := xy; secondary_y := false |}.

Inductive Values :=
| Floats (l : list float)
| Counts (l : list nat).

Inductive Trace :=
| Scatter (x : list string) (y : Values) (name color : string)
| Pie (labels : list string) (values : list nat) (name : string)
| Histogram (x : list float) (name : string) (nbinsx : nat)
| Bar (x : list string) (y : list float) (name : string).

Definition trace_type (t : Trace) : string :=
  match t with
  | Scatter _ _ _ _ => "scatter"
  | Pie _ _ _ => "pie"
  | Histogram _ _ _ => "histogram"
  | Bar _ _ _ => "bar"
  end.

(** The subplot type a trace can be placed in. *)
Definition trace_subplot (t : Trace) : SubplotType :=
  match t with
  | Pie _ _ _ => domain
  | _ => xy
  end.

Record Figure := {
  grid_ref : list (list Spec);
  subplot_titles : list string;
  data : list (Trace * (nat * nat) * bool);
  height : option nat;
  width : option nat;
  title_text : option string;
  showlegend : option bool;
  tickangle : option Z
}.

Definition make_subplots (rows cols : nat) (titles : list string)
    (specs : list (list Spec)) : exn + Figure :=
  if negb ((length specs =? rows)%nat && forallb (fun r => (length r =? cols)%nat) specs)
  then inl (ValueError "The 'specs' argument to make_subplots must be a 2D list of dictionaries with the dimensions of the grid")
  else if existsb (existsb (fun sp => secondary_y sp && negb (same_subplot (spec_type sp) xy)))
                  specs
  then inl (ValueError "The 'secondary_y' spec property is not supported for this subplot type")
  else inr {| grid_ref := specs; subplot_titles := titles; data := [];
              height := None; width := None; title_text := None;
              showlegend := None; tickangle := None |}.

Definition grid_position (row col : nat) : string :=
  ("(" +:+ digits (N.of_nat row) +:+ ", " +:+ digits (N.of_nat col) +:+ ")")%string.

(** The error of a trace placed in a cell that does not take it. *)
Definition incompatible (typ subplot_type : string) (row col : nat) : exn :=
  ValueError ("Trace type '" +:+ typ
              +:+ "' is not compatible with subplot type '" +:+ subplot_type +:+ "'"
              +:+ nl +:+ "at grid position " +:+ grid_position row col
              +:+ nl +:+ nl
              +:+ "See the docstring for the specs argument to plotly.subplots.make_subplots"
              +:+ nl +:+ "for more information on subplot types")%string.

(** [fig.add_trace(trace, row=row, col=col, secondary_y=secondary)];
    rows and columns are counted from 1. *)
Definition add_trace (fig : Figure) (trace : Trace) (row col : nat) (secondary : bool)
  : exn + Figure :=
  if (row =? 0)%nat
  then inl (Exception "Row value is out of range. Note: the starting cell is (1, 1)")
  else if (col =? 0)%nat
  then inl (Exception "Col value is out of range. Note: the starting cell is (1, 1)")
  else
    match nth_error (grid_ref fig) (row - 1) with
    | None => inl (Exception "The (row, col) pair sent is out of range.")
    | Some cells =>
        match nth_error cells (col - 1) with
        | None => inl (Exception "The (row, col) pair sent is out of range.")
        | Some cell =>
            if secondary && negb (secondary_y cell)
            then inl (ValueError
                        ("Subplot with type '" +:+ subplot_name (spec_type cell)
                         +:+ "' at grid position " +:+ grid_position row col
                         +:+ " was not created with the secondary_y spec property set to True.")%string)
            else if same_subplot (trace_subplot trace) (spec_type cell)
            then inr {| grid_ref := grid_ref fig; subplot_titles := subplot_titles fig;
                        data := data fig ++ [(trace, (row, col), secondary)];
                        height := height fig; width := width fig;
                        title_text := title_text fig; showlegend := showlegend fig;
                        tickangle := tickangle fig |}
            else inl (incompatible (trace_type trace) (subplot_name (spec_type cell))
                                   row col)
        end
    end.

Definition update_layout (fig : Figure) (h w : nat) (title : string) (legend : bool)
  : Figure :=
  {| grid_ref := grid_ref fig; subplot_titles := subplot_titles fig; data := data fig;
     height := Some h; width := Some w; title_text := Some title;
     showlegend := Some legend; tickangle := tickangle fig |}.

Definition update_xaxes (fig : Figure) (angle : Z) : Figure :=
  {| grid_ref := grid_ref fig; subplot_titles := subplot_titles fig; data := data fig;
     height := height fig; width := width fig; title_text := title_text fig;
     showlegend := showlegend fig; tickangle := Some angle |}.

Section Render.
(** [fig.write_html]: the figure as one HTML page. *)
Variable to_html : Figure -> string.

Definition create_dashboard (sales_data : list (SalesRow float))
    (product_data : list ProductRow) : M unit :=
  do fig <- lift (make_subplots 2 2
                    ["Monthly Sales Trend"; "Sales Status Distribution";
                     "Price Distribution"; "Top Products by Price"]%string
                    [[{| spec_type := xy; secondary_y := true |}; default_spec];
                     [default_spec; default_spec]]);
  let monthly := monthly_sales sales_data in
  do fig <- lift (add_trace fig
                    (Scatter (map (fun m => m.1.1) monthly)
                             (Floats (map (fun m => m.1.2) monthly)) "Total Sales" "blue")
                    1 1 false);
  do fig <- lift (add_trace fig
                    (Scatter (map (fun m => m.1.1) monthly)
                             (Counts (map (fun m => m.2) monthly)) "Order Count" "red")
                    1 1 true);
  let statuses := status_dist sales_data in
  do fig <- lift (add_trace fig
                    (Pie (map fst statuses) (map snd statuses) "Status Distribution")
                    1 2 false);
  do fig <- lift (add_trace fig
                    (Histogram (price_column product_data) "Price Distribution" 30)
                    2 1 false);
  let top := top_products product_data in
  do fig <- lift (add_trace fig
                    (Bar (map (fun r => Name r.2) top) (map (fun r => ListPrice r.2) top)
                         "Top Products")
                    2 2 false);
  let fig := update_layout fig 800 1200 "Sales & Pricing Operations Dashboard" true in
  let fig := update_xaxes fig 45 in
  write_file "sales_dashboard.html" (to_html fig).

End Render.

(** ** Tables and frames for the scenarios *)

Definition empty_world : World := {| heap := ∅; files := ∅; stdout := [] |}.

Definition order {A} (d : Timestamp) (due : A) : SalesRow A :=
  {| SalesOrderID := Some 0; OrderDate := d; TotalDue := due;
     Status := Some "Shipped"%string; CustomerID := 0 |}.

Definition product (name : string) (price : float) : ProductRow :=
  {| ProductID := 0; Name := name; ListPrice := price; ProductLine := "R" |}.

Definition scenario_orders {A} (a b c : A) : list (SalesRow A) :=
  [order (ymd 2023 1 15) a; order (ymd 2023 1 20) b; order (ymd 2023 2 1) c].

Definition scenario_products : list ProductRow :=
  [product "A" 10; product "B" 999; product "C" 5; product "D" 500].

(** A conversion for the examples: a column of strings holding ISO
    dates YYYY-MM-DD is parsed, a column of integers counts nanoseconds
    from the epoch; other input is refused. *)
Definition digit_value (c : ascii) : option Z :=
  let n := Z.of_nat (nat_of_ascii c) in
  if (48 <=? n) && (n <=? 57) then Some (n - 48) else None.

Definition is_leap (y : Z) : bool :=
  ((y mod 4 =? 0) && negb (y mod 100 =? 0)) || (y mod 400 =? 0).

Definition days_in_month (y m : Z) : Z :=
  if m =? 2 then (if is_leap y then 29 else 28)
  else if (m =? 4) || (m =? 6) || (m =? 9) || (m =? 11) then 30 else 31.

Definition parse_iso_date (s : string) : option Timestamp :=
  match list_ascii_of_string s with
  | [y1; y2; y3; y4; "-"%char; m1; m2; "-"%char; d1; d2] =>
      match digit_value y1, digit_value y2, digit_value y3, digit_value y4,
            digit_value m1, digit_value m2, digit_value d1, digit_value d2 with
      | Some a, Some b, Some c, Some d, Some e, Some f, Some g, Some h =>
          let y := 1000 * a + 100 * b + 10 * c + d in
          let m := 10 * e + f in
          let dd := 10 * g + h in
          if (1 <=? m) && (m <=? 12) && (1 <=? dd) && (dd <=? days_in_month y m)
          then Some (ymd y m dd) else None
      | _, _, _, _, _, _, _, _ => None
      end
  | _ => None
  end.

Fixpoint parse_all (l : list string) : option (list Timestamp) :=
  match l with
  | [] => Some []
  | s :: l' =>
      match parse_iso_date s, parse_all l' with
      | Some t, Some ts => Some (t :: ts)
      | _, _ => None
      end
  end.

Definition convert_iso (s : Series) : exn + list Timestamp :=
  match s with
  | Object l =>
      match parse_all l with
      | Some ts => inr ts
      | None => inl (ValueError "time data does not match format")
      end
  | Int64 l => inr l
  | _ => inl (ValueError "not convertible")
  end.

Definition raw_sales : DataFrame :=
  [ ("SalesOrderID", Int64 [43659; 43660]);
    ("RevisionNumber", Int64 [8; 8]);
    ("OrderDate", Object ["2023-01-15"; "2023-02-01"]);
    ("Status", Object ["Shipped"; "Cancelled"]);
    ("CustomerID", Int64 [29825; 29672]);
    ("TotalDue", Float64 [100%float; 75%float]) ]%string.

Definition raw_products : DataFrame :=
  [ ("ProductID", Int64 [1; 2]);
    ("Name", Object ["A"; "B"]);
    ("ProductNumber", Object ["AR-5381"; "BA-8327"]);
    ("ListPrice", Float64 [10%float; 999%float]);
    ("ProductLine", Object ["R"; "M"]) ]%string.

Definition raw_world : World :=
  {| heap := {[ 1%positive := raw_sales; 2%positive := raw_products ]};
     files := ∅; stdout := [] |}.

Definition narrowed_sales : DataFrame :=
  [ ("SalesOrderID", Int64 [43659; 43660]);
    ("OrderDate", Datetime64 [ymd 2023 1 15; ymd 2023 2 1]);
    ("TotalDue", Float64 [100%float; 75%float]);
    ("Status", Object ["Shipped"; "Cancelled"]);
    ("CustomerID", Int64 [29825; 29672]) ]%string.

Definition narrowed_products : DataFrame :=
  [ ("ProductID", Int64 [1; 2]);
    ("Name", Object ["A"; "B"]);
    ("ListPrice", Float64 [10%float; 999%float]);
    ("ProductLine", Object ["R"; "M"]) ]%string.

Definition prepared_world : World :=
  {| heap := {[ 1%positive := narrowed_sales; 2%positive := narrowed_products ]};
     files := ∅; stdout := [] |}.

Definition mutated_sales : DataFrame :=
  [ ("SalesOrderID", Int64 [43659; 43660]);
    ("RevisionNumber", Int64 [8; 8]);
    ("OrderDate", Datetime64 [ymd 2023 1 15; ymd 2023 2 1]);
    ("Status", Object ["Shipped"; "Cancelled"]);
    ("CustomerID", Int64 [29825; 29672]);
    ("TotalDue", Float64 [100%float; 75%float]) ]%string.

Definition world_after_raw : World :=
  {| heap := {[ 1%positive := mutated_sales; 2%positive := raw_products;
                3%positive := narrowed_sales; 4%positive := narrowed_products ]};
     files := ∅; stdout := [] |}.

(** ** Frames for the failing runs of preparation *)

(** An order frame whose dates do not read as dates. *)
Definition undated_sales : DataFrame :=
  [ ("SalesOrderID", Int64 [43659]);
    ("OrderDate", Object ["not a date"]);
    ("TotalDue", Float64 [100%float]);
    ("Status", Object ["Shipped"]);
    ("CustomerID", Int64 [29825]) ]%string.

(** An order frame without the amounts. *)
Definition unpriced_sales : DataFrame :=
  [ ("SalesOrderID", Int64 [43659]);
    ("OrderDate", Object ["2023-01-15"]);
    ("Status", Object ["Shipped"]);
    ("CustomerID", Int64 [29825]) ]%string.

(** A product frame without the product lines. *)
Definition unlined_products : DataFrame :=
  [ ("ProductID", Int64 [1]);
    ("Name", Object ["A"]);
    ("ListPrice", Float64 [10%float]) ]%string.

Definition world_of (sales products : DataFrame) : World :=
  {| heap := {[ 1%positive := sales; 2%positive := products ]};
     files := ∅; stdout := [] |}.

(** ** Reading the written numbers back

    What a reader of the insights file does with a number: the
    separators are dropped and the digits are read in base ten, as
    [int(text.replace(",", ""))] does; an amount is read in hundredths,
    with its sign. *)
Definition digit_of (c : ascii) : option N :=
  if is_digit c then Some (N.of_nat (nat_of_ascii c - 48)) else None.

Fixpoint read_digits (acc : N) (l : list ascii) : option N :=
  match l with
  | [] => Some acc
  | c :: l' =>
      match digit_of c with
      | Some d => read_digits (10 * acc + d) l'
      | None => None
      end
  end.

Definition is_comma (c : ascii) : bool := Ascii.eqb c ","%char.

Definition is_separator (c : ascii) : bool := is_comma c || Ascii.eqb c "."%char.

Definition read_count (s : string) : option N :=
  match List.filter (fun c => negb (is_comma c)) (chars s) with
  | [] => None
  | ds => read_digits 0 ds
  end.

Definition read_amount (s : string) : option (bool * N) :=
  let signed :=
    match chars s with
    | c :: l => if Ascii.eqb c "-"%char then (true, l) else (false, c :: l)
    | [] => (false, [])
    end in
  match List.filter (fun c => negb (is_separator c)) signed.2 with
  | [] => None
  | ds => option_map (pair signed.1) (read_digits 0 ds)
  end.

(** ** fetch_retail_data (lines 12-23) and main (lines 114-132) *)

(** [print(line)]: one more line on the console. *)
Definition print (line : string) : M unit :=
  fun w => (inr tt, {| heap := heap w; files := files w; stdout := stdout w ++ [line] |}).

(** What [requests.get] returns when it returns: a status code and a
    body.  The program reads the body only. *)
Record Response := {
  status_code : Z;
  text : string
}.

Definition url : string :=
  "https://raw.githubusercontent.com/microsoft/sql-server-samples/master/samples/databases/adventureworks/data/csv/Sales.SalesOrderHeader.csv".

Definition product_url : string :=
  "https://raw.githubusercontent.com/microsoft/sql-server-samples/master/samples/databases/adventureworks/data/csv/Production.Product.csv".

Section Main.
(** The network and the libraries: the request, which raises when no
    response comes; the CSV reader, which raises on text it cannot read;
    the date conversion; the plotting library; and the reading of a
    prepared frame's columns at the types the two consumers compute
    with, which raises on a column of another type. *)
Variable requests_get : string -> exn + Response.
Variable read_csv : string -> exn + DataFrame.
Variable convert : Series -> exn + list Timestamp.
Variable to_html : Figure -> string.
Variable sales_table : DataFrame -> exn + list (SalesRow float).
Variable product_table : DataFrame -> exn + list ProductRow.

Definition fetch_retail_data : M (loc * loc) :=
  do response <- lift (requests_get url);
  do sales <- lift (read_csv (text response));
  do sales_data <- alloc sales;
  do product_response <- lift (requests_get product_url);
  do products <- lift (read_csv (text product_response));
  do product_data <- alloc products;
  ret (sales_data, product_data).

(** [create_dashboard] and [generate_insights] are handed the two
    prepared frames and compute on their columns; the frames are read as
    tables at each of the two calls. *)
Definition tables (sales_data product_data : loc)
  : M (list (SalesRow float) * list ProductRow) :=
  do sales <- deref sales_data;
  do products <- deref product_data;
  do s <- lift (sales_table sales);
  do p <- lift (product_table products);
  ret (s, p).

Definition main : M unit :=
  do _ <- print "Fetching data...";
  do fetched <- fetch_retail_data;
  do _ <- print "Preparing data...";
  do prepared <- prepare_data convert fetched.1 fetched.2;
  do _ <- print "Creating dashboard...";
  do t <- tables prepared.1 prepared.2;
  do _ <- create_dashboard to_html t.1 t.2;
  do _ <- print "Generating insights...";
  do t <- tables prepared.1 prepared.2;
  do _ <- generate_insights t.1 t.2;
  do _ <- print (nl +:+ "Dashboard and insights have been generated successfully!");
  do _ <- print "Open 'sales_dashboard.html' in your web browser to view the dashboard.";
  print "Check 'insights.txt' for key business metrics.".

End Main.

(** A computation confined to the object store: it leaves the files and
    the console alone, and what it does depends on the store only. *)
Definition store_only {A} (m : M A) : Prop :=
  forall (w : World) (f : gmap string string) (o : list string),
    m {| heap := heap w; files := f; stdout := o |}
    = ((m w).1, {| heap := heap (m w).2; files := f; stdout := o |}).

(** ** Pages, readers and tables for the runs of main *)

Definition sales_csv : string :=
  "SalesOrderID,RevisionNumber,OrderDate,Status,CustomerID,TotalDue" +:+ nl
  +:+ "43659,8,2023-01-15,Shipped,29825,100.0" +:+ nl
  +:+ "43660,8,2023-02-01,Cancelled,29672,75.0" +:+ nl.

Definition product_csv : string :=
  "ProductID,Name,ProductNumber,ListPrice,ProductLine" +:+ nl
  +:+ "1,A,AR-5381,10.0,R" +:+ nl
  +:+ "2,B,BA-8327,999.0,M" +:+ nl.

(** The frame read from a body that is one line of text: one column,
    named by the line, and no row. *)
Definition header_only (line : string) : DataFrame := [(line, Object [])].

Definition read_pages (body : string) : exn + DataFrame :=
  if String.eqb body "" then inl (ValueError "No columns to parse from file")
  else if String.eqb body sales_csv then inr raw_sales
  else if String.eqb body product_csv then inr raw_products
  else inr (header_only body).

(** A server that has both files. *)
Definition serve (products_body : string) (u : string) : exn + Response :=
  if String.eqb u url then inr {| status_code := 200; text := sales_csv |}
  else if String.eqb u product_url then inr {| status_code := 200; text := products_body |}
  else inr {| status_code := 404; text := "404: Not Found" |}.

(** A server that has neither file and says so. *)
Definition serve_not_found (u : string) : exn + Response :=
  inr {| status_code := 404; text := "404: Not Found" |}.

(** A server that answers with an empty body. *)
Definition serve_nothing (u : string) : exn + Response :=
  inr {| status_code := 200; text := "" |}.

Fixpoint sales_rows (ids : list Z) (dates : list Timestamp) (dues : list float)
    (statuses : list string) (customers : list Z) : list (SalesRow float) :=
  match ids, dates, dues, statuses, customers with
  | i :: ids', d :: dates', t :: dues', s :: statuses', c :: customers' =>
      {| SalesOrderID := Some i; OrderDate := d; TotalDue := t; Status := Some s;
         CustomerID := c |}
      :: sales_rows ids' dates' dues' statuses' customers'
  | _, _, _, _, _ => []
  end.

Definition typed_sales (df : DataFrame) : exn + list (SalesRow float) :=
  match getitem df "SalesOrderID", getitem df "OrderDate", getitem df "TotalDue",
        getitem df "Status", getitem df "CustomerID" with
  | inr (Int64 ids), inr (Datetime64 dates), inr (Float64 dues),
    inr (Object statuses), inr (Int64 customers) =>
      inr (sales_rows ids dates dues statuses customers)
  | _, _, _, _, _ => inl (ValueError "column types")
  end.

Fixpoint product_rows (ids : list Z) (names : list string) (prices : list float)
    (lines : list string) : list ProductRow :=
  match ids, names, prices, lines with
  | i :: ids', n :: names', p :: prices', l :: lines' =>
      {| ProductID := i; Name := n; ListPrice := p; ProductLine := l |}
      :: product_rows ids' names' prices' lines'
  | _, _, _, _ => []
  end.

Definition typed_products (df : DataFrame) : exn + list ProductRow :=
  match getitem df "ProductID", getitem df "Name", getitem df "ListPrice",
        getitem df "ProductLine" with
  | inr (Int64 ids), inr (Object names), inr (Float64 prices), inr (Object lines) =>
      inr (product_rows ids names prices lines)
  | _, _, _, _ => inl (ValueError "column types")
  end.

Definition page (fig : Figure) : string := "<html>".

Definition served_orders : list (SalesRow float) :=
  [ {| SalesOrderID := Some 43659; OrderDate := ymd 2023 1 15; TotalDue := 100%float;
       Status := Some "Shipped"%string; CustomerID := 29825 |};
    {| SalesOrderID := Some 43660; OrderDate := ymd 2023 2 1; TotalDue := 75%float;
       Status := Some "Cancelled"%string; CustomerID := 29672 |} ].

Definition served_products : list ProductRow :=
  [ {| ProductID := 1; Name := "A"; ListPrice := 10%float; ProductLine := "R" |};
    {| ProductID := 2; Name := "B"; ListPrice := 999%float; ProductLine := "M" |} ].

(** ** Months in time order *)

(** The month of [a] comes before the month of [b]. *)
Definition month_before (a b : Timestamp) : Prop :=
  year_of a < year_of b \/ (year_of a = year_of b /\ month_of a < month_of b).

(** The months of the years 1000 to 9999, numbered from 0, and the key
    [strftime('%Y-%m')] gives the month of a number. *)
Definition month_number (t : Timestamp) : Z := (year_of t - 1000) * 12 + (month_of t - 1).

Definition key_of_month_number (n : Z) : string :=
  (str_Z (1000 + n / 12) +:+ "-" +:+ zfill 2 (str_Z (n mod 12 + 1)))%string.

(** A check of all the integers from 0 up to [n], [n] left out. *)
Definition all_below (f : Z -> bool) (n : N) : bool :=
  (N.iter n (fun p : Z * bool => (p.1 + 1, p.2 && f p.1)) (0, true)).2.

(** * Properties *)

(** ** The order of binary64 values

    Read off [SpecFloat.SFcompare] through the rank: on the floats that
    are not NaN, [<?] is a strict total order and [<=?] its reflexive
    closure. *)
Module F64_order.
Import F64.

Lemma SFcompare_rank (f g : spec_float) :
  SFcompare f g =
  match rank f, rank g with
  | Some a, Some b => Some (lex3 a b)
  | _, _ => None
  end.
Proof.
  destruct f as [s| s| |s m e], g as [s'| s'| |s' m' e'];
    try destruct s; try destruct s'; try reflexivity; cbn [SFcompare rank lex3].
  change (-1 ?= -1) with Eq; cbv iota.
  rewrite Z.compare_opp, (Z.compare_antisym e e').
  destruct (e ?= e'); reflexivity.
Qed.

Lemma lex3_Lt a b :
  lex3 a b = Lt <->
  (a.1.1 < b.1.1 \/
   (a.1.1 = b.1.1 /\ (a.1.2 < b.1.2 \/ (a.1.2 = b.1.2 /\ a.2 < b.2)))).
Proof.
  destruct a as [[a1 a2] a3], b as [[b1 b2] b3]; cbn.
  destruct (Z.compare_spec a1 b1), (Z.compare_spec a2 b2), (Z.compare_spec a3 b3);
    split; intros H'; try discriminate; try reflexivity; lia.
Qed.

Lemma lex3_Eq a b : lex3 a b = Eq <-> a = b.
Proof.
  destruct a as [[a1 a2] a3], b as [[b1 b2] b3]; cbn.
  destruct (Z.compare_spec a1 b1), (Z.compare_spec a2 b2), (Z.compare_spec a3 b3);
    split; intros H'; try discriminate; try reflexivity;
      try (injection H' as -> -> ->); try lia; congruence.
Qed.

Lemma lex3_Gt a b : lex3 a b = Gt <-> lex3 b a = Lt.
Proof.
  destruct a as [[a1 a2] a3], b as [[b1 b2] b3]; cbn.
  destruct (Z.compare_spec a1 b1), (Z.compare_spec a2 b2), (Z.compare_spec a3 b3);
    destruct (Z.compare_spec b1 a1), (Z.compare_spec b2 a2), (Z.compare_spec b3 a3);
    split; intros H'; try discriminate; try reflexivity; lia.
Qed.

Lemma notna_key x : notna x = true <-> exists a, key x = Some a.
Proof.
  unfold notna, PrimFloat.is_nan, key.
  rewrite FloatAxioms.eqb_spec. unfold SFeqb. rewrite SFcompare_rank.
  destruct (rank (Prim2SF x)) as [a|].
  - assert (lex3 a a = Eq) as -> by (apply lex3_Eq; reflexivity).
    split; eauto.
  - split; [discriminate | intros [a Ha]; discriminate].
Qed.

Lemma ltb_key x y :
  (x <? y)%float = true <->
  exists a b, key x = Some a /\ key y = Some b /\ lex3 a b = Lt.
Proof.
  rewrite FloatAxioms.ltb_spec. unfold SFltb, key. rewrite SFcompare_rank.
  destruct (rank (Prim2SF x)) as [a|], (rank (Prim2SF y)) as [b|];
    try (split; [discriminate | intros (?&?&?&?&?); discriminate]).
  split.
  - destruct (lex3 a b) eqn:E; try discriminate. eauto.
  - intros (a'&b'&[= <-]&[= <-]&->). reflexivity.
Qed.

Lemma leb_key x y :
  (x <=? y)%float = true <->
  exists a b, key x = Some a /\ key y = Some b /\ lex3 b a <> Lt.
Proof.
  rewrite FloatAxioms.leb_spec. unfold SFleb, key. rewrite SFcompare_rank.
  destruct (rank (Prim2SF x)) as [a|], (rank (Prim2SF y)) as [b|];
    try (split; [discriminate | intros (?&?&?&?&?); discriminate]).
  split.
  - intros H. exists a, b. repeat split. intros Hlt.
    apply lex3_Gt in Hlt. rewrite Hlt in H. discriminate.
  - intros (a'&b'&[= <-]&[= <-]&Hn).
    destruct (lex3 a b) eqn:E; try reflexivity.
    apply lex3_Gt in E. contradiction.
Qed.

Lemma eqb_key x y :
  (x =? y)%float = true <-> exists a, key x = Some a /\ key y = Some a.
Proof.
  rewrite FloatAxioms.eqb_spec. unfold SFeqb, key. rewrite SFcompare_rank.
  destruct (rank (Prim2SF x)) as [a|], (rank (Prim2SF y)) as [b|];
    try (split; [discriminate | intros (?&?&?); discriminate]).
  split.
  - destruct (lex3 a b) eqn:E; try discriminate.
    apply lex3_Eq in E as ->. eauto.
  - intros (c&[= ->]&[= ->]).
    assert (lex3 c c = Eq) as -> by (apply lex3_Eq; reflexivity). reflexivity.
Qed.

(** The order of the floats that are not NaN: [<?] is a strict total
    order and [<=?] its reflexive closure. *)
Ltac order_keys :=
  repeat match goal with
  | H : (_ <? _)%float = true |- _ => apply ltb_key in H; destruct H as (?&?&?&?&H)
  | H : (_ <=? _)%float = true |- _ => apply leb_key in H; destruct H as (?&?&?&?&H)
  | H : (_ =? _)%float = true |- _ => apply eqb_key in H; destruct H as (?&?&H)
  | H : notna _ = true |- _ => apply notna_key in H; destruct H as (?&H)
  end;
  repeat match goal with
  | H : key ?x = Some ?a, H' : key ?x = Some ?b |- _ =>
      assert (b = a) by congruence; subst b; clear H'
  end.

Ltac order_arith :=
  repeat match goal with
  | H : lex3 _ _ = Lt |- _ => apply lex3_Lt in H
  | H : lex3 _ _ <> Lt |- _ => rewrite lex3_Lt in H
  | |- lex3 _ _ = Lt => apply lex3_Lt
  | |- lex3 _ _ <> Lt => rewrite lex3_Lt
  end;
  repeat match goal with a : (Z * Z * Z)%type |- _ => destruct a as [[? ?] ?] end;
  cbn [fst snd] in *; lia.

Lemma ltb_notna x y : (x <? y)%float = true -> notna x = true /\ notna y = true.
Proof. intros H. order_keys. split; apply notna_key; eauto. Qed.

Lemma leb_refl x : notna x = true -> (x <=? x)%float = true.
Proof. intros H. order_keys. apply leb_key. do 2 eexists. repeat split; eauto. order_arith. Qed.

Lemma ltb_leb x y : (x <? y)%float = true -> (x <=? y)%float = true.
Proof. intros H. order_keys. apply leb_key. do 2 eexists. repeat split; eauto. order_arith. Qed.

Lemma leb_trans x y z :
  (x <=? y)%float = true -> (y <=? z)%float = true -> (x <=? z)%float = true.
Proof.
  intros H1 H2. order_keys. apply leb_key. do 2 eexists. repeat split; eauto. order_arith.
Qed.

Lemma leb_ltb_trans x y z :
  (x <=? y)%float = true -> (y <? z)%float = true -> (x <? z)%float = true.
Proof.
  intros H1 H2. order_keys. apply ltb_key. do 2 eexists. repeat split; eauto. order_arith.
Qed.

Lemma nlt_leb x y :
  notna x = true -> notna y = true -> (x <? y)%float = false -> (y <=? x)%float = true.
Proof.
  intros Hx Hy Hlt. order_keys. apply leb_key. do 2 eexists. repeat split; eauto.
  intros Hc. enough ((x <? y)%float = true) by congruence.
  apply ltb_key. eauto.
Qed.

Lemma ltb_eqb_false x y : (x <? y)%float = true -> (y =? x)%float = false.
Proof.
  intros H. destruct (y =? x)%float eqn:E; [|reflexivity].
  exfalso. order_keys. order_arith.
Qed.

Lemma eqb_notna x y : (x =? y)%float = true -> notna x = true /\ notna y = true.
Proof. intros H. order_keys. split; apply notna_key; eauto. Qed.

Lemma notna_is_nan x : notna x = true <-> PrimFloat.is_nan x = false.
Proof. unfold notna. destruct (PrimFloat.is_nan x); cbn; split; congruence. Qed.

End F64_order.

(** ** Dates and number formats on examples *)

Example strftime_Ym_2023_01_15 : strftime_Ym (ymd 2023 1 15) = "2023-01"%string.
Proof. vm_compute. reflexivity. Qed.

Example strftime_Ym_leap_day :
  strftime_Ym (ymd 2024 2 29 + 86399 * 1000000000) = "2024-02"%string
  /\ strftime_Ym (ymd 2024 2 29 + ns_per_day) = "2024-03"%string
  /\ strftime_Ym (-1) = "1969-12"%string.
Proof. vm_compute. auto. Qed.

Example format_2f_examples :
  format_2f 1234567.891 = "1,234,567.89"%string
  /\ format_2f 0.125 = "0.12"%string
  /\ format_2f 0.375 = "0.38"%string
  /\ format_2f 2.675 = "2.67"%string
  /\ format_2f (-1000) = "-1,000.00"%string
  /\ format_2f 999.995 = "1,000.00"%string
  /\ format_2f (0 / 0) = "nan"%string
  /\ format_count 0 = "0"%string
  /\ format_count 31465 = "31,465"%string.
Proof. vm_compute. repeat split. Qed.

Example monthly_sales_scenario_float :
  monthly_sales [order (ymd 2023 1 15) 100%float; order (ymd 2023 1 20) 50%float;
                 order (ymd 2023 2 1) 75%float]
  = [("2023-01"%string, 150%float, 2%nat); ("2023-02"%string, 75%float, 1%nat)].
Proof. vm_compute. reflexivity. Qed.

Example value_counts_scenario :
  value_counts [Some "Shipped"; None; Some "Shipped"; Some "Cancelled"]%string
  = [("Shipped"%string, 2%nat); ("Cancelled"%string, 1%nat)].
Proof. vm_compute. reflexivity. Qed.

Example top_products_scenario :
  map (fun r => (r.1, Name r.2))
      (top_products [product "A" 10; product "B" 999; product "C" 5; product "D" 500])
  = [(1%nat, "B"%string); (3%nat, "D"%string); (0%nat, "A"%string); (2%nat, "C"%string)].
Proof. vm_compute. reflexivity. Qed.

Example insights_scenario :
  (generate_insights [order (ymd 2023 1 15) 100%float; order (ymd 2023 1 20) 50.5%float]
     [product "A" 10; product "B" 999; product "C" 5; product "D" 500] empty_world).2
  = {| heap := ∅; stdout := [];
       files := {[ "insights.txt"%string :=
         ("Key Business Insights:" +:+ nl +:+ nl +:+
          "Total Sales: $150.50" +:+ nl +:+
          "Total Orders: 2" +:+ nl +:+
          "Average Order Value: $75.25" +:+ nl +:+
          "Average Product Price: $378.50" +:+ nl +:+
          "Most Expensive Product: B" +:+ nl)%string ]} |}.
Proof. vm_compute. reflexivity. Qed.

(** ** Sums of floats *)

(** The length of the array is fuel enough for the pairwise sum: with
    any fuel at least that, the same sum comes out. *)
Lemma pairwise_rec_enough (f1 f2 : nat) (a : list float) :
  (length a <= f1)%nat -> (length a <= f2)%nat -> pairwise_rec f1 a = pairwise_rec f2 a.
Proof.
  revert f2 a. induction f1 as [|f1 IH]; intros f2 a H1 H2.
  - destruct a; [|cbn in H1; lia]. destruct f2; reflexivity.
  - destruct f2 as [|f2]; [destruct a; [reflexivity|cbn in H2; lia]|].
    cbn [pairwise_rec]. cbv zeta.
    destruct (length a <? 8)%nat; [reflexivity|].
    destruct (Nat.leb_spec (length a) 128) as [|Hlong]; [reflexivity|].
    assert (Hhalf : (64 <= length a / 2)%nat)
      by (apply Nat.div_le_lower_bound; lia).
    assert (Hlt : (length a / 2 < length a)%nat) by (apply Nat.div_lt; lia).
    assert (Hmod : ((length a / 2) mod 8 < 8)%nat) by (apply Nat.mod_upper_bound; lia).
    f_equal; apply IH; rewrite ?length_firstn, ?length_skipn; lia.
Qed.

Lemma pairwise_rec_fuel (f : nat) (a : list float) :
  (length a <= f)%nat -> pairwise_rec f a = pairwise_sum a.
Proof. intros Hf. apply pairwise_rec_enough; [exact Hf|lia]. Qed.

(** Sixteen values are not added from the left: the sixteen values 1,
    2^53, 1, ..., 1 add in eight accumulators to 2^53 + 14, from the
    left to 2^53. *)
Example pairwise_sum_sixteen :
  series_sum (1 :: 9007199254740992 :: repeat 1 14)%float = 9007199254741006%float
  /\ fold_left PrimFloat.add (1 :: 9007199254740992 :: repeat 1 14)%float 0%float
     = 9007199254740992%float.
Proof. vm_compute. split; reflexivity. Qed.

(** The grouped sum carries what an addition rounds away into the
    next: 2^53, 1, 1 add to 2^53 + 2 in a group, to 2^53 in a column. *)
Example group_sum_compensates :
  group_sum [9007199254740992; 1; 1]%float = 9007199254740994%float
  /\ series_sum [9007199254740992; 1; 1]%float = 9007199254740992%float.
Proof. vm_compute. split; reflexivity. Qed.

(** ** Sums over an exact column type *)

Lemma wrap64_add_l (a b : Z) : wrap64 (wrap64 a + b) = wrap64 (a + b).
Proof.
  unfold wrap64. f_equal.
  replace ((a + 2 ^ 63) mod 2 ^ 64 - 2 ^ 63 + b + 2 ^ 63)
    with ((a + 2 ^ 63) mod 2 ^ 64 + b) by ring.
  rewrite Z.add_mod_idemp_l by discriminate. f_equal. ring.
Qed.

Lemma wrap64_add_r (a b : Z) : wrap64 (a + wrap64 b) = wrap64 (a + b).
Proof. rewrite (Z.add_comm a), wrap64_add_l, Z.add_comm. reflexivity. Qed.

Lemma wrap64_sub_l (a b : Z) : wrap64 (wrap64 a - b) = wrap64 (a - b).
Proof. unfold Z.sub. apply wrap64_add_l. Qed.

Lemma wrap64_sub_r (a b : Z) : wrap64 (a - wrap64 b) = wrap64 (a - b).
Proof.
  unfold wrap64. f_equal.
  replace (a - ((b + 2 ^ 63) mod 2 ^ 64 - 2 ^ 63) + 2 ^ 63)
    with (a + 2 ^ 63 + 2 ^ 63 - (b + 2 ^ 63) mod 2 ^ 64) by ring.
  rewrite Zminus_mod_idemp_r. f_equal. ring.
Qed.

Lemma wrap64_idem (z : Z) : wrap64 (wrap64 z) = wrap64 z.
Proof.
  unfold wrap64. f_equal.
  replace ((z + 2 ^ 63) mod 2 ^ 64 - 2 ^ 63 + 2 ^ 63) with ((z + 2 ^ 63) mod 2 ^ 64) by ring.
  apply Z.mod_mod. discriminate.
Qed.

(** Within the range of int64 nothing wraps. *)
Lemma wrap64_small (z : Z) : - 2 ^ 63 <= z < 2 ^ 63 -> wrap64 z = z.
Proof. intros Hz. unfold wrap64. rewrite Z.mod_small; lia. Qed.

Example wrap64_overflow : wrap64 (9223372036854775807 + 1) = -9223372036854775808.
Proof. reflexivity. Qed.

#[export] Instance int64_exact : ExactDtype Z.
Proof.
  split; cbn [num_add num_sub num_zero num_notna num_sum int64]; intros.
  - rewrite wrap64_add_l, wrap64_add_r. f_equal. ring.
  - f_equal. ring.
  - reflexivity.
  - rewrite Z.add_0_l. apply wrap64_idem.
  - rewrite Z.sub_0_r, wrap64_add_r. reflexivity.
  - rewrite wrap64_sub_l.
    replace (wrap64 (s + y) - s - y) with (wrap64 (s + y) + (- s - y)) by ring.
    rewrite wrap64_add_l. replace (s + y + (- s - y)) with 0 by ring. reflexivity.
  - reflexivity.
  - reflexivity.
Qed.

Section ExactSums.
Context {A : Type} `{ExactDtype A}.

Lemma filter_present (l : list A) : List.filter num_notna l = l.
Proof.
  induction l as [|x l IH]; cbn; [reflexivity|].
  rewrite num_all_present, IH. reflexivity.
Qed.

Lemma fillna_present (l : list A) : map fillna l = l.
Proof.
  induction l as [|x l IH]; cbn; [reflexivity|].
  unfold fillna at 1. rewrite num_all_present, IH. reflexivity.
Qed.

(** The sum of a column is the plain sum of its values. *)
Lemma series_sum_plain (l : list A) : series_sum l = plain_sum l.
Proof. unfold series_sum. rewrite fillna_present. apply num_sum_plain. Qed.

(** So is the grouped sum: its compensation stays zero. *)
Lemma kahan_plain (l : list A) (s : A) :
  fold_left kahan_step l (s, num_zero) = (fold_left num_add l s, num_zero).
Proof.
  revert s. induction l as [|v l IH]; intros s; [reflexivity|].
  cbn [fold_left]. unfold kahan_step at 2. cbn [fst snd].
  rewrite num_compensation, num_add_sub_zero.
  destruct (num_notna num_zero); apply IH.
Qed.

Lemma group_sum_plain (l : list A) : group_sum l = plain_sum l.
Proof. unfold group_sum. rewrite filter_present, kahan_plain. reflexivity. Qed.

Lemma plain_sum_normal (l : list A) : num_add num_zero (plain_sum l) = plain_sum l.
Proof.
  unfold plain_sum. destruct l as [|x l] using rev_ind; [apply num_add_zero_zero|].
  rewrite fold_left_app. cbn [fold_left]. apply num_add_zero_sum.
Qed.

Lemma fold_add_from (l : list A) (a b : A) :
  fold_left num_add l (num_add a b) = num_add (num_add a b) (plain_sum l).
Proof.
  unfold plain_sum. revert a b. induction l as [|x l IH]; intros a b; cbn [fold_left].
  - rewrite (num_add_comm (num_add a b) num_zero), num_add_zero_sum. reflexivity.
  - rewrite IH, (IH num_zero x), !num_add_assoc.
    rewrite (num_add_comm (num_add a b) num_zero), num_add_zero_sum. reflexivity.
Qed.

Lemma plain_sum_cons (x : A) (l : list A) :
  plain_sum (x :: l) = num_add (num_add num_zero x) (plain_sum l).
Proof. unfold plain_sum at 1. cbn [fold_left]. apply fold_add_from. Qed.

Lemma plain_sum_app (l1 l2 : list A) :
  plain_sum (l1 ++ l2) = num_add (plain_sum l1) (plain_sum l2).
Proof.
  induction l1 as [|x l1 IH]; cbn [app].
  - change (plain_sum []) with (num_zero : A). rewrite plain_sum_normal. reflexivity.
  - rewrite !plain_sum_cons, IH, num_add_assoc. reflexivity.
Qed.

Lemma plain_sum_perm (l1 l2 : list A) :
  Permutation l1 l2 -> plain_sum l1 = plain_sum l2.
Proof.
  induction 1 as [|x l1 l2 _ IH|x y l|l1 l2 l3 _ IH1 _ IH2].
  - reflexivity.
  - rewrite !plain_sum_cons, IH. reflexivity.
  - rewrite !plain_sum_cons.
    rewrite (num_add_assoc (num_add num_zero y)), (num_add_assoc (num_add num_zero x)).
    rewrite (num_add_comm (num_add num_zero y) (num_add num_zero x)). reflexivity.
  - congruence.
Qed.

Lemma plain_sum_concat (ls : list (list A)) :
  plain_sum (map plain_sum ls) = plain_sum (concat ls).
Proof.
  induction ls as [|l ls IH]; cbn [map concat]; [reflexivity|].
  rewrite plain_sum_cons, plain_sum_app, IH, plain_sum_normal. reflexivity.
Qed.

Lemma series_sum_perm (l1 l2 : list A) :
  Permutation l1 l2 -> series_sum l1 = series_sum l2.
Proof. rewrite !series_sum_plain. apply plain_sum_perm. Qed.

(** The sum of the grouped sums is the sum of all the values. *)
Lemma series_sum_groups (ls : list (list A)) :
  series_sum (map group_sum ls) = series_sum (concat ls).
Proof.
  rewrite !series_sum_plain, <- plain_sum_concat. f_equal.
  apply map_ext. intros l. apply group_sum_plain.
Qed.

End ExactSums.

Lemma list_sum_lengths {R} (ls : list (list R)) :
  list_sum (map (@length R) ls) = length (concat ls).
Proof.
  induction ls as [|l ls IH]; [reflexivity|].
  change (length l + list_sum (map (@length R) ls) = length (l ++ concat ls))%nat.
  rewrite length_app, IH. reflexivity.
Qed.

Lemma list_sum_cons (n : nat) (l : list nat) : list_sum (n :: l) = (n + list_sum l)%nat.
Proof. reflexivity. Qed.

Lemma list_sum_perm (l1 l2 : list nat) : Permutation l1 l2 -> list_sum l1 = list_sum l2.
Proof. induction 1; rewrite ?list_sum_cons; lia. Qed.

(** ** Grouping and sorting keep the rows *)

Section GroupByRows.
Context {K R : Type} (cmp : K -> K -> comparison).

Lemma add_to_group_rows k r (gs : list (K * list R)) :
  Permutation (rows_of (add_to_group cmp k r gs)) (rows_of gs ++ [r]).
Proof.
  induction gs as [|[k' rs] gs IH]; cbn.
  - reflexivity.
  - destruct (cmp k k'); cbn.
    + unfold rows_of; cbn. rewrite <- !app_assoc.
      apply Permutation_app_head, Permutation_app_comm.
    + change (Permutation (r :: rs ++ rows_of gs) ((rs ++ rows_of gs) ++ [r])).
      apply Permutation_cons_append.
    + change (Permutation (rs ++ rows_of (add_to_group cmp k r gs))
                          ((rs ++ rows_of gs) ++ [r])).
      rewrite <- app_assoc. apply Permutation_app_head, IH.
Qed.

Lemma groupby_rows_from (key : R -> K) rows gs :
  Permutation
    (rows_of (fold_left (fun gs r => add_to_group cmp (key r) r gs) rows gs))
    (rows_of gs ++ rows).
Proof.
  revert gs. induction rows as [|r rows IH]; intros gs; cbn.
  - rewrite app_nil_r. reflexivity.
  - eapply Permutation_trans; [apply IH|].
    change (r :: rows) with ([r] ++ rows). rewrite app_assoc.
    apply Permutation_app_tail, add_to_group_rows.
Qed.

(** Grouping neither drops nor duplicates a row. *)
Lemma groupby_rows (key : R -> K) rows : Permutation (rows_of (groupby cmp key rows)) rows.
Proof. apply (groupby_rows_from key rows []). Qed.

End GroupByRows.

Section SortDescPerm.
Context {A : Type} (lt : A -> A -> bool).

Lemma insert_desc_perm x l : Permutation (insert_desc lt x l) (x :: l).
Proof.
  induction l as [|y l IH]; cbn; [reflexivity|].
  destruct (lt x y); [|reflexivity].
  rewrite IH. apply perm_swap.
Qed.

Lemma sort_desc_perm l : Permutation (sort_desc lt l) l.
Proof.
  induction l as [|x l IH]; cbn; [reflexivity|].
  rewrite insert_desc_perm. apply perm_skip, IH.
Qed.

End SortDescPerm.

(** ** What a group holds

    For a comparison that is a total order, the groups come in strictly
    ascending key order (so one group per key), none is empty, and the
    group of a key holds the rows with that key, in table order. *)
Section GroupBySpec.
Context {K R : Type} (cmp : K -> K -> comparison).
Hypothesis cmp_refl : forall x, cmp x x = Eq.
Hypothesis cmp_eq : forall x y, cmp x y = Eq -> x = y.
Hypothesis cmp_gt : forall x y, cmp x y = Gt -> cmp y x = Lt.
Hypothesis cmp_trans : forall x y z, cmp x y = Lt -> cmp y z = Lt -> cmp x z = Lt.

Lemma rows_for_above k (gs : list (K * list R)) :
  Forall (fun g => cmp k g.1 = Lt) gs -> rows_for cmp k gs = [].
Proof.
  induction 1 as [|[k' rs] gs Hk _ IH]; cbn; [reflexivity|].
  unfold is_key. cbn in Hk. rewrite Hk. exact IH.
Qed.

Lemma add_to_group_keys (P : K -> Prop) k (r : R) gs :
  P k -> Forall (fun g => P g.1) gs ->
  Forall (fun g => P g.1) (add_to_group cmp k r gs).
Proof.
  intros Hk. induction 1 as [|[k' rs] gs Hk' Hgs IH]; cbn.
  - repeat constructor. exact Hk.
  - destruct (cmp k k'); repeat constructor; assumption.
Qed.

Lemma add_to_group_sorted k (r : R) gs :
  StronglySorted (key_lt cmp) gs -> StronglySorted (key_lt cmp) (add_to_group cmp k r gs).
Proof.
  induction 1 as [|[k' rs] gs Hs IH Hall]; cbn.
  - repeat constructor.
  - destruct (cmp k k') eqn:E.
    + constructor; assumption.
    + constructor; [constructor; assumption|].
      constructor; [exact E|].
      eapply List.Forall_impl; [|exact Hall].
      intros g Hg. unfold key_lt in *. cbn in *. eauto.
    + constructor; [exact IH|].
      apply (add_to_group_keys (fun x => cmp k' x = Lt)); [auto | exact Hall].
Qed.

Lemma add_to_group_rows_for k (r : R) gs k' :
  StronglySorted (key_lt cmp) gs ->
  rows_for cmp k' (add_to_group cmp k r gs)
  = rows_for cmp k' gs ++ (if is_key cmp k' k then [r] else []).
Proof.
  induction 1 as [|[k1 rs] gs Hs IH Hall]; cbn.
  - destruct (is_key cmp k' k); reflexivity.
  - destruct (cmp k k1) eqn:E; cbn.
    + apply cmp_eq in E as ->. destruct (is_key cmp k' k1); [reflexivity|].
      rewrite app_nil_r. reflexivity.
    + destruct (is_key cmp k' k) eqn:Ek; [|rewrite app_nil_r; reflexivity].
      unfold is_key in Ek. destruct (cmp k' k) eqn:Ek'; try discriminate.
      apply cmp_eq in Ek' as ->.
      unfold is_key. rewrite E. rewrite rows_for_above; [reflexivity|].
      eapply List.Forall_impl; [|exact Hall].
      intros g Hg. unfold key_lt in Hg. cbn in Hg. eauto.
    + destruct (is_key cmp k' k1) eqn:E1; [|exact IH].
      unfold is_key in E1. destruct (cmp k' k1) eqn:E1'; try discriminate.
      apply cmp_eq in E1' as ->.
      unfold is_key. rewrite (cmp_gt _ _ E), app_nil_r. reflexivity.
Qed.

Lemma add_to_group_nonempty k (r : R) gs :
  Forall (fun g => g.2 <> []) gs -> Forall (fun g => g.2 <> []) (add_to_group cmp k r gs).
Proof.
  induction 1 as [|[k' rs] gs Hne Hgs IH]; cbn.
  - repeat constructor. discriminate.
  - destruct (cmp k k'); repeat constructor; try assumption; try discriminate.
    cbn. destruct rs; discriminate.
Qed.

Lemma groupby_from (key : R -> K) rows gs :
  StronglySorted (key_lt cmp) gs -> Forall (fun g => g.2 <> []) gs ->
  let gs' := fold_left (fun gs r => add_to_group cmp (key r) r gs) rows gs in
  StronglySorted (key_lt cmp) gs'
  /\ Forall (fun g => g.2 <> []) gs'
  /\ forall k, rows_for cmp k gs' = rows_for cmp k gs ++ List.filter (fun r => is_key cmp k (key r)) rows.
Proof.
  revert gs. induction rows as [|r rows IH]; intros gs Hs Hne; cbn.
  - repeat split; try assumption. intros k. rewrite app_nil_r. reflexivity.
  - destruct (IH (add_to_group cmp (key r) r gs)) as (Hs' & Hne' & Hrows).
    + apply add_to_group_sorted, Hs.
    + apply add_to_group_nonempty, Hne.
    + repeat split; try assumption.
      intros k. rewrite Hrows, add_to_group_rows_for by exact Hs.
      rewrite <- app_assoc. destruct (is_key cmp k (key r)); reflexivity.
Qed.

Lemma rows_for_own (g : K * list R) gs :
  StronglySorted (key_lt cmp) gs -> In g gs -> rows_for cmp g.1 gs = g.2.
Proof.
  induction 1 as [|[k rs] gs Hs IH Hall]; intros Hin; [destruct Hin|].
  cbn. destruct Hin as [<-|Hin].
  - cbn. unfold is_key. rewrite cmp_refl. reflexivity.
  - rewrite List.Forall_forall in Hall. specialize (Hall g Hin). unfold key_lt in Hall.
    cbn in Hall. unfold is_key. destruct (cmp g.1 k) eqn:E; auto.
    apply cmp_eq in E. rewrite E, cmp_refl in Hall. discriminate.
Qed.

Lemma groupby_spec (key : R -> K) rows :
  StronglySorted (key_lt cmp) (groupby cmp key rows)
  /\ forall g, In g (groupby cmp key rows) ->
       g.2 <> [] /\ g.2 = List.filter (fun r => is_key cmp g.1 (key r)) rows.
Proof.
  destruct (groupby_from key rows [] (SSorted_nil _) (List.Forall_nil _))
    as (Hs & Hne & Hrows).
  fold (groupby cmp key rows) in Hs, Hne, Hrows.
  split; [exact Hs|]. intros g Hin. split.
  - rewrite List.Forall_forall in Hne. auto.
  - rewrite <- (rows_for_own g _ Hs Hin). apply Hrows.
Qed.

End GroupBySpec.

(** ** The monthly aggregate *)

Lemma filter_kept {X} (f : X -> bool) (l : list X) :
  forallb f l = true -> List.filter f l = l.
Proof.
  induction l as [|x l IH]; cbn; [reflexivity|].
  intros [Hx Hl]%andb_prop. rewrite Hx, (IH Hl). reflexivity.
Qed.

Lemma dropna_app {X} (l1 l2 : list (option X)) :
  dropna (l1 ++ l2) = dropna l1 ++ dropna l2.
Proof.
  induction l1 as [|[x|] l1 IH]; cbn; [reflexivity| |exact IH].
  rewrite IH. reflexivity.
Qed.

Lemma dropna_perm {X} (l1 l2 : list (option X)) :
  Permutation l1 l2 -> Permutation (dropna l1) (dropna l2).
Proof.
  induction 1 as [|x l1 l2 _ IH|x y l|l1 l2 l3 _ IH1 _ IH2].
  - reflexivity.
  - destruct x; cbn; [constructor|]; exact IH.
  - destruct x, y; cbn; try reflexivity. apply perm_swap.
  - eapply Permutation_trans; eassumption.
Qed.

Lemma count_perm {X} (l1 l2 : list (option X)) :
  Permutation l1 l2 -> count l1 = count l2.
Proof. intros Hp. apply Permutation_length, dropna_perm, Hp. Qed.

Lemma count_concat {X Y} (f : X -> option Y) (ls : list (list X)) :
  list_sum (map (fun l => count (map f l)) ls) = count (map f (concat ls)).
Proof.
  induction ls as [|l ls IH]; [reflexivity|].
  cbn [map concat]. rewrite list_sum_cons, IH, map_app.
  unfold count. rewrite dropna_app, length_app. reflexivity.
Qed.

Lemma dropna_all {X Y} (f : X -> option Y) (l : list X) :
  forallb (fun x => match f x with Some _ => true | None => false end) l = true ->
  length (dropna (map f l)) = length l.
Proof.
  induction l as [|x l IH]; cbn; [reflexivity|].
  destruct (f x); cbn; [|discriminate]. intros Hl. rewrite (IH Hl). reflexivity.
Qed.

Lemma monthly_sales_totals {A} `{Dtype A} (t : list (SalesRow A)) :
  map (fun m => m.1.2) (monthly_sales t)
  = map group_sum
      (map (map TotalDue)
           (map snd (groupby String_as_OT.compare month_key (List.filter dated t)))).
Proof.
  unfold monthly_sales. rewrite !map_map. reflexivity.
Qed.

Lemma monthly_sales_counts {A} `{Dtype A} (t : list (SalesRow A)) :
  list_sum (map (fun m => m.2) (monthly_sales t))
  = count (map SalesOrderID (List.filter dated t)).
Proof.
  unfold monthly_sales. rewrite map_map. cbn [snd].
  rewrite <- (map_map snd (fun l => count (map SalesOrderID l))), count_concat.
  apply count_perm, Permutation_map, (groupby_rows String_as_OT.compare).
Qed.

Lemma monthly_sales_exact {A} `{ExactDtype A} (t : list (SalesRow A)) :
  series_sum (map (fun m => m.1.2) (monthly_sales t))
  = series_sum (map TotalDue (List.filter dated t)).
Proof.
  rewrite monthly_sales_totals, series_sum_groups, <- concat_map.
  apply series_sum_perm, Permutation_map, (groupby_rows String_as_OT.compare).
Qed.

Lemma string_compare_refl (x : string) : String_as_OT.compare x x = Eq.
Proof.
  destruct (String_as_OT.compare_spec x x) as [_|Hlt|Hlt]; [reflexivity| |];
    destruct (@StrictOrder_Irreflexive _ _ String_as_OT.lt_strorder x Hlt).
Qed.

Lemma string_compare_eq (x y : string) : String_as_OT.compare x y = Eq -> x = y.
Proof. destruct (String_as_OT.compare_spec x y); congruence. Qed.

Lemma string_compare_gt (x y : string) :
  String_as_OT.compare x y = Gt -> String_as_OT.compare y x = Lt.
Proof. destruct (String_as_OT.compare_spec x y) as [| |Hlt]; try discriminate. auto. Qed.

Lemma string_compare_trans (x y z : string) :
  String_as_OT.compare x y = Lt -> String_as_OT.compare y z = Lt ->
  String_as_OT.compare x z = Lt.
Proof. exact (@StrictOrder_Transitive _ _ String_as_OT.lt_strorder x y z). Qed.

Lemma is_key_string (k k' : string) : is_key String_as_OT.compare k k' = String.eqb k k'.
Proof.
  unfold is_key. destruct (String.eqb_spec k k') as [->|Hne].
  - rewrite string_compare_refl. reflexivity.
  - destruct (String_as_OT.compare k k') eqn:E; try reflexivity.
    apply string_compare_eq in E. contradiction.
Qed.

Lemma StronglySorted_map {X Y} (f : X -> Y) (P : Y -> Y -> Prop) (l : list X) :
  StronglySorted (fun a b => P (f a) (f b)) l -> StronglySorted P (map f l).
Proof.
  induction 1 as [|a l _ IH Hall]; cbn; constructor; [exact IH|].
  apply List.Forall_map. exact Hall.
Qed.

Lemma monthly_sales_groups {A} `{Dtype A} (t : list (SalesRow A)) :
  StronglySorted (fun m m' => String_as_OT.lt m.1.1 m'.1.1) (monthly_sales t)
  /\ forall m, In m (monthly_sales t) ->
       rows_of_month m.1.1 t <> []
       /\ m.1.2 = group_sum (map TotalDue (rows_of_month m.1.1 t))
       /\ m.2 = count (map SalesOrderID (rows_of_month m.1.1 t)).
Proof.
  destruct (groupby_spec String_as_OT.compare string_compare_refl string_compare_eq
              string_compare_gt string_compare_trans month_key (List.filter dated t))
    as [Hs Hg].
  split.
  - unfold monthly_sales. apply StronglySorted_map. exact Hs.
  - intros m Hin. unfold monthly_sales in Hin. apply in_map_iff in Hin as (g & <- & Hin).
    destruct (Hg g Hin) as [Hne Hrows]. cbn [fst snd].
    assert (g.2 = rows_of_month g.1 t) as <-.
    { rewrite Hrows. unfold rows_of_month. apply filter_ext.
      intros r. apply is_key_string. }
    auto.
Qed.

(** Every dated row is in the group of its month. *)
Lemma monthly_sales_months {A} `{Dtype A} (t : list (SalesRow A)) (r : SalesRow A) :
  In r t -> dated r = true ->
  exists m, In m (monthly_sales t) /\ m.1.1 = month_key r /\ In r (rows_of_month m.1.1 t).
Proof.
  intros Hin Hd.
  destruct (groupby_spec String_as_OT.compare string_compare_refl string_compare_eq
              string_compare_gt string_compare_trans month_key (List.filter dated t))
    as [_ Hg].
  assert (Hr : In r (rows_of (groupby String_as_OT.compare month_key (List.filter dated t)))).
  { apply (Permutation_in _ (Permutation_sym (groupby_rows String_as_OT.compare month_key _))).
    apply filter_In. auto. }
  unfold rows_of in Hr. apply in_concat in Hr as (rs & Hrs & Hr).
  apply in_map_iff in Hrs as (g & <- & Hgin).
  destruct (Hg g Hgin) as [_ Hrows].
  assert (Hkey : g.1 = month_key r).
  { rewrite Hrows in Hr. apply filter_In in Hr as [_ Hk].
    rewrite is_key_string in Hk. apply String.eqb_eq, Hk. }
  exists (g.1, group_sum (map TotalDue g.2), count (map SalesOrderID g.2)).
  cbn [fst snd]. split; [|split; [exact Hkey|]].
  - unfold monthly_sales. apply in_map_iff. exists g. auto.
  - unfold rows_of_month. apply filter_In. split; [apply filter_In; auto|].
    rewrite Hkey. apply String.eqb_refl.
Qed.

(** C1, as the code has it.  For every prepared order table the monthly
    aggregate partitions the rows that have a date: its months are
    distinct and ascending; the row of a month holds the grouped sum of
    the amounts of the table's dated rows of that month (at least one
    row) and the number of order ids present among them; every dated
    row is in the group of its month; a row without a date is in none.
    The numbers of orders add up to the number of dated rows that have
    an order id, which is the row count when no date and no id is
    missing.  When the column type adds exactly (whole-number amounts,
    int64 with its wrap-around), the monthly totals add up to exactly
    the total of the dated rows, which is the table's total when no
    date is missing; in binary64 each addition rounds, so the two sums
    can differ in the last digits.  The three rows dated 2023-01-15,
    2023-01-20, 2023-02-01 with totals 100, 50, 75 give the two rows
    ("2023-01", 150, 2) and ("2023-02", 75, 1). *)
Theorem monthly_sales_partition :
  (forall (A : Type) (D : Dtype A) (t : list (SalesRow A)),
     StronglySorted (fun m m' => String_as_OT.lt m.1.1 m'.1.1) (monthly_sales t)
     /\ (forall m, In m (monthly_sales t) ->
           rows_of_month m.1.1 t <> []
           /\ m.1.2 = group_sum (map TotalDue (rows_of_month m.1.1 t))
           /\ m.2 = count (map SalesOrderID (rows_of_month m.1.1 t)))
     /\ (forall r, In r t -> dated r = true ->
           exists m, In m (monthly_sales t) /\ m.1.1 = month_key r
                     /\ In r (rows_of_month m.1.1 t))
     /\ (forall r k, In r (rows_of_month k t) -> dated r = true)
     /\ list_sum (map (fun m => m.2) (monthly_sales t))
        = count (map SalesOrderID (List.filter dated t))
     /\ (forallb (fun r => dated r && identified r) t = true ->
         list_sum (map (fun m => m.2) (monthly_sales t)) = length t)
     /\ (@ExactDtype A D ->
         series_sum (map (fun m => m.1.2) (monthly_sales t))
         = series_sum (map TotalDue (List.filter dated t))
         /\ (forallb dated t = true ->
             series_sum (map (fun m => m.1.2) (monthly_sales t))
             = series_sum (map TotalDue t))))
  /\ monthly_sales (scenario_orders 100 50 75)%float
     = [("2023-01"%string, 150%float, 2%nat); ("2023-02"%string, 75%float, 1%nat)]
  /\ monthly_sales (scenario_orders 100 50 75)%Z
     = [("2023-01"%string, 150%Z, 2%nat); ("2023-02"%string, 75%Z, 1%nat)].
Proof.
  split; [|split; vm_compute; reflexivity].
  intros A D t. destruct (monthly_sales_groups t) as [Hs Hg].
  split; [exact Hs|]. split; [exact Hg|]. split; [apply monthly_sales_months|].
  split; [|split; [apply monthly_sales_counts|split]].
  - intros r k Hr. unfold rows_of_month in Hr.
    apply filter_In in Hr as [Hr _]. apply filter_In in Hr as [_ Hd]. exact Hd.
  - intros Hall. rewrite monthly_sales_counts.
    assert (Hd : forallb dated t = true).
    { rewrite forallb_forall in *. intros r Hr.
      specialize (Hall r Hr). apply andb_prop in Hall as [Hd _]. exact Hd. }
    rewrite (filter_kept _ _ Hd). unfold count. apply dropna_all.
    rewrite forallb_forall in *. intros r Hr.
    specialize (Hall r Hr). apply andb_prop in Hall as [_ Hi]. exact Hi.
  - intros Hexact. split; [apply monthly_sales_exact|].
    intros Hd. rewrite monthly_sales_exact, (filter_kept _ _ Hd). reflexivity.
Qed.

(** C1 at whole-number amounts: the monthly totals 150 and 75 add up to
    the table's 225. *)
Lemma monthly_sales_partition_int64 :
  series_sum (map (fun m => m.1.2) (monthly_sales (scenario_orders 100 50 75)%Z))
  = series_sum (map TotalDue (scenario_orders 100 50 75)%Z).
Proof.
  apply (proj1 monthly_sales_partition Z int64 (scenario_orders 100 50 75)%Z).
  - exact int64_exact.
  - vm_compute. reflexivity.
Defined.

(** C1 fails as stated.  On float64 amounts: with 0.2 and 0.1 due in
    January and 0.3 in February, the monthly totals
    0.30000000000000004 and 0.3 add up to 0.6000000000000001, the
    table's column to 0.6.  On a table with a missing date, whatever
    the column type: of the whole-number amounts 100, dated January,
    and 50, undated, the monthly totals hold 100, the column 150. *)
Lemma monthly_sales_sums_differ :
  (let t := [order (ymd 2023 1 10) 0.2; order (ymd 2023 2 10) 0.3;
             order (ymd 2023 1 20) 0.1]%float in
   monthly_sales t
   = [("2023-01"%string, 0.30000000000000004, 2%nat); ("2023-02"%string, 0.3, 1%nat)]%float
   /\ series_sum (map (fun m => m.1.2) (monthly_sales t)) = 0.6000000000000001%float
   /\ series_sum (map TotalDue t) = 0.6%float
   /\ series_sum (map (fun m => m.1.2) (monthly_sales t)) <> series_sum (map TotalDue t))
  /\ (let t := [order (ymd 2023 1 15) 100; order NaT 50]%Z in
      monthly_sales t = [("2023-01"%string, 100, 1%nat)]
      /\ series_sum (map (fun m => m.1.2) (monthly_sales t)) = 100
      /\ series_sum (map TotalDue t) = 150
      /\ list_sum (map (fun m => m.2) (monthly_sales t)) = 1%nat
      /\ length t = 2%nat).
Proof.
  cbv zeta. repeat split; try (vm_compute; reflexivity).
  intros Heq. apply (f_equal (fun x => PrimFloat.eqb x 0.6)) in Heq.
  vm_compute in Heq. discriminate.
Qed.

(** ** The status distribution *)

Lemma tally_count_of x y cs :
  count_of y (tally x cs) = (count_of y cs + (if String.eqb y x then 1 else 0))%nat.
Proof.
  induction cs as [|[z n] cs IH]; cbn.
  - destruct (String.eqb y x); reflexivity.
  - destruct (String.eqb_spec x z) as [->|Hxz]; cbn.
    + destruct (String.eqb y z); lia.
    + destruct (String.eqb_spec y z) as [->|Hyz]; [|exact IH].
      destruct (String.eqb_spec z x); [congruence|lia].
Qed.

Lemma tally_sum x cs : list_sum (map snd (tally x cs)) = S (list_sum (map snd cs)).
Proof.
  induction cs as [|[z n] cs IH]; [reflexivity|].
  cbn [tally]. destruct (String.eqb x z); cbn [map snd]; rewrite !list_sum_cons.
  - reflexivity.
  - rewrite IH. lia.
Qed.

Lemma tally_keys x cs :
  map fst (tally x cs) = map fst cs \/
  (~ In x (map fst cs) /\ map fst (tally x cs) = map fst cs ++ [x]).
Proof.
  induction cs as [|[z n] cs IH]; cbn.
  - right. auto.
  - destruct (String.eqb_spec x z) as [->|Hxz]; cbn; [left; reflexivity|].
    destruct IH as [->|[Hnin ->]]; [left; reflexivity|].
    right. split; [|reflexivity]. intros [Heq|Hin]; [congruence|contradiction].
Qed.

Lemma tally_positive x cs :
  Forall (fun c => 0 < c.2)%nat cs -> Forall (fun c => 0 < c.2)%nat (tally x cs).
Proof.
  induction 1 as [|[z n] cs Hn Hcs IH]; cbn.
  - repeat constructor.
  - destruct (String.eqb x z); constructor; cbn in *; try assumption; lia.
Qed.

Lemma tallies_from l cs :
  List.NoDup (map fst cs) -> Forall (fun c => 0 < c.2)%nat cs ->
  let cs' := fold_left (fun cs x => tally x cs) l cs in
  List.NoDup (map fst cs')
  /\ Forall (fun c => 0 < c.2)%nat cs'
  /\ list_sum (map snd cs') = (list_sum (map snd cs) + length l)%nat
  /\ forall y, count_of y cs' = (count_of y cs + count_occ string_dec l y)%nat.
Proof.
  revert cs. induction l as [|x l IH]; intros cs Hnd Hpos;
    cbv zeta; cbn [fold_left length count_occ].
  - repeat split; auto.
  - destruct (IH (tally x cs)) as (Hnd' & Hpos' & Hsum & Hcount).
    + destruct (tally_keys x cs) as [->|[Hnin ->]]; [exact Hnd|].
      apply List.NoDup_app; [exact Hnd|repeat constructor; intros []|].
      intros y Hy [<-|[]]. contradiction.
    + apply tally_positive, Hpos.
    + repeat split; try assumption.
      * rewrite Hsum, tally_sum. lia.
      * intros y. rewrite Hcount, tally_count_of.
        destruct (string_dec x y) as [->|Hne].
        -- rewrite String.eqb_refl. lia.
        -- destruct (String.eqb_spec y x); [congruence|lia].
Qed.

Lemma count_of_In y n cs : List.NoDup (map fst cs) -> In (y, n) cs -> count_of y cs = n.
Proof.
  induction cs as [|[z m] cs IH]; cbn; intros Hnd Hin; [destruct Hin|].
  inversion Hnd as [|? ? Hnin Hnd']; subst.
  destruct Hin as [[= -> ->]|Hin].
  - rewrite String.eqb_refl. reflexivity.
  - destruct (String.eqb_spec y z) as [->|_]; [|auto].
    destruct Hnin. apply in_map_iff. exists (z, n). auto.
Qed.

Lemma value_counts_spec (l : list (option string)) :
  List.NoDup (map fst (value_counts l))
  /\ (forall y n, In (y, n) (value_counts l) ->
        (0 < n)%nat /\ n = count_occ string_dec (dropna l) y)
  /\ list_sum (map snd (value_counts l)) = count l.
Proof.
  destruct (tallies_from (dropna l) [] (List.NoDup_nil _) (List.Forall_nil _))
    as (Hnd & Hpos & Hsum & Hcount).
  fold (tallies (dropna l)) in Hnd, Hpos, Hsum, Hcount.
  pose proof (sort_desc_perm (fun a b : string * nat => (a.2 <? b.2)%nat) (tallies (dropna l)))
    as Hperm.
  fold (value_counts l) in Hperm. repeat split.
  - eapply Permutation_NoDup; [|exact Hnd]. apply Permutation_map, Permutation_sym, Hperm.
  - rewrite List.Forall_forall in Hpos.
    apply (Hpos (y, n)), (Permutation_in _ Hperm). assumption.
  - rewrite <- (count_of_In y n (tallies (dropna l)) Hnd).
    + apply Hcount.
    + apply (Permutation_in _ Hperm). assumption.
  - rewrite (list_sum_perm _ (map snd (tallies (dropna l)))); [exact Hsum|].
    apply Permutation_map, Hperm.
Qed.

Lemma count_labelled {A} (t : list (SalesRow A)) :
  count (map Status t) = length (List.filter labelled t).
Proof.
  unfold count. induction t as [|r t IH]; [reflexivity|].
  cbn [map dropna List.filter]. unfold labelled at 1.
  destruct (Status r); cbn [dropna length]; rewrite IH; reflexivity.
Qed.

(** C5, as the code has it.  For every order table the status
    distribution lists each distinct status label that is present once,
    with the number of rows that carry it (at least one); a row without
    a status is counted under no label, so the numbers add up to the
    number of rows that have a status, which is the row count when no
    status is missing.  The statuses Shipped, Shipped, Cancelled give
    Shipped: 2, Cancelled: 1, which add up to 3. *)
Theorem status_dist_counts :
  (forall (A : Type) (t : list (SalesRow A)),
     List.NoDup (map fst (status_dist t))
     /\ (forall label n, In (label, n) (status_dist t) ->
           (0 < n)%nat /\ n = count_occ string_dec (dropna (map Status t)) label)
     /\ list_sum (map snd (status_dist t)) = length (List.filter labelled t)
     /\ (forallb labelled t = true -> list_sum (map snd (status_dist t)) = length t))
  /\ value_counts [Some "Shipped"; Some "Shipped"; Some "Cancelled"]%string
     = [("Shipped"%string, 2%nat); ("Cancelled"%string, 1%nat)]
  /\ list_sum (map snd (value_counts
                          [Some "Shipped"; Some "Shipped"; Some "Cancelled"]%string)) = 3%nat.
Proof.
  split; [|split; vm_compute; reflexivity].
  intros A t. unfold status_dist.
  destruct (value_counts_spec (map Status t)) as (Hnd & Hin & Hsum).
  rewrite count_labelled in Hsum. split; [exact Hnd|]. split; [exact Hin|]. split; [exact Hsum|].
  intros Hall. rewrite Hsum, (filter_kept _ _ Hall). reflexivity.
Qed.

(** C5 on a table in which every order has a status: two orders
    shipped, one cancelled, counts adding up to the three rows. *)
Lemma status_dist_counts_labelled :
  list_sum (map snd (status_dist (scenario_orders 100 50 75)%float)) = 3%nat.
Proof.
  apply (proj1 status_dist_counts float (scenario_orders 100 50 75)%float).
  vm_compute. reflexivity.
Defined.

(** C5 fails as stated: of three orders, one shipped, one without a
    status and one cancelled, the distribution counts two. *)
Lemma status_dist_missing_status :
  let t := [ {| SalesOrderID := Some 1; OrderDate := ymd 2023 1 15; TotalDue := 100%float;
                Status := Some "Shipped"%string; CustomerID := 7 |};
             {| SalesOrderID := Some 2; OrderDate := ymd 2023 1 20; TotalDue := 50%float;
                Status := None; CustomerID := 7 |};
             {| SalesOrderID := Some 3; OrderDate := ymd 2023 2 1; TotalDue := 75%float;
                Status := Some "Cancelled"%string; CustomerID := 8 |} ] in
  status_dist t = [("Shipped"%string, 1%nat); ("Cancelled"%string, 1%nat)]
  /\ list_sum (map snd (status_dist t)) = 2%nat
  /\ length t = 3%nat
  /\ list_sum (map snd (status_dist t)) <> length t.
Proof.
  cbv zeta. repeat split; try (vm_compute; reflexivity).
  vm_compute. discriminate.
Qed.

(** ** The top products *)

Lemma StronglySorted_app {X} (R : X -> X -> Prop) (l1 l2 : list X) :
  StronglySorted R l1 -> StronglySorted R l2 ->
  (forall a b, In a l1 -> In b l2 -> R a b) ->
  StronglySorted R (l1 ++ l2).
Proof.
  induction 1 as [|a l1 Hs IH Hall]; intros Hs2 Hcross; cbn; [exact Hs2|].
  constructor.
  - apply IH; [exact Hs2|]. intros x y Hx Hy. apply Hcross; [right|]; assumption.
  - apply List.Forall_app. split; [exact Hall|].
    apply List.Forall_forall. intros y Hy. apply Hcross; [left; reflexivity|exact Hy].
Qed.

Lemma StronglySorted_app_inv {X} (R : X -> X -> Prop) (l1 l2 : list X) :
  StronglySorted R (l1 ++ l2) ->
  StronglySorted R l1 /\ forall a b, In a l1 -> In b l2 -> R a b.
Proof.
  induction l1 as [|a l1 IH]; cbn; intros Hs.
  - split; [constructor|]. intros a b [].
  - inversion Hs as [|? ? Hs' Hall]; subst. destruct (IH Hs') as [Hs1 Hcross].
    apply List.Forall_app in Hall as [Hall1 Hall2]. split.
    + constructor; assumption.
    + intros x y [<-|Hx] Hy; [|auto].
      rewrite List.Forall_forall in Hall2. auto.
Qed.

Lemma StronglySorted_filter {X} (R : X -> X -> Prop) (f : X -> bool) (l : list X) :
  StronglySorted R l -> StronglySorted R (List.filter f l).
Proof.
  induction 1 as [|a l Hs IH Hall]; cbn; [constructor|].
  destruct (f a); [|exact IH]. constructor; [exact IH|].
  rewrite List.Forall_forall in *. intros y Hy. apply filter_In in Hy as [Hy _]. auto.
Qed.

Lemma StronglySorted_all {X} (R : X -> X -> Prop) (l : list X) :
  (forall a b, In b l -> R a b) -> StronglySorted R l.
Proof.
  induction l as [|a l IH]; intros HR; constructor.
  - apply IH. intros x y Hy. apply HR. right. exact Hy.
  - apply List.Forall_forall. intros y Hy. apply HR. right. exact Hy.
Qed.

Lemma filter_split {X} (f : X -> bool) (l : list X) :
  Permutation (List.filter (fun x => negb (f x)) l ++ List.filter f l) l.
Proof.
  induction l as [|a l IH]; cbn; [reflexivity|].
  destruct (f a); cbn.
  - apply Permutation_sym, Permutation_cons_app, Permutation_sym, IH.
  - apply perm_skip, IH.
Qed.

(** Labels of a table: row [i] carries label [i]. *)
Lemma indexed_from_In {R} (t : list R) (s i : nat) (r : R) :
  In (i, r) (combine (seq s (length t)) t) <->
  (s <= i)%nat /\ nth_error t (i - s) = Some r.
Proof.
  revert s. induction t as [|x t IH]; intros s; cbn.
  - split; [intros []|]. intros [_ Hn]. destruct (i - s)%nat; discriminate.
  - rewrite IH. split.
    + intros [[= <- <-]|[Hle Hn]].
      * split; [lia|]. replace (s - s)%nat with 0%nat by lia. reflexivity.
      * split; [lia|]. replace (i - s)%nat with (S (i - S s)) by lia. exact Hn.
    + intros [Hle Hn]. destruct (i - s)%nat as [|k] eqn:E.
      * left. cbn in Hn. injection Hn as <-. f_equal. lia.
      * right. split; [lia|]. replace (i - S s)%nat with k by lia. exact Hn.
Qed.

Lemma indexed_In {R} (t : list R) (i : nat) (r : R) :
  In (i, r) (indexed t) <-> nth_error t i = Some r.
Proof.
  unfold indexed. rewrite indexed_from_In, Nat.sub_0_r. intuition lia.
Qed.

Lemma indexed_labels {R} (t : list R) : map fst (indexed t) = seq 0 (length t).
Proof.
  unfold indexed. generalize 0%nat.
  induction t as [|x t IH]; intros s; cbn; [reflexivity|].
  rewrite IH. reflexivity.
Qed.

Lemma indexed_length {R} (t : list R) : length (indexed t) = length t.
Proof. rewrite <- (length_map fst), indexed_labels, length_seq. reflexivity. Qed.

Lemma seq_sorted (s n : nat) : StronglySorted Nat.lt (seq s n).
Proof.
  revert s. induction n as [|n IH]; intros s; cbn; constructor; [apply IH|].
  apply List.Forall_forall. intros y Hy. apply in_seq in Hy. lia.
Qed.

Lemma StronglySorted_of_map {X Y} (f : X -> Y) (P : Y -> Y -> Prop) (l : list X) :
  StronglySorted P (map f l) -> StronglySorted (fun a b => P (f a) (f b)) l.
Proof.
  induction l as [|a l IH]; cbn; intros Hs; [constructor|].
  inversion Hs as [|? ? Hs' Hall]; subst. constructor; [auto|].
  rewrite List.Forall_forall in Hall. apply List.Forall_forall.
  intros y Hy. apply Hall, in_map, Hy.
Qed.

Lemma indexed_sorted {R} (t : list R) : StronglySorted label_lt (indexed t).
Proof.
  apply (StronglySorted_of_map fst Nat.lt). rewrite indexed_labels. apply seq_sorted.
Qed.

Lemma insert_price_desc x l :
  has_price x -> Forall has_price l ->
  StronglySorted price_desc l ->
  StronglySorted price_desc (insert_desc price_below x l).
Proof.
  intros Hx Hl Hs. induction Hs as [|y l Hs IH Hall]; cbn [insert_desc].
  - repeat constructor.
  - inversion Hl as [|? ? Hy Hl']; subst.
    destruct (price_below x y) eqn:E; unfold price_below in E.
    + constructor; [auto|].
      eapply Permutation_Forall; [apply Permutation_sym, insert_desc_perm|].
      constructor; [|exact Hall]. left. apply F64_order.ltb_leb, E.
    + constructor; [constructor; assumption|].
      assert (Hyx : (ListPrice y.2 <=? ListPrice x.2)%float = true)
        by (apply F64_order.nlt_leb; assumption).
      constructor; [left; exact Hyx|].
      eapply List.Forall_impl; [|exact Hall].
      intros z [Hz|Hz]; [left|right; exact Hz].
      eapply F64_order.leb_trans; eassumption.
Qed.

Lemma sort_price_desc l :
  Forall has_price l -> StronglySorted price_desc (sort_desc price_below l).
Proof.
  induction 1 as [|x l Hx Hl IH]; cbn; [constructor|].
  apply insert_price_desc; [exact Hx| |exact IH].
  eapply Permutation_Forall; [apply Permutation_sym, sort_desc_perm|exact Hl].
Qed.

Lemma insert_ties x l :
  Forall (label_lt x) l ->
  StronglySorted ties_in_table_order l ->
  StronglySorted ties_in_table_order (insert_desc price_below x l).
Proof.
  intros Hl Hs. induction Hs as [|y l Hs IH Hall]; cbn [insert_desc].
  - repeat constructor.
  - inversion Hl as [|? ? Hy Hl']; subst.
    destruct (price_below x y) eqn:E; unfold price_below in E.
    + constructor; [auto|].
      eapply Permutation_Forall; [apply Permutation_sym, insert_desc_perm|].
      constructor; [|exact Hall].
      intros Heq. rewrite (F64_order.ltb_eqb_false _ _ E) in Heq. discriminate.
    + constructor; [constructor; assumption|].
      eapply List.Forall_impl; [|exact Hl]. intros z Hz _. exact Hz.
Qed.

Lemma sort_ties l :
  StronglySorted label_lt l ->
  StronglySorted ties_in_table_order (sort_desc price_below l).
Proof.
  induction 1 as [|x l Hs IH Hall]; cbn; [constructor|].
  apply insert_ties; [|exact IH].
  eapply Permutation_Forall; [apply Permutation_sym, sort_desc_perm|exact Hall].
Qed.

Lemma nlargest_ranked n t : nlargest n t = firstn n (ranked t).
Proof. reflexivity. Qed.

Lemma ranked_perm t : Permutation (ranked t) (indexed t).
Proof.
  unfold ranked. etransitivity; [|apply (filter_split (fun r => PrimFloat.is_nan (ListPrice r.2)))].
  apply Permutation_app_tail, sort_desc_perm.
Qed.

Lemma ranked_price_desc t : StronglySorted price_desc (ranked t).
Proof.
  apply StronglySorted_app.
  - apply sort_price_desc, List.Forall_forall.
    intros x Hx. apply filter_In in Hx as [_ Hx]. exact Hx.
  - apply StronglySorted_all. intros a b Hb. right.
    apply filter_In in Hb as [_ Hb]. exact Hb.
  - intros a b _ Hb. right. apply filter_In in Hb as [_ Hb]. exact Hb.
Qed.

Lemma ranked_ties t : StronglySorted ties_in_table_order (ranked t).
Proof.
  assert (Hnan : forall a b,
             In b (List.filter (fun r => PrimFloat.is_nan (ListPrice r.2)) (indexed t)) ->
             ties_in_table_order a b).
  { intros a b Hb Heq. apply filter_In in Hb as [_ Hb].
    apply F64_order.eqb_notna in Heq as [_ Hn]. apply F64_order.notna_is_nan in Hn. congruence. }
  apply StronglySorted_app.
  - apply sort_ties, StronglySorted_filter, indexed_sorted.
  - apply StronglySorted_all. exact Hnan.
  - intros a b _. apply Hnan.
Qed.

Lemma firstn_sorted {X} (R : X -> X -> Prop) n (l : list X) :
  StronglySorted R l -> StronglySorted R (firstn n l).
Proof.
  intros Hs. rewrite <- (firstn_skipn n l) in Hs.
  apply StronglySorted_app_inv in Hs as [Hs _]. exact Hs.
Qed.

Lemma firstn_In {X} n (l : list X) x : In x (firstn n l) -> In x l.
Proof. intros Hx. rewrite <- (firstn_skipn n l). apply in_or_app. left. exact Hx. Qed.

(** C2.  For every product table and every N, the top-N selection (the
    bar panel takes N = 10) returns min(N, row count) rows; each is a row
    of the table, under its own label, and no row comes twice; the rows
    stand in descending order of list price (a row without a price after
    all others) and rows of equal price in table order; a row left out
    has no higher price than a row selected.  Prices 10, 999, 5, 500 of
    A, B, C, D give B, D, A, C. *)
Theorem top_products_spec :
  (forall (n : nat) (t : list ProductRow),
     length (nlargest n t) = Nat.min n (length t)
     /\ (forall i r, In (i, r) (nlargest n t) -> nth_error t i = Some r)
     /\ List.NoDup (map fst (nlargest n t))
     /\ StronglySorted price_desc (nlargest n t)
     /\ StronglySorted ties_in_table_order (nlargest n t)
     /\ (forall i r j r', In (i, r) (nlargest n t) -> nth_error t j = Some r' ->
           ~ In (j, r') (nlargest n t) -> price_desc (i, r) (j, r')))
  /\ (forall t, top_products t = nlargest 10 t)
  /\ map (fun r => Name r.2)
       (top_products [product "A" 10; product "B" 999; product "C" 5; product "D" 500])
     = ["B"; "D"; "A"; "C"]%string.
Proof.
  split; [|split; [reflexivity|vm_compute; reflexivity]].
  intros n t. rewrite nlargest_ranked.
  pose proof (ranked_perm t) as Hperm.
  repeat split.
  - rewrite length_firstn, (Permutation_length Hperm), indexed_length. reflexivity.
  - intros i r Hin. apply indexed_In, (Permutation_in _ Hperm), (firstn_In n), Hin.
  - rewrite <- firstn_map.
    assert (Hnd : List.NoDup (map fst (ranked t))).
    { eapply Permutation_NoDup; [apply Permutation_map, Permutation_sym, Hperm|].
      rewrite indexed_labels. apply seq_NoDup. }
    rewrite <- (firstn_skipn n (map fst (ranked t))) in Hnd.
    apply NoDup_app_remove_r in Hnd. exact Hnd.
  - apply firstn_sorted, ranked_price_desc.
  - apply firstn_sorted, ranked_ties.
  - intros i r j r' Hin Hj Hout.
    pose proof (ranked_price_desc t) as Hs.
    rewrite <- (firstn_skipn n (ranked t)) in Hs.
    apply StronglySorted_app_inv in Hs as [_ Hcross].
    apply Hcross; [exact Hin|].
    apply indexed_In, (Permutation_in _ (Permutation_sym Hperm)) in Hj.
    rewrite <- (firstn_skipn n (ranked t)) in Hj.
    apply in_app_or in Hj as [Hj|Hj]; [contradiction|exact Hj].
Qed.

(** ** The row of the highest price *)

Lemma nth_error_snoc {X} (pre : list X) (x y : X) (j : nat) :
  nth_error (pre ++ [x]) j = Some y ->
  nth_error pre j = Some y \/ (j = length pre /\ y = x).
Proof.
  intros Hn. destruct (Nat.lt_ge_cases j (length pre)) as [Hlt|Hge].
  - left. rewrite nth_error_app1 in Hn by exact Hlt. exact Hn.
  - right. rewrite nth_error_app2 in Hn by exact Hge.
    destruct (j - length pre)%nat as [|[|m]] eqn:E; cbn in Hn; try discriminate.
    injection Hn as <-. split; [lia|reflexivity].
Qed.

Lemma argmax_step (pre : list float) (best : option (nat * float)) (x : float) :
  argmax_inv pre best ->
  argmax_inv (pre ++ [x])
    (if F64.notna x then
       match best with
       | None => Some (length pre, x)
       | Some (j, b) => if (b <? x)%float then Some (length pre, x) else best
       end
     else best).
Proof.
  intros Hinv. destruct (F64.notna x) eqn:Hx.
  - destruct best as [[k v]|]; cbn in Hinv.
    + destruct Hinv as (Hk & Hv & Hmax & Hfirst).
      destruct (v <? x)%float eqn:Hlt; cbn.
      * repeat split.
        -- rewrite nth_error_app2, Nat.sub_diag by lia. reflexivity.
        -- exact Hx.
        -- intros j y Hj Hy. apply nth_error_snoc in Hj as [Hj|[_ ->]].
           ++ apply F64_order.ltb_leb. eapply F64_order.leb_ltb_trans; [|exact Hlt]. eauto.
           ++ apply F64_order.leb_refl, Hx.
        -- intros j y Hjk Hj Hy. apply nth_error_snoc in Hj as [Hj|[-> _]]; [|lia].
           eapply F64_order.leb_ltb_trans; [|exact Hlt]. eauto.
      * repeat split.
        -- rewrite nth_error_app1; [exact Hk|]. apply nth_error_Some. congruence.
        -- exact Hv.
        -- intros j y Hj Hy. apply nth_error_snoc in Hj as [Hj|[_ ->]]; [eauto|].
           apply F64_order.nlt_leb; assumption.
        -- intros j y Hjk Hj Hy. apply nth_error_snoc in Hj as [Hj|[-> _]]; [eauto|].
           assert (k < length pre)%nat by (apply nth_error_Some; congruence). lia.
    + cbn. repeat split.
      * rewrite nth_error_app2, Nat.sub_diag by lia. reflexivity.
      * exact Hx.
      * intros j y Hj Hy. apply nth_error_snoc in Hj as [Hj|[_ ->]].
        -- apply nth_error_In in Hj. rewrite List.Forall_forall in Hinv.
           rewrite (Hinv y Hj) in Hy. discriminate.
        -- apply F64_order.leb_refl, Hx.
      * intros j y Hjk Hj Hy. apply nth_error_snoc in Hj as [Hj|[-> _]]; [|lia].
        apply nth_error_In in Hj. rewrite List.Forall_forall in Hinv.
        rewrite (Hinv y Hj) in Hy. discriminate.
  - destruct best as [[k v]|]; cbn in *.
    + destruct Hinv as (Hk & Hv & Hmax & Hfirst). repeat split.
      * rewrite nth_error_app1; [exact Hk|]. apply nth_error_Some. congruence.
      * exact Hv.
      * intros j y Hj Hy. apply nth_error_snoc in Hj as [Hj|[_ ->]]; [eauto|congruence].
      * intros j y Hjk Hj Hy. apply nth_error_snoc in Hj as [Hj|[_ ->]]; [eauto|congruence].
    + apply List.Forall_app. split; [exact Hinv|]. repeat constructor. exact Hx.
Qed.

Lemma argmax_from_inv (l pre : list float) (best : option (nat * float)) :
  argmax_inv pre best -> argmax_inv (pre ++ l) (argmax_from (length pre) best l).
Proof.
  revert pre best. induction l as [|x l IH]; intros pre best Hinv; cbn [argmax_from].
  - rewrite app_nil_r. exact Hinv.
  - change (x :: l) with ([x] ++ l). rewrite app_assoc.
    replace (S (length pre)) with (length (pre ++ [x])) by (rewrite length_app; cbn; lia).
    apply IH, argmax_step, Hinv.
Qed.

Lemma idxmax_spec (l : list float) (k : nat) :
  idxmax l = inr (Some k) ->
  exists v, nth_error l k = Some v /\ F64.notna v = true
    /\ (forall j x, nth_error l j = Some x -> F64.notna x = true -> (x <=? v)%float = true)
    /\ (forall j x, (j < k)%nat -> nth_error l j = Some x -> F64.notna x = true ->
          (x <? v)%float = true).
Proof.
  pose proof (argmax_from_inv l [] None (List.Forall_nil _)) as Hinv.
  cbn [app length] in Hinv. unfold idxmax.
  destruct l as [|x l]; [discriminate|].
  destruct (argmax_from 0 None (x :: l)) as [[i v]|]; [|discriminate].
  cbn [option_map fst]. intros [= <-]. exists v. exact Hinv.
Qed.

Lemma idxmax_defined (l : list float) :
  existsb F64.notna l = true -> exists k, idxmax l = inr (Some k).
Proof.
  intros Hex. pose proof (argmax_from_inv l [] None (List.Forall_nil _)) as Hinv.
  cbn [app length] in Hinv. unfold idxmax.
  destruct l as [|x l]; [discriminate|].
  destruct (argmax_from 0 None (x :: l)) as [[i v]|]; [eauto|].
  cbn in Hinv. apply existsb_exists in Hex as (y & Hy & Hny).
  rewrite List.Forall_forall in Hinv. rewrite (Hinv y Hy) in Hny. discriminate.
Qed.

Lemma idxmax_undefined (l : list float) :
  existsb F64.notna l = false -> idxmax l = inr None \/ exists e, idxmax l = inl e.
Proof.
  intros Hex. destruct (idxmax l) as [e|[k|]] eqn:E; [eauto| |auto].
  apply idxmax_spec in E as (v & Hk & Hv & _).
  assert (existsb F64.notna l = true); [|congruence].
  apply existsb_exists. exists v. split; [|exact Hv]. eapply nth_error_In, Hk.
Qed.

Lemma priced_prices p : priced p = existsb F64.notna (map ListPrice p).
Proof. unfold priced. induction p as [|r p IH]; cbn; [reflexivity|]. rewrite IH. reflexivity. Qed.

(** With a priced row, the dictionary is built, and its entries are these. *)
Lemma insights_defined (s : list (SalesRow float)) (p : list ProductRow) :
  priced p = true ->
  exists k r,
    idxmax (map ListPrice p) = inr (Some k) /\ nth_error p k = Some r
    /\ insights s p =
       inr {| total_sales := series_sum (map TotalDue s);
              total_orders := length s;
              avg_order_value := series_mean (map TotalDue s);
              avg_product_price := series_mean (map ListPrice p);
              most_expensive_product := Name r |}.
Proof.
  intros Hp. rewrite priced_prices in Hp.
  destruct (idxmax_defined _ Hp) as [k Hk].
  destruct (idxmax_spec _ _ Hk) as (v & Hv & _).
  rewrite nth_error_map in Hv. destruct (nth_error p k) as [r|] eqn:Hr; [|discriminate].
  exists k, r. repeat split; try assumption.
  unfold insights, loc_Name. rewrite Hk, Hr. reflexivity.
Qed.

Lemma insights_undefined (s : list (SalesRow float)) (p : list ProductRow) :
  priced p = false -> exists e, insights s p = inl e.
Proof.
  intros Hp. rewrite priced_prices in Hp.
  unfold insights.
  destruct (idxmax_undefined _ Hp) as [-> | [e ->]]; eauto.
Qed.

(** ** The insights *)

(** C6.  Whenever the product table has a priced row (so that the
    dictionary of insights is built at all), the total-orders entry is
    the number of rows of the order table, and the file's line reads
    "Total Orders: " followed by that number. *)
Theorem insights_total_orders :
  forall (s : list (SalesRow float)) (p : list ProductRow),
    priced p = true ->
    exists i, insights s p = inr i
      /\ total_orders i = length s
      /\ nth_error (insights_lines i) 3
         = Some ("Total Orders: " +:+ format_count (length s))%string.
Proof.
  intros s p Hp. destruct (insights_defined s p Hp) as (k & r & _ & _ & Hi).
  eexists. split; [exact Hi|]. split; reflexivity.
Qed.

Lemma insights_total_orders_scenario :
  exists i, insights (scenario_orders 100 50 75)%float scenario_products = inr i
    /\ total_orders i = 3%nat
    /\ nth_error (insights_lines i) 3 = Some "Total Orders: 3"%string.
Proof.
  exact (insights_total_orders (scenario_orders 100 50 75)%float scenario_products eq_refl).
Defined.

(** C7.  For every product table with a priced row (every non-empty
    table whose prices are present), the most-expensive-product entry is
    the name of a row whose list price is at least the price of every
    priced row, and every priced row before it has a strictly lower
    price: it is the first row of the maximum price.  Prices 10, 999, 5,
    500 of A, B, C, D give B; prices 5, 999, 999 of A, B, C give B. *)
Theorem most_expensive_product_first_max :
  (forall (s : list (SalesRow float)) (p : list ProductRow),
     priced p = true ->
     exists i k r,
       insights s p = inr i
       /\ nth_error p k = Some r
       /\ most_expensive_product i = Name r
       /\ F64.notna (ListPrice r) = true
       /\ (forall r', In r' p -> F64.notna (ListPrice r') = true ->
             (ListPrice r' <=? ListPrice r)%float = true)
       /\ (forall j r', (j < k)%nat -> nth_error p j = Some r' ->
             F64.notna (ListPrice r') = true ->
             (ListPrice r' <? ListPrice r)%float = true))
  /\ (forall s : list (SalesRow float),
        exists i, insights s scenario_products = inr i
                  /\ most_expensive_product i = "B"%string)
  /\ (forall s : list (SalesRow float),
        exists i, insights s [product "A" 5; product "B" 999; product "C" 999] = inr i
                  /\ most_expensive_product i = "B"%string).
Proof.
  split.
  - intros s p Hp. destruct (insights_defined s p Hp) as (k & r & Hk & Hr & Hi).
    destruct (idxmax_spec _ _ Hk) as (v & Hv & Hnv & Hmax & Hfirst).
    rewrite nth_error_map, Hr in Hv. injection Hv as <-.
    eexists. exists k, r. split; [exact Hi|]. repeat split; try assumption.
    + intros r' Hin Hn. apply In_nth_error in Hin as [j Hj].
      apply (Hmax j); [|exact Hn]. rewrite nth_error_map, Hj. reflexivity.
    + intros j r' Hjk Hj Hn.
      apply (Hfirst j); [exact Hjk| |exact Hn]. rewrite nth_error_map, Hj. reflexivity.
  - split; intros s.
    + destruct (insights_defined s scenario_products eq_refl) as (k & r & Hk & Hr & Hi).
      eexists. split; [exact Hi|]. cbn.
      vm_compute in Hk. injection Hk as <-. vm_compute in Hr. injection Hr as <-. reflexivity.
    + destruct (insights_defined s [product "A" 5; product "B" 999; product "C" 999] eq_refl)
        as (k & r & Hk & Hr & Hi).
      eexists. split; [exact Hi|]. cbn.
      vm_compute in Hk. injection Hk as <-. vm_compute in Hr. injection Hr as <-. reflexivity.
Qed.

Lemma most_expensive_product_tie :
  exists i k r,
    insights [] [product "A" 5; product "B" 999; product "C" 999] = inr i
    /\ nth_error [product "A" 5; product "B" 999; product "C" 999] k = Some r
    /\ most_expensive_product i = Name r
    /\ F64.notna (ListPrice r) = true
    /\ (forall r', In r' [product "A" 5; product "B" 999; product "C" 999] ->
          F64.notna (ListPrice r') = true ->
          (ListPrice r' <=? ListPrice r)%float = true)
    /\ (forall j r', (j < k)%nat ->
          nth_error [product "A" 5; product "B" 999; product "C" 999] j = Some r' ->
          F64.notna (ListPrice r') = true ->
          (ListPrice r' <? ListPrice r)%float = true).
Proof.
  exact (proj1 most_expensive_product_first_max []
           [product "A" 5; product "B" 999; product "C" 999] eq_refl).
Defined.

(** C10.  For an empty order table and a product table with a priced
    row, the dictionary is built and the file is written: total sales is
    0, total orders is 0, and the mean order value, a mean of no value,
    is NaN. *)
Theorem insights_empty_orders :
  forall (p : list ProductRow),
    priced p = true ->
    exists i, insights [] p = inr i
      /\ total_sales i = 0%float
      /\ total_orders i = 0%nat
      /\ PrimFloat.is_nan (avg_order_value i) = true
      /\ firstn 4 (insights_lines i)
         = ["Key Business Insights:"; ""; "Total Sales: $0.00"; "Total Orders: 0"]%string
      /\ forall w, generate_insights [] p w
           = (inr tt, {| heap := heap w; stdout := stdout w;
                         files := <["insights.txt"%string := insights_text i]> (files w) |}).
Proof.
  intros p Hp. destruct (insights_defined [] p Hp) as (k & r & _ & _ & Hi).
  eexists. split; [exact Hi|]. repeat split.
  intros w. unfold generate_insights, bind, lift. rewrite Hi. reflexivity.
Qed.

Lemma insights_empty_orders_scenario :
  exists i, insights [] scenario_products = inr i
    /\ total_sales i = 0%float
    /\ total_orders i = 0%nat
    /\ PrimFloat.is_nan (avg_order_value i) = true
    /\ firstn 4 (insights_lines i)
       = ["Key Business Insights:"; ""; "Total Sales: $0.00"; "Total Orders: 0"]%string
    /\ forall w, generate_insights [] scenario_products w
         = (inr tt, {| heap := heap w; stdout := stdout w;
                       files := <["insights.txt"%string := insights_text i]> (files w) |}).
Proof. exact (insights_empty_orders scenario_products eq_refl). Defined.

(** C4, as the code has it.  On an empty product table insight
    extraction raises the ValueError of [idxmax], whatever the order
    table, before the file is opened: the world is left as it was, no
    sentinel and no average are reported. *)
Theorem generate_insights_empty_products :
  forall (s : list (SalesRow float)) (w : World),
    insights s [] = inl (ValueError "attempt to get argmax of an empty sequence")
    /\ generate_insights s [] w
       = (inl (ValueError "attempt to get argmax of an empty sequence"), w).
Proof. intros s w. split; reflexivity. Qed.

(** C4 fails as stated: with the scenario's three orders and no
    product, insight extraction raises and writes no file. *)
Lemma generate_insights_no_products_raises :
  (generate_insights (scenario_orders 100 50 75)%float [] empty_world).1
  = inl (ValueError "attempt to get argmax of an empty sequence")
  /\ files (generate_insights (scenario_orders 100 50 75)%float [] empty_world).2
       !! "insights.txt"%string = None.
Proof. split; vm_compute; reflexivity. Qed.

(** ** Preparation *)

Lemma getitem_setitem_same df c v : getitem df c = inr v -> setitem df c v = df.
Proof.
  induction df as [|[c' s] df IH]; cbn; [discriminate|].
  destruct (String.eqb c c'); [intros [= ->]; reflexivity|].
  intros Hg. rewrite (IH Hg). reflexivity.
Qed.

Lemma getitem_setitem df c v c' :
  getitem (setitem df c v) c' = if String.eqb c' c then inr v else getitem df c'.
Proof.
  induction df as [|[c1 s] df IH]; cbn.
  - destruct (String.eqb_spec c' c) as [->|Hne]; [reflexivity|].
    destruct (String.eqb_spec c' c); [contradiction|reflexivity].
  - destruct (String.eqb_spec c c1) as [->|Hne]; cbn.
    + destruct (String.eqb c' c1); reflexivity.
    + rewrite IH. destruct (String.eqb_spec c' c1) as [->|Hne']; [|reflexivity].
      destruct (String.eqb_spec c1 c); [congruence|reflexivity].
Qed.

Lemma columns_setitem df c v s :
  getitem df c = inr s -> columns (setitem df c v) = columns df.
Proof.
  induction df as [|[c1 s1] df IH]; cbn; [discriminate|].
  destruct (String.eqb c c1); cbn; [reflexivity|].
  intros Hg. unfold columns in IH. rewrite (IH Hg). reflexivity.
Qed.

Lemma getitem_app_r pre df c :
  ~ In c (columns pre) -> getitem (pre ++ df) c = getitem df c.
Proof.
  induction pre as [|[c1 s] pre IH]; cbn; [reflexivity|].
  intros Hnin. destruct (String.eqb_spec c c1) as [->|Hne].
  - destruct Hnin. left. reflexivity.
  - apply IH. intros Hin. apply Hnin. right. exact Hin.
Qed.

Lemma select_suffix pre df :
  List.NoDup (columns (pre ++ df)) -> select (pre ++ df) (columns df) = inr df.
Proof.
  revert pre. induction df as [|[c s] df IH]; intros pre Hnd; [reflexivity|].
  change (columns ((c, s) :: df)) with (c :: columns df). cbn [select].
  rewrite getitem_app_r.
  - cbn [getitem]. rewrite String.eqb_refl.
    specialize (IH (pre ++ [(c, s)])). rewrite <- app_assoc in IH. cbn [app] in IH.
    rewrite (IH Hnd). reflexivity.
  - unfold columns in Hnd. rewrite map_app in Hnd. cbn in Hnd.
    apply NoDup_remove_2 in Hnd. intros Hin. apply Hnd, in_or_app. left. exact Hin.
Qed.

(** Projecting a frame onto its own columns gives the frame. *)
Lemma select_columns df : List.NoDup (columns df) -> select df (columns df) = inr df.
Proof. apply (select_suffix []). Qed.

Lemma select_result df cs d : select df cs = inr d -> columns d = cs.
Proof.
  revert d. induction cs as [|c cs IH]; cbn; intros d.
  - intros [= <-]. reflexivity.
  - destruct (getitem df c); [discriminate|].
    destruct (select df cs) as [|d']; [discriminate|].
    intros [= <-]. unfold columns. cbn [map fst]. f_equal. apply (IH d' eq_refl).
Qed.

Lemma select_getitem df cs d c :
  select df cs = inr d -> In c cs -> getitem d c = getitem df c.
Proof.
  revert d. induction cs as [|c0 cs IH]; intros d; cbn [select]; [intros _ []|].
  destruct (getitem df c0) as [|s0] eqn:E0; [discriminate|].
  destruct (select df cs) as [|d']; [discriminate|].
  intros [= <-] Hin. cbn [getitem].
  destruct (String.eqb_spec c c0) as [->|Hne]; [symmetry; exact E0|].
  destruct Hin as [->|Hin]; [contradiction|]. apply (IH d' eq_refl Hin).
Qed.

Lemma sales_columns_NoDup : List.NoDup sales_columns.
Proof. repeat constructor; cbn; intuition discriminate. Qed.

Lemma product_columns_NoDup : List.NoDup product_columns.
Proof. repeat constructor; cbn; intuition discriminate. Qed.

Lemma fresh_loc_None (h : gmap loc DataFrame) : h !! fresh (dom h) = None.
Proof. apply not_elem_of_dom, is_fresh. Qed.

Lemma fresh_loc_ne (h : gmap loc DataFrame) (l : loc) (d : DataFrame) :
  h !! l = Some d -> fresh (dom h) <> l.
Proof. intros Hl Heq. rewrite <- Heq, fresh_loc_None in Hl. discriminate. Qed.

Lemma getitem_absent df c : ~ In c (columns df) -> getitem df c = inl (KeyError c).
Proof.
  induction df as [|[c1 s1] df IH]; cbn; [reflexivity|].
  intros Hnin. destruct (String.eqb_spec c c1) as [->|Hne].
  - destruct Hnin. left. reflexivity.
  - apply IH. intros Hin. apply Hnin. right. exact Hin.
Qed.

(** A frame narrowed to the order columns has no product columns. *)
Lemma select_products_of_sales df ns :
  select df sales_columns = inr ns -> select ns product_columns = inl (KeyError "ProductID").
Proof.
  intros Hns. apply select_result in Hns. cbn [select product_columns].
  rewrite getitem_absent; [reflexivity|].
  rewrite Hns. cbn. intuition discriminate.
Qed.

Lemma to_datetime_dtype convert col parsed :
  to_datetime convert col = inr parsed -> exists dates, parsed = Datetime64 dates.
Proof.
  destruct col; cbn; try (destruct (convert _); [discriminate|]);
    intros [= <-]; eauto.
Qed.

(** A successful run, step by step: the frames read and made, and where
    they are stored. *)
Lemma prepare_data_run convert (w w' : World) (s p s' p' : loc) :
  prepare_data convert s p w = (inr (s', p'), w') ->
  exists fs col dates ns fp np,
    heap w !! s = Some fs
    /\ getitem fs "OrderDate" = inr col
    /\ to_datetime convert col = inr (Datetime64 dates)
    /\ select (setitem fs "OrderDate" (Datetime64 dates)) sales_columns = inr ns
    /\ select fp product_columns = inr np
    /\ heap w !! s' = None /\ heap w !! p' = None
    /\ s' <> s /\ p' <> s /\ s' <> p /\ p' <> p /\ p' <> s'
    /\ <[s := setitem fs "OrderDate" (Datetime64 dates)]> (heap w) !! p = Some fp
    /\ w' = {| heap := <[p' := np]> (<[s' := ns]>
                        (<[s := setitem fs "OrderDate" (Datetime64 dates)]> (heap w)));
               files := files w; stdout := stdout w |}.
Proof.
  unfold prepare_data, bind, deref, lift, assign, alloc, ret. cbn [heap files stdout].
  destruct (heap w !! s) as [fs|] eqn:Hfs; [|discriminate].
  destruct (getitem fs "OrderDate") as [|col] eqn:Hcol; [discriminate|].
  destruct (to_datetime convert col) as [|parsed] eqn:Hparsed; [discriminate|].
  destruct (to_datetime_dtype _ _ _ Hparsed) as [dates ->].
  cbn [heap files stdout]. rewrite lookup_insert_eq.
  set (fs1 := setitem fs "OrderDate" (Datetime64 dates)).
  destruct (select fs1 sales_columns) as [|ns] eqn:Hns; [discriminate|].
  cbn [heap files stdout].
  set (h1 := <[s := fs1]> (heap w)).
  pose proof (fresh_loc_None h1) as Hnew1.
  set (l1 := fresh (dom h1)) in *.
  destruct (<[l1 := ns]> h1 !! p) as [fp|] eqn:Hfp; [|discriminate].
  destruct (select fp product_columns) as [|np] eqn:Hnp; [discriminate|].
  cbn [heap files stdout].
  pose proof (fresh_loc_None (<[l1 := ns]> h1)) as Hnew2.
  set (l2 := fresh (dom (<[l1 := ns]> h1))) in *.
  intros [= <- <- <-].
  assert (Hl1s : l1 <> s).
  { intros Heq. unfold h1 in Hnew1. rewrite Heq, lookup_insert_eq in Hnew1. discriminate. }
  assert (Hl21 : l2 <> l1).
  { intros Heq. rewrite Heq, lookup_insert_eq in Hnew2. discriminate. }
  assert (Hl2p : l2 <> p) by (intros Heq; rewrite Heq in Hnew2; congruence).
  assert (Hl1p : l1 <> p).
  { intros Heq. rewrite <- Heq, lookup_insert_eq in Hfp. injection Hfp as <-.
    rewrite (select_products_of_sales _ _ Hns) in Hnp. discriminate. }
  rewrite lookup_insert_ne in Hnew2, Hfp by congruence.
  assert (Hl2s : l2 <> s).
  { intros Heq. unfold h1 in Hnew2. rewrite Heq, lookup_insert_eq in Hnew2. discriminate. }
  unfold h1 in Hnew1, Hnew2. rewrite lookup_insert_ne in Hnew1, Hnew2 by congruence.
  exists fs, col, dates, ns, fp, np. repeat split; try assumption; reflexivity.
Qed.

(** C3, as the code has it.  A successful preparation performs no I/O
    (files and console are as before) and returns two new frames with
    the narrowed columns.  It leaves every frame but the order table as it
    was, the product table included when it is another object than the
    order table; the order table itself it changes in place: its
    OrderDate column now holds the parsed dates, its other columns and
    the column order are as before. *)
Theorem prepare_data_effects :
  forall (convert : Series -> exn + list Timestamp) (w w' : World)
         (sales_data product_data sales_data' product_data' : loc),
    prepare_data convert sales_data product_data w
      = (inr (sales_data', product_data'), w') ->
    files w' = files w /\ stdout w' = stdout w
    /\ heap w !! sales_data' = None /\ heap w !! product_data' = None
    /\ sales_data' <> product_data'
    /\ (forall l, l <> sales_data -> l <> sales_data' -> l <> product_data' ->
          heap w' !! l = heap w !! l)
    /\ (product_data <> sales_data -> heap w' !! product_data = heap w !! product_data)
    /\ (exists sales sales1 dates,
          heap w !! sales_data = Some sales
          /\ heap w' !! sales_data = Some sales1
          /\ sales1 = setitem sales "OrderDate" (Datetime64 dates)
          /\ columns sales1 = columns sales
          /\ getitem sales1 "OrderDate" = inr (Datetime64 dates)
          /\ (forall c, c <> "OrderDate"%string -> getitem sales1 c = getitem sales c)
          /\ exists narrowed, heap w' !! sales_data' = Some narrowed
               /\ select sales1 sales_columns = inr narrowed
               /\ columns narrowed = sales_columns)
    /\ (exists products narrowed,
          heap w' !! product_data = Some products
          /\ heap w' !! product_data' = Some narrowed
          /\ select products product_columns = inr narrowed
          /\ columns narrowed = product_columns).
Proof.
  intros convert w w' s p s' p' Hrun.
  destruct (prepare_data_run _ _ _ _ _ _ _ Hrun)
    as (fs & col & dates & ns & fp & np & Hfs & Hcol & Hparsed & Hns & Hnp
        & Hnew1 & Hnew2 & Hs's & Hp's & Hs'p & Hp'p & Hp's' & Hfp & ->).
  cbn [heap files stdout].
  split; [reflexivity|]. split; [reflexivity|].
  split; [exact Hnew1|]. split; [exact Hnew2|]. split; [congruence|].
  split; [|split; [|split]].
  - intros l Hs Hl1 Hl2. rewrite !lookup_insert_ne by congruence. reflexivity.
  - intros Hps. rewrite !lookup_insert_ne by congruence. reflexivity.
  - exists fs, (setitem fs "OrderDate" (Datetime64 dates)), dates.
    split; [exact Hfs|]. split.
    { rewrite !lookup_insert_ne, lookup_insert_eq by congruence. reflexivity. }
    split; [reflexivity|]. split; [exact (columns_setitem _ _ _ _ Hcol)|].
    split; [rewrite getitem_setitem, String.eqb_refl; reflexivity|].
    split.
    { intros c Hc. rewrite getitem_setitem.
      destruct (String.eqb_spec c "OrderDate"); [contradiction|reflexivity]. }
    exists ns. split; [|split; [exact Hns|exact (select_result _ _ _ Hns)]].
    rewrite lookup_insert_ne, lookup_insert_eq by congruence. reflexivity.
  - exists fp, np. split; [|split; [|split; [exact Hnp|exact (select_result _ _ _ Hnp)]]].
    + rewrite !lookup_insert_ne by congruence. exact Hfp.
    + rewrite lookup_insert_eq. reflexivity.
Qed.

Lemma prepare_data_effects_raw :
  prepare_data convert_iso 1%positive 2%positive raw_world
    = (inr (3%positive, 4%positive), world_after_raw)
  /\ files world_after_raw = files raw_world
  /\ stdout world_after_raw = stdout raw_world
  /\ heap raw_world !! 3%positive = None
  /\ heap raw_world !! 4%positive = None
  /\ heap world_after_raw !! 2%positive = heap raw_world !! 2%positive
  /\ heap world_after_raw !! 1%positive = Some mutated_sales.
Proof.
  assert (Hrun : prepare_data convert_iso 1%positive 2%positive raw_world
                 = (inr (3%positive, 4%positive), world_after_raw))
    by (vm_compute; reflexivity).
  destruct (prepare_data_effects convert_iso raw_world world_after_raw
              1%positive 2%positive 3%positive 4%positive Hrun)
    as (Hfiles & Hout & Hnew1 & Hnew2 & _ & _ & Hprod & _).
  repeat split; try assumption; try (apply Hprod; discriminate); reflexivity.
Defined.

(** C3 fails as stated: preparing the raw tables changes the raw order
    table.  Its OrderDate column held the strings 2023-01-15 and
    2023-02-01 before the call and holds two timestamps after it. *)
Lemma prepare_data_mutates_order_table :
  (prepare_data convert_iso 1%positive 2%positive raw_world).1
    = inr (3%positive, 4%positive)
  /\ heap raw_world !! 1%positive = Some raw_sales
  /\ getitem raw_sales "OrderDate" = inr (Object ["2023-01-15"; "2023-02-01"]%string)
  /\ heap (prepare_data convert_iso 1%positive 2%positive raw_world).2 !! 1%positive
     = Some mutated_sales
  /\ getitem mutated_sales "OrderDate"
     = inr (Datetime64 [1673740800000000000; 1675209600000000000])
  /\ heap (prepare_data convert_iso 1%positive 2%positive raw_world).2 !! 1%positive
     <> heap raw_world !! 1%positive.
Proof.
  repeat split; try (vm_compute; reflexivity).
  intros Heq. vm_compute in Heq. discriminate.
Qed.

(** C8.  On an order table and a product table that are already in the
    prepared schema, preparation succeeds and returns two new frames
    equal to its inputs; the inputs themselves, the files and the
    console are as before.  What a successful preparation returns is in
    the prepared schema, so preparing its results again returns them
    unchanged. *)
Theorem prepare_data_idempotent :
  (forall (convert : Series -> exn + list Timestamp) (w : World)
          (sales_data product_data : loc) (sales products : DataFrame),
     heap w !! sales_data = Some sales ->
     heap w !! product_data = Some products ->
     prepared_sales sales ->
     prepared_products products ->
     exists sales_data' product_data' w',
       prepare_data convert sales_data product_data w = (inr (sales_data', product_data'), w')
       /\ heap w' !! sales_data' = Some sales
       /\ heap w' !! product_data' = Some products
       /\ heap w !! sales_data' = None
       /\ heap w !! product_data' = None
       /\ heap w' !! sales_data = Some sales
       /\ heap w' !! product_data = Some products
       /\ files w' = files w
       /\ stdout w' = stdout w)
  /\ (forall (convert : Series -> exn + list Timestamp) (w w' : World)
             (sales_data product_data sales_data' product_data' : loc),
        prepare_data convert sales_data product_data w
          = (inr (sales_data', product_data'), w') ->
        exists sales products,
          heap w' !! sales_data' = Some sales
          /\ heap w' !! product_data' = Some products
          /\ prepared_sales sales
          /\ prepared_products products).
Proof.
  split.
  {
    intros convert w s p fs fp Hfs Hfp [Hcols [dates Hdate]] Hpcols.
    unfold prepare_data, bind, deref, lift, assign, alloc, ret. cbn [heap files stdout].
    rewrite Hfs, Hdate. cbn [to_datetime heap files stdout].
    rewrite (getitem_setitem_same _ _ _ Hdate), (insert_id _ _ _ Hfs), Hfs.
    rewrite <- Hcols, select_columns by (rewrite Hcols; apply sales_columns_NoDup).
    cbn [heap files stdout].
    pose proof (fresh_loc_None (heap w)) as Hnew1.
    pose proof (fresh_loc_ne _ _ _ Hfs) as Hs1.
    pose proof (fresh_loc_ne _ _ _ Hfp) as Hp1.
    set (l1 := fresh (dom (heap w))) in *.
    rewrite lookup_insert_ne, Hfp by exact Hp1.
    rewrite <- Hpcols, select_columns by (rewrite Hpcols; apply product_columns_NoDup).
    cbn [heap files stdout].
    pose proof (fresh_loc_None (<[l1 := fs]> (heap w))) as Hnew2.
    set (l2 := fresh (dom (<[l1 := fs]> (heap w)))) in *.
    assert (Hl21 : l2 <> l1).
    { intros Heq. rewrite Heq, lookup_insert_eq in Hnew2. discriminate. }
    rewrite lookup_insert_ne in Hnew2 by congruence.
    assert (Hs2 : l2 <> s) by (intros ->; congruence).
    assert (Hp2 : l2 <> p) by (intros ->; congruence).
    exists l1, l2. eexists. split; [reflexivity|]. cbn [heap files stdout].
    repeat split; try assumption.
    - rewrite lookup_insert_ne, lookup_insert_eq by congruence. reflexivity.
    - rewrite lookup_insert_eq. reflexivity.
    - rewrite !lookup_insert_ne by congruence. exact Hfs.
    - rewrite !lookup_insert_ne by congruence. exact Hfp.
  }
  intros convert w w' s p s' p' Hrun.
  destruct (prepare_data_run _ _ _ _ _ _ _ Hrun)
    as (fs & col & dates & ns & fp & np & Hfs & Hcol & Hparsed & Hns & Hnp
        & Hnew1 & Hnew2 & Hs's & Hp's & Hs'p & Hp'p & Hp's' & Hfp & ->).
  cbn [heap]. exists ns, np. repeat split.
  - rewrite lookup_insert_ne, lookup_insert_eq by congruence. reflexivity.
  - rewrite lookup_insert_eq. reflexivity.
  - exact (select_result _ _ _ Hns).
  - exists dates. rewrite (select_getitem _ _ _ "OrderDate"%string Hns).
    + rewrite getitem_setitem, String.eqb_refl. reflexivity.
    + cbn. auto.
  - exact (select_result _ _ _ Hnp).
Qed.

Example prepare_data_raw :
  exists w', prepare_data convert_iso 1%positive 2%positive raw_world = (inr (3, 4)%positive, w')
    /\ heap w' !! 3%positive = Some narrowed_sales
    /\ heap w' !! 4%positive = Some narrowed_products.
Proof. eexists. vm_compute. repeat split. Qed.

Lemma prepare_data_idempotent_prepared :
  exists sales_data' product_data' w',
    prepare_data convert_iso 1%positive 2%positive prepared_world = (inr (sales_data', product_data'), w')
    /\ heap w' !! sales_data' = Some narrowed_sales
    /\ heap w' !! product_data' = Some narrowed_products
    /\ heap prepared_world !! sales_data' = None
    /\ heap prepared_world !! product_data' = None
    /\ heap w' !! 1%positive = Some narrowed_sales
    /\ heap w' !! 2%positive = Some narrowed_products
    /\ files w' = files prepared_world
    /\ stdout w' = stdout prepared_world.
Proof.
  apply (proj1 prepare_data_idempotent convert_iso prepared_world 1%positive 2%positive
           narrowed_sales narrowed_products).
  - reflexivity.
  - reflexivity.
  - split; [reflexivity|]. eexists. reflexivity.
  - reflexivity.
Defined.

(** ** The shape of the formatted numbers *)

Lemma chars_append (a b : string) : chars (a +:+ b) = chars a ++ chars b.
Proof.
  unfold chars. induction a as [|c a IH]; [reflexivity|].
  change (c :: list_ascii_of_string (a +:+ b) = c :: list_ascii_of_string a ++ list_ascii_of_string b).
  rewrite IH. reflexivity.
Qed.

Lemma string_of_uint_digits (d : Decimal.uint) :
  all_digits (chars (NilEmpty.string_of_uint d)) = true.
Proof. induction d; cbn; auto. Qed.

Lemma digits_all_digits (n : N) : all_digits (chars (digits n)) = true.
Proof.
  unfold digits, NilZero.string_of_uint.
  destruct (N.to_uint n) eqn:E; try reflexivity; rewrite <- E; apply string_of_uint_digits.
Qed.

Lemma digits_nonempty (n : N) : chars (digits n) <> [].
Proof.
  unfold digits, NilZero.string_of_uint. destruct (N.to_uint n); cbn; discriminate.
Qed.

Lemma group3_grouped (n : nat) (l : list ascii) :
  (length l <= n)%nat -> l <> [] -> all_digits l = true -> Grouped (rev (group3 l)).
Proof.
  revert l. induction n as [|n IH]; intros l Hlen Hne Hd.
  - destruct l; [contradiction|cbn in Hlen; lia].
  - destruct l as [|a [|b [|c [|d rest]]]]; [contradiction| | | |].
    + apply Grouped_head; [exact Hd|cbn; lia].
    + apply Grouped_head; [|cbn; lia].
      cbn in *. destruct (is_digit a), (is_digit b); auto.
    + apply Grouped_head; [|cbn; lia].
      cbn in *. destruct (is_digit a), (is_digit b), (is_digit c); auto.
    + change (group3 (a :: b :: c :: d :: rest))
        with (a :: b :: c :: ","%char :: group3 (d :: rest)).
      change (rev (a :: b :: c :: ","%char :: group3 (d :: rest)))
        with ((((rev (group3 (d :: rest)) ++ [","%char]) ++ [c]) ++ [b]) ++ [a]).
      rewrite <- !app_assoc. cbn [app].
      cbn in Hd, Hlen.
      destruct (is_digit a) eqn:Ha, (is_digit b) eqn:Hb, (is_digit c) eqn:Hc;
        try discriminate.
      apply Grouped_more.
      * apply IH; [cbn; lia|discriminate|exact Hd].
      * cbn. rewrite Ha, Hb, Hc. reflexivity.
      * reflexivity.
Qed.

Lemma commas_grouped (s : string) :
  chars s <> [] -> all_digits (chars s) = true -> Grouped (chars (commas s)).
Proof.
  intros Hne Hd. unfold commas, chars. rewrite list_ascii_of_string_of_list_ascii.
  apply (group3_grouped (length (rev (list_ascii_of_string s)))).
  - lia.
  - intros Hrev. apply Hne. apply (f_equal (@rev ascii)) in Hrev.
    rewrite rev_involutive in Hrev. exact Hrev.
  - unfold all_digits in *. rewrite forallb_forall in *.
    intros c Hc. apply Hd, in_rev, Hc.
Qed.

(** A count is written with thousands separators and no decimals. *)
Lemma format_count_grouped (n : nat) : Grouped (chars (format_count n)).
Proof. apply commas_grouped; [apply digits_nonempty|apply digits_all_digits]. Qed.

Lemma two_decimals (k : N) :
  (k < 100)%N ->
  all_digits (chars (zfill 2 (digits k))) = true
  /\ length (chars (zfill 2 (digits k))) = 2%nat.
Proof.
  intros Hk.
  assert (Hall : forallb (fun i =>
                   all_digits (chars (zfill 2 (digits (N.of_nat i))))
                   && (length (chars (zfill 2 (digits (N.of_nat i)))) =? 2)%nat)
                 (seq 0 100) = true) by (vm_compute; reflexivity).
  rewrite forallb_forall in Hall.
  assert (Hin : In (N.to_nat k) (seq 0 100)) by (apply in_seq; lia).
  apply Hall in Hin. rewrite N2Nat.id in Hin. apply andb_prop in Hin as [Hd Hl].
  split; [exact Hd|]. apply Nat.eqb_eq, Hl.
Qed.

Lemma fixed2_amount (sg : bool) (h : N) : Amount (sign_str sg +:+ fixed2 h).
Proof.
  destruct (two_decimals (h mod 100)) as [Hd Hl]; [apply N.mod_lt; discriminate|].
  exists (chars (sign_str sg)), (chars (commas (digits (h / 100)))),
         (chars (zfill 2 (digits (h mod 100)))).
  repeat split; try assumption.
  - unfold fixed2. rewrite !chars_append. reflexivity.
  - destruct sg; [right|left]; reflexivity.
  - apply commas_grouped; [apply digits_nonempty|apply digits_all_digits].
Qed.

Lemma format_2f_finite (x : float) : is_finite x = true -> Amount (format_2f x).
Proof.
  unfold is_finite, format_2f. destruct (Prim2SF x); try discriminate; intros _;
    apply fixed2_amount.
Qed.

Lemma format_2f_not_finite (x : float) :
  is_finite x = false ->
  format_2f x = "nan"%string \/ format_2f x = "inf"%string \/ format_2f x = "-inf"%string.
Proof.
  unfold is_finite, format_2f. destruct (Prim2SF x) as [|[|]| |]; try discriminate; auto.
Qed.

Lemma Grouped_nonempty (g : list ascii) : Grouped g -> g <> [].
Proof.
  destruct 1 as [d _ Hl|g d _ _ _].
  - destruct d; [cbn in Hl; lia|discriminate].
  - destruct g; discriminate.
Qed.

Lemma Grouped_chars (g : list ascii) :
  Grouped g -> Forall (fun c => is_digit c = true \/ c = ","%char) g.
Proof.
  induction 1 as [d Hd _|g d _ IH Hd _].
  - apply List.Forall_forall. intros c Hc. left.
    unfold all_digits in Hd. rewrite forallb_forall in Hd. auto.
  - apply List.Forall_app. split; [exact IH|]. constructor; [right; reflexivity|].
    apply List.Forall_forall. intros c Hc. left.
    unfold all_digits in Hd. rewrite forallb_forall in Hd. auto.
Qed.

(** "nan" is not an amount: it has no digit. *)
Lemma nan_not_amount : ~ Amount "nan".
Proof.
  intros (sg & g & d & Heq & Hsg & Hg & _ & _).
  pose proof (Grouped_nonempty g Hg) as Hne.
  apply Grouped_chars in Hg.
  destruct g as [|c g]; [contradiction|].
  inversion Hg as [|? ? Hc _]; subst.
  destruct Hsg as [-> | ->]; cbn in Heq; injection Heq as Hc' _; subst;
    destruct Hc as [Hc|Hc]; discriminate.
Qed.

(** C9, as the code has it.  For every order table and every product
    table with a priced row, the insights file holds the title line
    "Key Business Insights:", an empty line, and the five lines Total
    Sales, Total Orders, Average Order Value, Average Product Price,
    Most Expensive Product, in this order.  The order count is written
    with thousands separators and no decimals.  Each of the three
    amounts follows a "$"; one that is a number is written with
    thousands separators and exactly two decimals, one that is not is
    written nan, inf or -inf; the average order value of an empty order
    table is written nan. *)
Theorem insights_file_format :
  forall (s : list (SalesRow float)) (p : list ProductRow),
    priced p = true ->
    exists i, insights s p = inr i
      /\ (forall w, generate_insights s p w
            = (inr tt, {| heap := heap w; stdout := stdout w;
                          files := <["insights.txt"%string := insights_text i]> (files w) |}))
      /\ insights_text i
         = ("Key Business Insights:" +:+ nl +:+ nl
            +:+ "Total Sales: $" +:+ format_2f (total_sales i) +:+ nl
            +:+ "Total Orders: " +:+ format_count (total_orders i) +:+ nl
            +:+ "Average Order Value: $" +:+ format_2f (avg_order_value i) +:+ nl
            +:+ "Average Product Price: $" +:+ format_2f (avg_product_price i) +:+ nl
            +:+ "Most Expensive Product: " +:+ most_expensive_product i +:+ nl)%string
      /\ Grouped (chars (format_count (total_orders i)))
      /\ (forall x, In x [total_sales i; avg_order_value i; avg_product_price i] ->
            (is_finite x = true /\ Amount (format_2f x))
            \/ (is_finite x = false
                /\ (format_2f x = "nan" \/ format_2f x = "inf" \/ format_2f x = "-inf")%string))
      /\ (s = [] -> format_2f (avg_order_value i) = "nan"%string).
Proof.
  intros s p Hp. destruct (insights_defined s p Hp) as (k & r & _ & _ & Hi).
  eexists. split; [exact Hi|]. split; [|split; [|split; [|split]]].
  - intros w. unfold generate_insights, bind, lift. rewrite Hi. reflexivity.
  - reflexivity.
  - apply format_count_grouped.
  - intros x _. destruct (is_finite x) eqn:Hx.
    + left. split; [reflexivity|]. apply format_2f_finite, Hx.
    + right. split; [reflexivity|]. apply format_2f_not_finite, Hx.
  - intros ->. reflexivity.
Qed.

Lemma insights_file_format_scenario :
  exists i, insights (scenario_orders 100 50 75)%float scenario_products = inr i
    /\ (forall w, generate_insights (scenario_orders 100 50 75)%float scenario_products w
          = (inr tt, {| heap := heap w; stdout := stdout w;
                        files := <["insights.txt"%string := insights_text i]> (files w) |}))
    /\ insights_text i
       = ("Key Business Insights:" +:+ nl +:+ nl
          +:+ "Total Sales: $225.00" +:+ nl
          +:+ "Total Orders: 3" +:+ nl
          +:+ "Average Order Value: $75.00" +:+ nl
          +:+ "Average Product Price: $378.50" +:+ nl
          +:+ "Most Expensive Product: B" +:+ nl)%string.
Proof.
  destruct (insights_file_format (scenario_orders 100 50 75)%float scenario_products eq_refl)
    as (i & Hi & Hgen & Htext & _).
  exists i. split; [exact Hi|]. split; [exact Hgen|].
  vm_compute in Hi. injection Hi as <-. vm_compute. reflexivity.
Defined.

(** C9 fails as stated: with no order and the four products of the
    scenario the file is written, and its Average Order Value line
    reads "$nan", which has no thousands separators and no decimals. *)
Lemma insights_file_nan_average :
  generate_insights [] scenario_products empty_world
  = (inr tt,
     {| heap := ∅; stdout := [];
        files := {[ "insights.txt"%string :=
          ("Key Business Insights:" +:+ nl +:+ nl
           +:+ "Total Sales: $0.00" +:+ nl
           +:+ "Total Orders: 0" +:+ nl
           +:+ "Average Order Value: $nan" +:+ nl
           +:+ "Average Product Price: $378.50" +:+ nl
           +:+ "Most Expensive Product: B" +:+ nl)%string ]} |})
  /\ ~ Amount "nan".
Proof. split; [vm_compute; reflexivity|exact nan_not_amount]. Qed.

(** * Further properties *)

(** ** Preparation: when it succeeds, how it fails *)

Lemma getitem_present df c : In c (columns df) -> exists s, getitem df c = inr s.
Proof.
  induction df as [|[c1 s1] df IH]; cbn; [intros []|].
  destruct (String.eqb_spec c c1) as [->|Hne]; [eauto|].
  intros [Heq|Hin]; [congruence|auto].
Qed.

Lemma getitem_columns df c s : getitem df c = inr s -> In c (columns df).
Proof.
  induction df as [|[c1 s1] df IH]; cbn; [discriminate|].
  destruct (String.eqb_spec c c1) as [->|Hne]; [auto|]. intros Hg. right. auto.
Qed.

Lemma select_present df cs : incl cs (columns df) -> exists d, select df cs = inr d.
Proof.
  induction cs as [|c cs IH]; intros Hincl; cbn [select]; [eauto|].
  destruct (getitem_present df c) as [s ->]; [apply Hincl; left; reflexivity|].
  destruct IH as [d ->]; [intros x Hx; apply Hincl; right; exact Hx|]. eauto.
Qed.

(** A projection that fails raises a KeyError on a column that is asked
    for and absent. *)
Lemma select_absent df cs :
  ~ incl cs (columns df) ->
  exists k, select df cs = inl (KeyError k) /\ In k cs /\ ~ In k (columns df).
Proof.
  induction cs as [|c cs IH]; intros Hincl; cbn [select].
  - destruct Hincl. intros x [].
  - destruct (in_dec string_dec c (columns df)) as [Hc|Hc].
    + destruct (getitem_present df c Hc) as [s ->].
      destruct IH as (k & -> & Hk & Hnk).
      * intros Hcs. apply Hincl. intros x [<-|Hx]; auto.
      * exists k. repeat split; [right; exact Hk|exact Hnk].
    + rewrite (getitem_absent df c Hc). exists c. repeat split; [left; reflexivity|exact Hc].
Qed.

(** Given both frames, an order-date column that converts and every
    narrowed column, preparation succeeds. *)
Theorem prepare_data_succeeds :
  forall (convert : Series -> exn + list Timestamp) (w : World)
         (sales_data product_data : loc) (sales products : DataFrame)
         (col parsed : Series),
    heap w !! sales_data = Some sales ->
    heap w !! product_data = Some products ->
    getitem sales "OrderDate" = inr col ->
    to_datetime convert col = inr parsed ->
    incl sales_columns (columns sales) ->
    incl product_columns (columns products) ->
    exists sales_data' product_data' w',
      prepare_data convert sales_data product_data w
        = (inr (sales_data', product_data'), w').
Proof.
  intros convert w s p fs fp col parsed Hfs Hfp Hcol Hparsed Hsc Hpc.
  unfold prepare_data, bind, deref, lift, assign, alloc, ret. cbn [heap files stdout].
  rewrite Hfs, Hcol, Hparsed. cbn [heap files stdout]. rewrite lookup_insert_eq.
  destruct (select_present (setitem fs "OrderDate" parsed) sales_columns) as [ns ->].
  { rewrite (columns_setitem _ _ _ _ Hcol). exact Hsc. }
  cbn [heap files stdout].
  set (h1 := <[s := setitem fs "OrderDate" parsed]> (heap w)).
  assert (Hp : exists fp', <[fresh (dom h1) := ns]> h1 !! p = Some fp'
                           /\ columns fp' = columns fp).
  { assert (Hfresh : fresh (dom h1) <> p).
    { intros Heq. pose proof (fresh_loc_None h1) as Hnone. rewrite Heq in Hnone.
      unfold h1 in Hnone. destruct (decide (s = p)) as [->|Hsp].
      - rewrite lookup_insert_eq in Hnone. discriminate.
      - rewrite lookup_insert_ne in Hnone by exact Hsp. congruence. }
    rewrite lookup_insert_ne by exact Hfresh. unfold h1.
    destruct (decide (s = p)) as [->|Hsp].
    - rewrite lookup_insert_eq. eexists. split; [reflexivity|].
      rewrite (columns_setitem _ _ _ _ Hcol). congruence.
    - rewrite lookup_insert_ne by exact Hsp. eauto. }
  destruct Hp as (fp' & -> & Hcols).
  destruct (select_present fp' product_columns) as [np ->]; [rewrite Hcols; exact Hpc|].
  eauto.
Qed.

Lemma prepare_data_succeeds_raw :
  exists sales_data' product_data' w',
    prepare_data convert_iso 1%positive 2%positive raw_world
      = (inr (sales_data', product_data'), w').
Proof.
  apply (prepare_data_succeeds convert_iso raw_world 1%positive 2%positive
           raw_sales raw_products (Object ["2023-01-15"; "2023-02-01"]%string)
           (Datetime64 [ymd 2023 1 15; ymd 2023 2 1])); try reflexivity.
  - intros c Hc. cbn in Hc |- *. intuition.
  - intros c Hc. cbn in Hc |- *. intuition.
Defined.

(** Without an OrderDate column preparation raises the KeyError of the
    column lookup and changes nothing. *)
Theorem prepare_data_missing_order_date :
  forall (convert : Series -> exn + list Timestamp) (w : World)
         (sales_data product_data : loc) (sales : DataFrame),
    heap w !! sales_data = Some sales ->
    ~ In "OrderDate"%string (columns sales) ->
    prepare_data convert sales_data product_data w = (inl (KeyError "OrderDate"), w).
Proof.
  intros convert w s p fs Hfs Hnin.
  unfold prepare_data, bind, deref, lift. rewrite Hfs, (getitem_absent _ _ Hnin). reflexivity.
Qed.

Lemma prepare_data_missing_order_date_products :
  prepare_data convert_iso 2%positive 1%positive raw_world
  = (inl (KeyError "OrderDate"), raw_world).
Proof.
  apply (prepare_data_missing_order_date convert_iso raw_world 2%positive 1%positive
           raw_products); [reflexivity|].
  cbn. intuition discriminate.
Defined.

(** When the order dates do not convert, preparation raises the error
    of the conversion and changes nothing. *)
Theorem prepare_data_bad_dates :
  forall (convert : Series -> exn + list Timestamp) (w : World)
         (sales_data product_data : loc) (sales : DataFrame) (col : Series) (e : exn),
    heap w !! sales_data = Some sales ->
    getitem sales "OrderDate" = inr col ->
    to_datetime convert col = inl e ->
    prepare_data convert sales_data product_data w = (inl e, w).
Proof.
  intros convert w s p fs col e Hfs Hcol He.
  unfold prepare_data, bind, deref, lift. rewrite Hfs, Hcol, He. reflexivity.
Qed.

Lemma prepare_data_bad_dates_undated :
  prepare_data convert_iso 1%positive 2%positive (world_of undated_sales raw_products)
  = (inl (ValueError "time data does not match format"),
     world_of undated_sales raw_products).
Proof.
  apply (prepare_data_bad_dates convert_iso (world_of undated_sales raw_products)
           1%positive 2%positive undated_sales (Object ["not a date"]%string));
    reflexivity.
Defined.

(** When the order frame lacks a narrowed column, preparation raises a
    KeyError on an absent column, after the dates were assigned: the
    order frame is left with its dates converted, and nothing else is
    changed. *)
Theorem prepare_data_missing_sales_column :
  forall (convert : Series -> exn + list Timestamp) (w : World)
         (sales_data product_data : loc) (sales : DataFrame) (col parsed : Series),
    heap w !! sales_data = Some sales ->
    getitem sales "OrderDate" = inr col ->
    to_datetime convert col = inr parsed ->
    ~ incl sales_columns (columns sales) ->
    exists k,
      In k sales_columns /\ ~ In k (columns sales)
      /\ prepare_data convert sales_data product_data w
         = (inl (KeyError k),
            {| heap := <[sales_data := setitem sales "OrderDate" parsed]> (heap w);
               files := files w; stdout := stdout w |}).
Proof.
  intros convert w s p fs col parsed Hfs Hcol Hparsed Hmiss.
  destruct (select_absent (setitem fs "OrderDate" parsed) sales_columns)
    as (k & Hsel & Hk & Hnk).
  { rewrite (columns_setitem _ _ _ _ Hcol). exact Hmiss. }
  rewrite (columns_setitem _ _ _ _ Hcol) in Hnk.
  exists k. split; [exact Hk|]. split; [exact Hnk|].
  unfold prepare_data, bind, deref, lift, assign. cbn [heap files stdout].
  rewrite Hfs, Hcol, Hparsed. cbn [heap files stdout].
  rewrite lookup_insert_eq, Hsel. reflexivity.
Qed.

Lemma prepare_data_missing_sales_column_unpriced :
  exists k,
    In k sales_columns /\ ~ In k (columns unpriced_sales)
    /\ prepare_data convert_iso 1%positive 2%positive (world_of unpriced_sales raw_products)
       = (inl (KeyError k),
          {| heap := <[1%positive := setitem unpriced_sales "OrderDate"
                                       (Datetime64 [ymd 2023 1 15])]>
                       (heap (world_of unpriced_sales raw_products));
             files := files (world_of unpriced_sales raw_products);
             stdout := stdout (world_of unpriced_sales raw_products) |}).
Proof.
  apply (prepare_data_missing_sales_column convert_iso (world_of unpriced_sales raw_products)
           1%positive 2%positive unpriced_sales (Object ["2023-01-15"]%string)
           (Datetime64 [ymd 2023 1 15])); try reflexivity.
  intros Hincl. specialize (Hincl "TotalDue"%string). cbn in Hincl.
  intuition discriminate.
Defined.

(** When only the product frame lacks a narrowed column, preparation
    raises a KeyError on an absent column; by then the order frame has
    its dates converted, while the product frame, the files and the
    console are as before. *)
Theorem prepare_data_missing_product_column :
  forall (convert : Series -> exn + list Timestamp) (w : World)
         (sales_data product_data : loc) (sales products : DataFrame)
         (col parsed : Series),
    heap w !! sales_data = Some sales ->
    heap w !! product_data = Some products ->
    sales_data <> product_data ->
    getitem sales "OrderDate" = inr col ->
    to_datetime convert col = inr parsed ->
    incl sales_columns (columns sales) ->
    ~ incl product_columns (columns products) ->
    exists k w',
      In k product_columns /\ ~ In k (columns products)
      /\ prepare_data convert sales_data product_data w = (inl (KeyError k), w')
      /\ heap w' !! sales_data = Some (setitem sales "OrderDate" parsed)
      /\ heap w' !! product_data = Some products
      /\ files w' = files w /\ stdout w' = stdout w.
Proof.
  intros convert w s p fs fp col parsed Hfs Hfp Hsp Hcol Hparsed Hsc Hmiss.
  destruct (select_present (setitem fs "OrderDate" parsed) sales_columns) as [ns Hns].
  { rewrite (columns_setitem _ _ _ _ Hcol). exact Hsc. }
  destruct (select_absent fp product_columns Hmiss) as (k & Hsel & Hk & Hnk).
  set (h1 := <[s := setitem fs "OrderDate" parsed]> (heap w)).
  assert (Hfresh : fresh (dom h1) <> p /\ fresh (dom h1) <> s).
  { pose proof (fresh_loc_None h1) as Hnone. split; intros Heq;
      rewrite Heq in Hnone; unfold h1 in Hnone.
    - rewrite lookup_insert_ne in Hnone by exact Hsp. congruence.
    - rewrite lookup_insert_eq in Hnone. discriminate. }
  destruct Hfresh as [Hfp' Hfs'].
  exists k. eexists. split; [exact Hk|]. split; [exact Hnk|]. split.
  - unfold prepare_data, bind, deref, lift, assign, alloc. cbn [heap files stdout].
    rewrite Hfs, Hcol, Hparsed. cbn [heap files stdout].
    rewrite lookup_insert_eq, Hns. cbn [heap files stdout]. fold h1.
    rewrite lookup_insert_ne by exact Hfp'. unfold h1.
    rewrite lookup_insert_ne by exact Hsp. rewrite Hfp, Hsel. reflexivity.
  - cbn [heap files stdout]. fold h1. repeat split.
    + rewrite lookup_insert_ne by exact Hfs'. unfold h1. apply lookup_insert_eq.
    + rewrite lookup_insert_ne by exact Hfp'. unfold h1.
      rewrite lookup_insert_ne by exact Hsp. exact Hfp.
Qed.

Lemma prepare_data_missing_product_column_unlined :
  exists k w',
    In k product_columns /\ ~ In k (columns unlined_products)
    /\ prepare_data convert_iso 1%positive 2%positive (world_of raw_sales unlined_products)
       = (inl (KeyError k), w')
    /\ heap w' !! 1%positive
       = Some (setitem raw_sales "OrderDate" (Datetime64 [ymd 2023 1 15; ymd 2023 2 1]))
    /\ heap w' !! 2%positive = Some unlined_products
    /\ files w' = files (world_of raw_sales unlined_products)
    /\ stdout w' = stdout (world_of raw_sales unlined_products).
Proof.
  apply (prepare_data_missing_product_column convert_iso (world_of raw_sales unlined_products)
           1%positive 2%positive raw_sales unlined_products
           (Object ["2023-01-15"; "2023-02-01"]%string)
           (Datetime64 [ymd 2023 1 15; ymd 2023 2 1])); try reflexivity.
  - discriminate.
  - intros c Hc. cbn in Hc |- *. intuition.
  - intros Hincl. specialize (Hincl "ProductLine"%string). cbn in Hincl.
    intuition discriminate.
Defined.

(** The narrowed frames hold, cell for cell, what the raw frames held in
    the columns that are kept, the order dates converted; the other
    columns are gone. *)
Theorem prepare_data_keeps_columns :
  forall (convert : Series -> exn + list Timestamp) (w w' : World)
         (sales_data product_data sales_data' product_data' : loc),
    prepare_data convert sales_data product_data w
      = (inr (sales_data', product_data'), w') ->
    sales_data <> product_data ->
    exists sales products narrowed_sales narrowed_products col dates,
      heap w !! sales_data = Some sales
      /\ heap w !! product_data = Some products
      /\ heap w' !! sales_data' = Some narrowed_sales
      /\ heap w' !! product_data' = Some narrowed_products
      /\ getitem sales "OrderDate" = inr col
      /\ to_datetime convert col = inr (Datetime64 dates)
      /\ getitem narrowed_sales "OrderDate" = inr (Datetime64 dates)
      /\ (forall c, In c sales_columns -> c <> "OrderDate"%string ->
            getitem narrowed_sales c = getitem sales c)
      /\ (forall c, ~ In c sales_columns -> getitem narrowed_sales c = inl (KeyError c))
      /\ (forall c, In c product_columns ->
            getitem narrowed_products c = getitem products c)
      /\ (forall c, ~ In c product_columns ->
            getitem narrowed_products c = inl (KeyError c)).
Proof.
  intros convert w w' s p s' p' Hrun Hsp.
  destruct (prepare_data_run _ _ _ _ _ _ _ Hrun)
    as (fs & col & dates & ns & fp & np & Hfs & Hcol & Hparsed & Hns & Hnp
        & Hnew1 & Hnew2 & Hs's & Hp's & Hs'p & Hp'p & Hp's' & Hfp & ->).
  rewrite lookup_insert_ne in Hfp by exact Hsp.
  exists fs, fp, ns, np, col, dates. cbn [heap].
  split; [exact Hfs|]. split; [exact Hfp|].
  split; [rewrite lookup_insert_ne, lookup_insert_eq by congruence; reflexivity|].
  split; [rewrite lookup_insert_eq; reflexivity|].
  split; [exact Hcol|]. split; [exact Hparsed|].
  split; [|split; [|split; [|split]]].
  - rewrite (select_getitem _ _ _ "OrderDate"%string Hns) by (cbn; auto).
    rewrite getitem_setitem, String.eqb_refl. reflexivity.
  - intros c Hc Hne. rewrite (select_getitem _ _ _ c Hns Hc), getitem_setitem.
    destruct (String.eqb_spec c "OrderDate"); [contradiction|reflexivity].
  - intros c Hc. apply getitem_absent. rewrite (select_result _ _ _ Hns). exact Hc.
  - intros c Hc. apply (select_getitem _ _ _ c Hnp Hc).
  - intros c Hc. apply getitem_absent. rewrite (select_result _ _ _ Hnp). exact Hc.
Qed.

Lemma prepare_data_keeps_columns_raw :
  exists sales products narrowed_sales narrowed_products col dates,
    heap raw_world !! 1%positive = Some sales
    /\ heap raw_world !! 2%positive = Some products
    /\ heap world_after_raw !! 3%positive = Some narrowed_sales
    /\ heap world_after_raw !! 4%positive = Some narrowed_products
    /\ getitem sales "OrderDate" = inr col
    /\ to_datetime convert_iso col = inr (Datetime64 dates)
    /\ getitem narrowed_sales "OrderDate" = inr (Datetime64 dates)
    /\ (forall c, In c sales_columns -> c <> "OrderDate"%string ->
          getitem narrowed_sales c = getitem sales c)
    /\ (forall c, ~ In c sales_columns -> getitem narrowed_sales c = inl (KeyError c))
    /\ (forall c, In c product_columns ->
          getitem narrowed_products c = getitem products c)
    /\ (forall c, ~ In c product_columns ->
          getitem narrowed_products c = inl (KeyError c)).
Proof.
  apply (prepare_data_keeps_columns convert_iso raw_world world_after_raw
           1%positive 2%positive 3%positive 4%positive).
  - vm_compute. reflexivity.
  - discriminate.
Defined.

(** ** Insight extraction: what it writes and when it fails *)

(** Insight extraction replaces the insights file and touches nothing
    else: frames, console and the other files are as before, what the
    file held before is gone, and a second run leaves the world of the
    first. *)
Theorem generate_insights_overwrites :
  forall (s : list (SalesRow float)) (p : list ProductRow) (w : World),
    priced p = true ->
    exists text w',
      generate_insights s p w = (inr tt, w')
      /\ heap w' = heap w /\ stdout w' = stdout w
      /\ files w' !! "insights.txt"%string = Some text
      /\ (forall f, f <> "insights.txt"%string -> files w' !! f = files w !! f)
      /\ (forall w2, files (generate_insights s p w2).2 !! "insights.txt"%string = Some text)
      /\ generate_insights s p w' = (inr tt, w').
Proof.
  intros s p w Hp. destruct (insights_defined s p Hp) as (k & r & _ & _ & Hi).
  assert (Hrun : forall w0, generate_insights s p w0
            = (inr tt, {| heap := heap w0; stdout := stdout w0;
                          files := <["insights.txt"%string :=
                                      insights_text
                                        {| total_sales := series_sum (map TotalDue s);
                                           total_orders := length s;
                                           avg_order_value := series_mean (map TotalDue s);
                                           avg_product_price := series_mean (map ListPrice p);
                                           most_expensive_product := Name r |}]>
                                     (files w0) |})).
  { intros w0. unfold generate_insights, bind, lift. rewrite Hi. reflexivity. }
  eexists. eexists. split; [apply Hrun|]. cbn [heap files stdout].
  split; [reflexivity|]. split; [reflexivity|].
  split; [apply lookup_insert_eq|]. split; [|split].
  - intros f Hf. apply lookup_insert_ne. congruence.
  - intros w2. rewrite Hrun. cbn [snd files]. apply lookup_insert_eq.
  - rewrite Hrun. cbn [heap files stdout]. rewrite insert_insert_eq. reflexivity.
Qed.

Lemma generate_insights_overwrites_scenario :
  exists text w',
    generate_insights (scenario_orders 100 50 75)%float scenario_products empty_world
      = (inr tt, w')
    /\ heap w' = heap empty_world /\ stdout w' = stdout empty_world
    /\ files w' !! "insights.txt"%string = Some text
    /\ (forall f, f <> "insights.txt"%string -> files w' !! f = files empty_world !! f)
    /\ (forall w2, files (generate_insights (scenario_orders 100 50 75)%float
                            scenario_products w2).2 !! "insights.txt"%string = Some text)
    /\ generate_insights (scenario_orders 100 50 75)%float scenario_products w' = (inr tt, w').
Proof.
  exact (generate_insights_overwrites (scenario_orders 100 50 75)%float scenario_products
           empty_world eq_refl).
Defined.

(** Insight extraction succeeds exactly when some product has a price;
    when none has, it raises and leaves the world as it was, files
    included. *)
Theorem generate_insights_succeeds_iff_priced :
  forall (s : list (SalesRow float)) (p : list ProductRow) (w : World),
    ((generate_insights s p w).1 = inr tt <-> priced p = true)
    /\ (priced p = false -> exists e, generate_insights s p w = (inl e, w)).
Proof.
  intros s p w.
  assert (Hfail : priced p = false -> exists e, generate_insights s p w = (inl e, w)).
  { intros Hp. destruct (insights_undefined s p Hp) as [e He].
    exists e. unfold generate_insights, bind, lift. rewrite He. reflexivity. }
  split; [|exact Hfail]. split.
  - intros Hok. destruct (priced p) eqn:Hp; [reflexivity|].
    destruct (Hfail eq_refl) as [e He]. rewrite He in Hok. discriminate.
  - intros Hp. destruct (insights_defined s p Hp) as (k & r & _ & _ & Hi).
    unfold generate_insights, bind, lift. rewrite Hi. reflexivity.
Qed.



(** ** The written numbers, read back *)

Lemma read_digits_acc (l : list ascii) (acc : N) :
  read_digits acc l
  = option_map (fun v => (acc * 10 ^ N.of_nat (length l) + v)%N) (read_digits 0 l).
Proof.
  revert acc. induction l as [|c l IH]; intros acc.
  - cbn. f_equal. lia.
  - cbn [read_digits]. destruct (digit_of c) as [d|]; [|reflexivity].
    rewrite (IH (10 * acc + d)%N), (IH (10 * 0 + d)%N).
    destruct (read_digits 0 l) as [v|]; [|reflexivity].
    cbn [option_map length]. f_equal. rewrite Nat2N.inj_succ, N.pow_succ_r'. ring.
Qed.

Lemma read_digits_app (l1 l2 : list ascii) (acc : N) :
  read_digits acc (l1 ++ l2)
  = match read_digits acc l1 with
    | Some a => read_digits a l2
    | None => None
    end.
Proof.
  revert acc. induction l1 as [|c l1 IH]; intros acc; [reflexivity|].
  cbn [app read_digits]. destruct (digit_of c); [apply IH|reflexivity].
Qed.

Lemma read_uint (d : Decimal.uint) (acc : N) :
  read_digits acc (chars (NilEmpty.string_of_uint d))
  = Some (acc * 10 ^ DecimalPos.Unsigned.usize d
          + DecimalPos.Unsigned.of_lu (Decimal.rev d))%N.
Proof.
  revert acc.
  induction d as [|d IH|d IH|d IH|d IH|d IH|d IH|d IH|d IH|d IH|d IH]; intros acc;
    [cbn; f_equal; lia|..];
    cbn [NilEmpty.string_of_uint]; unfold chars in *;
    cbn [list_ascii_of_string read_digits];
    match goal with
    | |- context [digit_of ?c] =>
        let v := eval vm_compute in (digit_of c) in change (digit_of c) with v
    end;
    cbv iota;
    unfold Decimal.rev; cbn [Decimal.revapp];
    rewrite DecimalPos.Unsigned.of_lu_revapp;
    cbn [DecimalPos.Unsigned.of_lu DecimalPos.Unsigned.usize];
    rewrite IH, N.pow_succ_r'; f_equal; ring.
Qed.

Lemma digits_read (n : N) : read_digits 0 (chars (digits n)) = Some n.
Proof.
  unfold digits, NilZero.string_of_uint.
  assert (Hval : DecimalPos.Unsigned.of_lu (Decimal.rev (N.to_uint n)) = n).
  { rewrite <- DecimalPos.Unsigned.of_uint_alt. apply DecimalN.Unsigned.of_to. }
  destruct (N.to_uint n) as [|d|d|d|d|d|d|d|d|d|d] eqn:E;
    [destruct n as [|q]; [discriminate|];
     exfalso; exact (DecimalPos.Unsigned.to_uint_nonnil q E)|..];
    rewrite read_uint, Hval; f_equal; lia.
Qed.

Lemma digit_not_separator (c : ascii) : is_digit c = true -> is_separator c = false.
Proof.
  intros Hc. unfold is_separator, is_comma.
  destruct (Ascii.eqb_spec c ","%char) as [->|_]; [discriminate|].
  destruct (Ascii.eqb_spec c "."%char) as [->|_]; [discriminate|reflexivity].
Qed.

Lemma digit_not_comma (c : ascii) : is_digit c = true -> is_comma c = false.
Proof.
  intros Hc. apply digit_not_separator in Hc. unfold is_separator in Hc.
  apply orb_false_elim in Hc as [Hc _]. exact Hc.
Qed.

Lemma forallb_impl {X} (f g : X -> bool) (l : list X) :
  (forall x, f x = true -> g x = true) -> forallb f l = true -> forallb g l = true.
Proof.
  intros Hfg. rewrite !forallb_forall. auto.
Qed.

Lemma group3_filter (f : ascii -> bool) (n : nat) (l : list ascii) :
  f ","%char = false -> (length l <= n)%nat ->
  List.filter f (group3 l) = List.filter f l.
Proof.
  intros Hf. revert l. induction n as [|n IH]; intros l Hlen.
  - destruct l; [reflexivity|cbn in Hlen; lia].
  - destruct l as [|a [|b [|c [|d rest]]]]; try reflexivity.
    change (group3 (a :: b :: c :: d :: rest))
      with (a :: b :: c :: ","%char :: group3 (d :: rest)).
    cbn [List.filter]. rewrite Hf.
    change (if f d then d :: List.filter f rest else List.filter f rest)
      with (List.filter f (d :: rest)).
    rewrite (IH (d :: rest)) by (cbn in *; lia). reflexivity.
Qed.

(** Dropping the separators of a grouped number gives its digits. *)
Lemma commas_filter (f : ascii -> bool) (s : string) :
  f ","%char = false -> (forall c, is_digit c = true -> f c = true) ->
  all_digits (chars s) = true ->
  List.filter f (chars (commas s)) = chars s.
Proof.
  intros Hf Hd Hs. unfold commas, chars in *.
  rewrite list_ascii_of_string_of_list_ascii, filter_rev.
  rewrite (group3_filter f _ _ Hf (le_n _)), <- filter_rev, rev_involutive.
  apply filter_kept. eapply forallb_impl; [exact Hd|exact Hs].
Qed.

Lemma Grouped_first (g : list ascii) :
  Grouped g -> exists c g', g = c :: g' /\ is_digit c = true.
Proof.
  induction 1 as [d Hd Hlen|g d Hg IH Hd Hlen].
  - destruct d as [|c d]; [cbn in Hlen; lia|].
    cbn in Hd. apply andb_prop in Hd as [Hc _]. eauto.
  - destruct IH as (c & g' & -> & Hc). exists c, (g' ++ ","%char :: d). auto.
Qed.

Lemma two_decimals_read (k : N) :
  (k < 100)%N -> read_digits 0 (chars (zfill 2 (digits k))) = Some k.
Proof.
  intros Hk.
  assert (Hall : forallb (fun i =>
                   match read_digits 0 (chars (zfill 2 (digits (N.of_nat i)))) with
                   | Some v => N.eqb v (N.of_nat i)
                   | None => false
                   end) (seq 0 100) = true) by (vm_compute; reflexivity).
  rewrite forallb_forall in Hall.
  assert (Hin : In (N.to_nat k) (seq 0 100)) by (apply in_seq; lia).
  apply Hall in Hin. rewrite N2Nat.id in Hin.
  destruct (read_digits 0 (chars (zfill 2 (digits k)))) as [v|]; [|discriminate].
  apply N.eqb_eq in Hin. congruence.
Qed.

Lemma fixed2_read (sg : bool) (h : N) :
  read_amount (sign_str sg +:+ fixed2 h) = Some (sg, h).
Proof.
  assert (Hg : Grouped (chars (commas (digits (h / 100)))))
    by (apply commas_grouped; [apply digits_nonempty|apply digits_all_digits]).
  destruct (Grouped_first _ Hg) as (c & g' & Hcg & Hc).
  assert (Hmod : (h mod 100 < 100)%N) by (apply N.mod_lt; discriminate).
  destruct (two_decimals (h mod 100) Hmod) as [Hd2 Hl2].
  assert (Hbody : List.filter (fun c => negb (is_separator c)) (chars (fixed2 h))
                  = chars (digits (h / 100)) ++ chars (zfill 2 (digits (h mod 100)))).
  { unfold fixed2. rewrite !chars_append, !List.filter_app.
    rewrite commas_filter; [|reflexivity| |apply digits_all_digits].
    - change (chars ".") with ["."%char]. cbn [List.filter is_separator]. f_equal.
      change (negb (is_separator ".")) with false. cbv iota. cbn [app].
      apply filter_kept. eapply forallb_impl; [|exact Hd2].
      intros x Hx. rewrite (digit_not_separator x Hx). reflexivity.
    - intros x Hx. rewrite (digit_not_separator x Hx). reflexivity. }
  assert (Hread : read_digits 0 (chars (digits (h / 100))
                                   ++ chars (zfill 2 (digits (h mod 100)))) = Some h).
  { rewrite read_digits_app, digits_read, read_digits_acc, (two_decimals_read _ Hmod), Hl2.
    cbn [option_map]. f_equal. change (10 ^ N.of_nat 2)%N with 100%N.
    rewrite (N.div_mod h 100) at 3 by discriminate. lia. }
  assert (Hne : chars (digits (h / 100)) ++ chars (zfill 2 (digits (h mod 100))) <> []).
  { intros Happ. apply app_eq_nil in Happ as [Hnil _].
    exact (digits_nonempty _ Hnil). }
  unfold read_amount. rewrite chars_append.
  destruct sg; cbn [sign_str].
  - change (chars "-") with ["-"%char]. cbn [app]. rewrite Ascii.eqb_refl. cbn [fst snd].
    rewrite Hbody.
    destruct (chars (digits (h / 100)) ++ chars (zfill 2 (digits (h mod 100))))
      as [|a l] eqn:E; [contradiction|].
    rewrite Hread. reflexivity.
  - change (chars "") with (@nil ascii). cbn [app].
    assert (Hfirst : exists c0 l0, chars (fixed2 h) = c0 :: l0 /\ is_digit c0 = true).
    { unfold fixed2. rewrite chars_append, Hcg. cbn [app]. eauto. }
    destruct Hfirst as (c0 & l0 & Hc0 & Hdig).
    assert (Hminus : Ascii.eqb c0 "-"%char = false).
    { destruct (Ascii.eqb_spec c0 "-"%char) as [->|_]; [discriminate|reflexivity]. }
    rewrite Hc0, Hminus. cbn [fst snd]. rewrite <- Hc0, Hbody.
    destruct (chars (digits (h / 100)) ++ chars (zfill 2 (digits (h mod 100))))
      as [|a l] eqn:E; [contradiction|].
    rewrite Hread. reflexivity.
Qed.

Lemma round_half_even_nearest (num den : N) :
  (den <> 0)%N ->
  2 * Z.abs (Z.of_N (round_half_even num den) * Z.of_N den - Z.of_N num) <= Z.of_N den
  /\ (2 * Z.abs (Z.of_N (round_half_even num den) * Z.of_N den - Z.of_N num) = Z.of_N den ->
      N.even (round_half_even num den) = true).
Proof.
  intros Hden. unfold round_half_even.
  pose proof (N.div_mod num den Hden) as Hdm.
  pose proof (N.mod_lt num den Hden) as Hlt.
  set (q := (num / den)%N) in *. set (r := (num mod den)%N) in *.
  assert (Hz : Z.of_N num = Z.of_N den * Z.of_N q + Z.of_N r) by lia.
  destruct (N.compare_spec (2 * r) den) as [Heq|Hlt2|Hgt2].
  - destruct (N.even q) eqn:Hev.
    + split; [nia|]. intros _. exact Hev.
    + split; [nia|]. intros _.
      rewrite N.add_1_r, N.even_succ, <- N.negb_even, Hev. reflexivity.
  - split; [nia|]. intros Htie. exfalso. nia.
  - split; [nia|]. intros Htie. exfalso. nia.
Qed.

(** The order count is written so that it reads back as itself: with
    the separators dropped, the digits of the line spell the number. *)
Theorem format_count_reads_back :
  forall n : nat, read_count (format_count n) = Some (N.of_nat n).
Proof.
  intros n. unfold read_count, format_count.
  rewrite commas_filter; [|reflexivity| |apply digits_all_digits].
  - pose proof (digits_nonempty (N.of_nat n)) as Hne.
    destruct (chars (digits (N.of_nat n))) as [|c l] eqn:E; [contradiction|].
    rewrite <- E. apply digits_read.
  - intros c Hc. rewrite (digit_not_comma c Hc). reflexivity.
Qed.

(** An amount is written to the nearest cent: read back in hundredths,
    the text of a finite non-zero value [m * 2^e] has the sign of the
    value and the number of cents nearest to its magnitude, a value
    halfway between two cents going to the even one; a value that is a
    whole number of cents is written exactly. *)
Theorem format_2f_nearest_cent :
  forall (x : float) (sg : bool) (m : positive) (e : Z),
    Prim2SF x = S754_finite sg m e ->
    exists h : N,
      read_amount (format_2f x) = Some (sg, h)
      /\ (0 <= e -> Z.of_N h = 100 * Z.pos m * 2 ^ e)
      /\ (e < 0 ->
          2 * Z.abs (Z.of_N h * 2 ^ (- e) - 100 * Z.pos m) <= 2 ^ (- e)
          /\ (2 * Z.abs (Z.of_N h * 2 ^ (- e) - 100 * Z.pos m) = 2 ^ (- e) ->
              N.even h = true)).
Proof.
  intros x sg m e Hx. exists (hundredths m e).
  split; [unfold format_2f; rewrite Hx; apply fixed2_read|].
  unfold hundredths. destruct e as [|k|k].
  - split; [intros _; cbn; lia|lia].
  - split; [|lia]. intros _.
    rewrite !N2Z.inj_mul, N2Z.inj_pow. cbn [Z.to_N]. reflexivity.
  - split; [lia|]. intros _.
    assert (Hden : (2 ^ N.pos k <> 0)%N) by (apply N.pow_nonzero; discriminate).
    pose proof (round_half_even_nearest (100 * N.pos m) (2 ^ N.pos k) Hden) as Hr.
    rewrite N2Z.inj_pow, N2Z.inj_mul in Hr.
    change (- Z.neg k) with (Z.pos k). exact Hr.
Qed.

Lemma format_2f_nearest_cent_eighth :
  exists h : N,
    read_amount (format_2f 0.125) = Some (false, h)
    /\ (0 <= -55 -> Z.of_N h = 100 * 4503599627370496 * 2 ^ (-55))
    /\ (-55 < 0 ->
        2 * Z.abs (Z.of_N h * 2 ^ (- -55) - 100 * 4503599627370496) <= 2 ^ (- -55)
        /\ (2 * Z.abs (Z.of_N h * 2 ^ (- -55) - 100 * 4503599627370496) = 2 ^ (- -55) ->
            N.even h = true)).
Proof.
  exact (format_2f_nearest_cent 0.125%float false 4503599627370496%positive (-55) eq_refl).
Defined.

(** ** The dashboard's views *)

Lemma insert_count_desc (x : string * nat) (l : list (string * nat)) :
  StronglySorted (fun a b => (b.2 <= a.2)%nat) l ->
  StronglySorted (fun a b => (b.2 <= a.2)%nat)
    (insert_desc (fun a b => (a.2 <? b.2)%nat) x l).
Proof.
  induction 1 as [|y l Hs IH Hall]; cbn [insert_desc]; [repeat constructor|].
  destruct (Nat.ltb_spec x.2 y.2) as [Hlt|Hge].
  - constructor; [exact IH|].
    eapply Permutation_Forall; [apply Permutation_sym, insert_desc_perm|].
    constructor; [lia|exact Hall].
  - constructor; [constructor; assumption|].
    constructor; [exact Hge|].
    eapply List.Forall_impl; [|exact Hall]. cbn. intros z Hz. lia.
Qed.

(** The slices of the status panel come in descending order of their
    counts: no status is listed before a more frequent one. *)
Theorem status_dist_descending :
  forall (A : Type) (t : list (SalesRow A)),
    StronglySorted (fun a b => (b.2 <= a.2)%nat) (status_dist t).
Proof.
  intros A t. unfold status_dist, value_counts, sort_desc.
  induction (tallies (dropna (map Status t))) as [|x l IH]; cbn [fold_right]; [constructor|].
  apply insert_count_desc, IH.
Qed.

Lemma leb_antisym (x y : float) :
  (x <=? y)%float = true -> (y <=? x)%float = true -> (x =? y)%float = true.
Proof.
  intros H1 H2. apply F64_order.leb_key in H1 as (a & b & Ha & Hb & Hab).
  apply F64_order.leb_key in H2 as (b' & a' & Hb' & Ha' & Hba).
  rewrite Ha in Ha'. injection Ha' as <-. rewrite Hb in Hb'. injection Hb' as <-.
  apply F64_order.eqb_key. exists a. split; [exact Ha|]. rewrite Hb. f_equal.
  destruct (F64.lex3 a b) eqn:E.
  - symmetry. apply F64_order.lex3_Eq, E.
  - contradiction.
  - apply F64_order.lex3_Gt in E. contradiction.
Qed.

(** The two outputs agree on the dearest product: with a priced row in
    the product table, the first bar of the top-products panel is the
    row whose name the insights report as the most expensive product. *)
Theorem top_product_is_most_expensive :
  forall (s : list (SalesRow float)) (p : list ProductRow),
    priced p = true ->
    exists i k r rest,
      insights s p = inr i
      /\ top_products p = (k, r) :: rest
      /\ nth_error p k = Some r
      /\ most_expensive_product i = Name r.
Proof.
  intros s p Hp. destruct (insights_defined s p Hp) as (k & r & Hk & Hr & Hi).
  destruct (idxmax_spec _ _ Hk) as (v & Hv & Hnv & Hmax & Hfirst).
  rewrite nth_error_map, Hr in Hv. injection Hv as <-.
  pose proof (ranked_perm p) as Hperm.
  assert (Hin : In (k, r) (ranked p)).
  { apply (Permutation_in _ (Permutation_sym Hperm)), indexed_In, Hr. }
  pose proof (ranked_price_desc p) as Hdesc.
  pose proof (ranked_ties p) as Hties.
  unfold top_products. rewrite nlargest_ranked.
  destruct (ranked p) as [|[k' r'] rest] eqn:E; [destruct Hin|].
  assert (Hr' : nth_error p k' = Some r').
  { apply indexed_In, (Permutation_in _ Hperm). left. reflexivity. }
  assert (Hsame : (k', r') = (k, r)).
  { destruct Hin as [Heq|Hin]; [exact Heq|exfalso].
    inversion Hdesc as [|? ? _ Hall]; subst.
    inversion Hties as [|? ? _ Hall']; subst.
    rewrite List.Forall_forall in Hall, Hall'.
    specialize (Hall _ Hin). specialize (Hall' _ Hin).
    unfold price_desc in Hall. unfold ties_in_table_order in Hall'. cbn [fst snd] in *.
    destruct Hall as [Hle|Hnan];
      [|apply F64_order.notna_is_nan in Hnv; congruence].
    assert (Hn' : F64.notna (ListPrice r') = true).
    { apply F64_order.leb_key in Hle as (a & b & _ & Hb & _).
      apply F64_order.notna_key. eauto. }
    assert (Hge : (ListPrice r' <=? ListPrice r)%float = true).
    { apply (Hmax k'); [|exact Hn']. rewrite nth_error_map, Hr'. reflexivity. }
    pose proof (leb_antisym _ _ Hge Hle) as Heq.
    specialize (Hall' Heq).
    assert (Hlt : (ListPrice r' <? ListPrice r)%float = true).
    { apply (Hfirst k'); [exact Hall'| |exact Hn']. rewrite nth_error_map, Hr'. reflexivity. }
    pose proof (leb_antisym _ _ Hle Hge) as Heq'.
    rewrite (F64_order.ltb_eqb_false _ _ Hlt) in Heq'. discriminate. }
  injection Hsame as -> ->.
  eexists. exists k, r, (firstn 9 rest).
  split; [exact Hi|]. split; [reflexivity|]. split; [exact Hr|reflexivity].
Qed.

Lemma top_product_is_most_expensive_scenario :
  exists i k r rest,
    insights (scenario_orders 100 50 75)%float scenario_products = inr i
    /\ top_products scenario_products = (k, r) :: rest
    /\ nth_error scenario_products k = Some r
    /\ most_expensive_product i = Name r.
Proof.
  exact (top_product_is_most_expensive (scenario_orders 100 50 75)%float scenario_products
           eq_refl).
Defined.

(** ** Effects confined to the object store *)

Lemma store_only_lift {A} (r : exn + A) : store_only (lift r).
Proof. intros w f o. reflexivity. Qed.

Lemma store_only_ret {A} (a : A) : store_only (ret a).
Proof. intros w f o. reflexivity. Qed.

Lemma store_only_deref (l : loc) : store_only (deref l).
Proof. intros w f o. unfold deref. cbn [heap]. destruct (heap w !! l); reflexivity. Qed.

Lemma store_only_assign (l : loc) (d : DataFrame) : store_only (assign l d).
Proof. intros w f o. reflexivity. Qed.

Lemma store_only_alloc (d : DataFrame) : store_only (alloc d).
Proof. intros w f o. reflexivity. Qed.

Lemma store_only_bind {A B} (m : M A) (k : A -> M B) :
  store_only m -> (forall a, store_only (k a)) -> store_only (bind m k).
Proof.
  intros Hm Hk w f o. unfold bind. rewrite Hm.
  destruct (m w) as [[e|a] w1]; cbn [fst snd]; [reflexivity|].
  rewrite Hk. reflexivity.
Qed.

Create HintDb store.

#[local] Hint Resolve store_only_lift store_only_ret store_only_deref store_only_assign
  store_only_alloc : store.

Ltac store_only_steps :=
  repeat first [ apply store_only_bind; [|intros ?] | solve [auto with store] ].

Lemma store_only_prepare_data convert (s p : loc) : store_only (prepare_data convert s p).
Proof. unfold prepare_data. store_only_steps. Qed.

Lemma store_only_fetch_retail_data requests_get read_csv :
  store_only (fetch_retail_data requests_get read_csv).
Proof. unfold fetch_retail_data. store_only_steps. Qed.

Lemma store_only_tables sales_table product_table (s p : loc) :
  store_only (tables sales_table product_table s p).
Proof. unfold tables. store_only_steps. Qed.

(** A run in one world is a run in every world with the same store. *)
Lemma store_only_run {A} (m : M A) (w w1 : World) (r : exn + A) :
  store_only m -> m w = (r, w1) ->
  files w1 = files w /\ stdout w1 = stdout w
  /\ forall f o, m {| heap := heap w; files := f; stdout := o |}
                 = (r, {| heap := heap w1; files := f; stdout := o |}).
Proof.
  intros Hm Hrun. pose proof (Hm w (files w) (stdout w)) as Hw.
  assert (Hsame : {| heap := heap w; files := files w; stdout := stdout w |} = w)
    by (destruct w; reflexivity).
  rewrite Hsame, Hrun in Hw. cbn [fst snd] in Hw. injection Hw as ->.
  cbn [files stdout]. split; [reflexivity|]. split; [reflexivity|].
  intros f o. rewrite Hm, Hrun. reflexivity.
Qed.

Lemma tables_run sales_table product_table (s p : loc) (w : World)
    (fs fp : DataFrame) (st : list (SalesRow float)) (pt : list ProductRow) :
  heap w !! s = Some fs -> heap w !! p = Some fp ->
  sales_table fs = inr st -> product_table fp = inr pt ->
  tables sales_table product_table s p w = (inr (st, pt), w).
Proof.
  intros Hs Hp Hst Hpt. unfold tables, bind, deref, lift, ret.
  rewrite Hs, Hp, Hst, Hpt. reflexivity.
Qed.

(** ** Fetching *)

(** Fetching returns whatever the two bodies parse to, and looks at no
    status code: when both requests are answered and both bodies parse,
    the two frames are stored under two new, distinct references, and
    files, console and the frames already there are left alone. *)
Theorem fetch_retail_data_returns :
  forall (requests_get : string -> exn + Response) (read_csv : string -> exn + DataFrame)
         (w : World) (response product_response : Response) (sales products : DataFrame),
    requests_get url = inr response ->
    read_csv (text response) = inr sales ->
    requests_get product_url = inr product_response ->
    read_csv (text product_response) = inr products ->
    exists sales_data product_data w',
      fetch_retail_data requests_get read_csv w = (inr (sales_data, product_data), w')
      /\ heap w !! sales_data = None /\ heap w !! product_data = None
      /\ sales_data <> product_data
      /\ heap w' = <[product_data := products]> (<[sales_data := sales]> (heap w))
      /\ files w' = files w /\ stdout w' = stdout w.
Proof.
  intros get read w r1 r2 sales products Hr1 Hsales Hr2 Hproducts.
  unfold fetch_retail_data, bind, lift, alloc, ret.
  rewrite Hr1, Hsales, Hr2, Hproducts. cbn [heap files stdout].
  do 3 eexists. split; [reflexivity|]. cbn [heap files stdout].
  split; [apply fresh_loc_None|].
  assert (Hnew : <[fresh (dom (heap w)) := sales]> (heap w)
                   !! fresh (dom (<[fresh (dom (heap w)) := sales]> (heap w))) = None)
    by apply fresh_loc_None.
  split; [|split; [|auto]].
  - destruct (decide (fresh (dom (<[fresh (dom (heap w)) := sales]> (heap w)))
                      = fresh (dom (heap w)))) as [Heq|Hne].
    + rewrite Heq, lookup_insert_eq in Hnew. discriminate.
    + rewrite lookup_insert_ne in Hnew by congruence. exact Hnew.
  - intros Heq. rewrite <- Heq, lookup_insert_eq in Hnew. discriminate.
Qed.

Lemma fetch_retail_data_returns_not_found :
  exists sales_data product_data w',
    fetch_retail_data serve_not_found read_pages empty_world
      = (inr (sales_data, product_data), w')
    /\ heap empty_world !! sales_data = None /\ heap empty_world !! product_data = None
    /\ sales_data <> product_data
    /\ heap w' = <[product_data := header_only "404: Not Found"]>
                   (<[sales_data := header_only "404: Not Found"]> (heap empty_world))
    /\ files w' = files empty_world /\ stdout w' = stdout empty_world.
Proof.
  exact (fetch_retail_data_returns serve_not_found read_pages empty_world
           {| status_code := 404; text := "404: Not Found" |}
           {| status_code := 404; text := "404: Not Found" |}
           (header_only "404: Not Found") (header_only "404: Not Found")
           eq_refl eq_refl eq_refl eq_refl).
Defined.

(** ** The dashboard stage *)

Lemma create_dashboard_run (to_html : Figure -> string) (sales_data : list (SalesRow float))
    (product_data : list ProductRow) (w : World) :
  create_dashboard to_html sales_data product_data w
  = (inl (incompatible "pie" "xy" 1 2), w).
Proof. reflexivity. Qed.

(** The dashboard is never written: on every pair of tables
    [create_dashboard] raises when it adds the pie trace, which the cell
    (1, 2) of the grid, laid out with the default subplot type, does not
    take.  By then it has computed the monthly aggregate and the status
    distribution and placed the two line traces; it changes nothing in
    the world, and the price histogram, the top products, the layout
    and the file are never reached. *)
Theorem create_dashboard_raises :
  forall (to_html : Figure -> string) (sales_data : list (SalesRow float))
         (product_data : list ProductRow) (w : World),
    exists fig0 fig1 fig2 : Figure,
      make_subplots 2 2
        ["Monthly Sales Trend"; "Sales Status Distribution";
         "Price Distribution"; "Top Products by Price"]%string
        [[{| spec_type := xy; secondary_y := true |}; default_spec];
         [default_spec; default_spec]] = inr fig0
      /\ add_trace fig0
           (Scatter (map (fun m => m.1.1) (monthly_sales sales_data))
                    (Floats (map (fun m => m.1.2) (monthly_sales sales_data)))
                    "Total Sales" "blue") 1 1 false = inr fig1
      /\ add_trace fig1
           (Scatter (map (fun m => m.1.1) (monthly_sales sales_data))
                    (Counts (map (fun m => m.2) (monthly_sales sales_data)))
                    "Order Count" "red") 1 1 true = inr fig2
      /\ add_trace fig2
           (Pie (map fst (status_dist sales_data)) (map snd (status_dist sales_data))
                "Status Distribution") 1 2 false
         = inl (incompatible "pie" "xy" 1 2)
      /\ create_dashboard to_html sales_data product_data w
         = (inl (incompatible "pie" "xy" 1 2), w).
Proof.
  intros to_html s p w. do 3 eexists.
  split; [reflexivity|]. split; [reflexivity|]. split; [reflexivity|].
  split; [reflexivity|apply create_dashboard_run].
Qed.

(** ** The whole run *)

Section MainRuns.
Variable requests_get : string -> exn + Response.
Variable read_csv : string -> exn + DataFrame.
Variable convert : Series -> exn + list Timestamp.
Variable to_html : Figure -> string.
Variable sales_table : DataFrame -> exn + list (SalesRow float).
Variable product_table : DataFrame -> exn + list ProductRow.

(** The run up to the end of preparation. *)
Lemma main_prepared (w w1 w2 : World) (s p s' p' : loc) (k : loc * loc -> M unit) :
  fetch_retail_data requests_get read_csv w = (inr (s, p), w1) ->
  prepare_data convert s p w1 = (inr (s', p'), w2) ->
  (do _ <- print "Fetching data...";
   do fetched <- fetch_retail_data requests_get read_csv;
   do _ <- print "Preparing data...";
   do prepared <- prepare_data convert fetched.1 fetched.2;
   do _ <- print "Creating dashboard...";
   k prepared) w
  = k (s', p') {| heap := heap w2; files := files w;
                  stdout := stdout w ++ ["Fetching data..."; "Preparing data...";
                                         "Creating dashboard..."]%string |}.
Proof.
  intros Hfetch Hprep.
  destruct (store_only_run _ _ _ _ (store_only_fetch_retail_data requests_get read_csv) Hfetch)
    as (_ & _ & Hf).
  destruct (store_only_run _ _ _ _ (store_only_prepare_data convert s p) Hprep)
    as (_ & _ & Hp).
  unfold bind at 1. unfold print at 1. cbn iota.
  unfold bind at 1. rewrite Hf. cbn iota.
  unfold bind at 1. unfold print at 1. cbn [heap files stdout fst snd]. cbn iota.
  unfold bind at 1. rewrite Hp. cbn iota.
  unfold bind at 1. unfold print at 1. cbn [heap files stdout]. cbn iota.
  rewrite <- !app_assoc. reflexivity.
Qed.

(** A run in which fetching and preparation succeed and the prepared
    frames read as tables: it raises in the dashboard stage, at the pie
    trace, after three progress lines; no file is written, and insight
    extraction is never reached. *)
Theorem main_raises_in_dashboard :
  forall (w w1 w2 : World) (s p s' p' : loc) (ns np : DataFrame)
         (st : list (SalesRow float)) (pt : list ProductRow),
    fetch_retail_data requests_get read_csv w = (inr (s, p), w1) ->
    prepare_data convert s p w1 = (inr (s', p'), w2) ->
    heap w2 !! s' = Some ns -> heap w2 !! p' = Some np ->
    sales_table ns = inr st -> product_table np = inr pt ->
    main requests_get read_csv convert to_html sales_table product_table w
    = (inl (incompatible "pie" "xy" 1 2),
       {| heap := heap w2; files := files w;
          stdout := stdout w ++ ["Fetching data..."; "Preparing data...";
                                 "Creating dashboard..."]%string |}).
Proof.
  intros w w1 w2 s p s' p' ns np st pt Hfetch Hprep Hs Hp Hst Hpt.
  unfold main.
  rewrite (main_prepared w w1 w2 s p s' p' _ Hfetch Hprep). cbn [fst snd].
  assert (Ht : forall f' o',
             tables sales_table product_table s' p'
               {| heap := heap w2; files := f'; stdout := o' |}
             = (inr (st, pt), {| heap := heap w2; files := f'; stdout := o' |})).
  { intros f' o'. apply tables_run with (fs := ns) (fp := np); assumption. }
  unfold bind at 1. rewrite Ht. cbn [fst snd]. unfold bind at 1.
  rewrite create_dashboard_run. reflexivity.
Qed.

(** When fetching raises, the run raises the same error after the first
    progress line, and no file is written. *)
Theorem main_fetch_fails :
  forall (w : World) (e : exn),
    (fetch_retail_data requests_get read_csv w).1 = inl e ->
    (main requests_get read_csv convert to_html sales_table product_table w).1 = inl e
    /\ files (main requests_get read_csv convert to_html sales_table product_table w).2
       = files w
    /\ stdout (main requests_get read_csv convert to_html sales_table product_table w).2
       = stdout w ++ ["Fetching data..."]%string.
Proof.
  intros w e Hfetch.
  destruct (fetch_retail_data requests_get read_csv w) as [r w1] eqn:E.
  cbn [fst] in Hfetch. subst r.
  destruct (store_only_run _ _ _ _ (store_only_fetch_retail_data requests_get read_csv) E)
    as (_ & _ & Hf).
  assert (Hrun : main requests_get read_csv convert to_html sales_table product_table w
                 = (inl e, {| heap := heap w1; files := files w;
                              stdout := stdout w ++ ["Fetching data..."]%string |})).
  { unfold main. unfold bind at 1. unfold print at 1. cbn iota.
    unfold bind at 1. rewrite Hf. reflexivity. }
  rewrite Hrun. cbn [fst snd files stdout]. auto.
Qed.

(** When fetching succeeds and preparation raises, the run raises the
    same error after the second progress line, and no file is written. *)
Theorem main_prepare_fails :
  forall (w w1 : World) (s p : loc) (e : exn),
    fetch_retail_data requests_get read_csv w = (inr (s, p), w1) ->
    (prepare_data convert s p w1).1 = inl e ->
    (main requests_get read_csv convert to_html sales_table product_table w).1 = inl e
    /\ files (main requests_get read_csv convert to_html sales_table product_table w).2
       = files w
    /\ stdout (main requests_get read_csv convert to_html sales_table product_table w).2
       = stdout w ++ ["Fetching data..."; "Preparing data..."]%string.
Proof.
  intros w w1 s p e Hfetch Hprep.
  destruct (prepare_data convert s p w1) as [r w2] eqn:E. cbn [fst] in Hprep. subst r.
  destruct (store_only_run _ _ _ _ (store_only_fetch_retail_data requests_get read_csv) Hfetch)
    as (_ & _ & Hf).
  destruct (store_only_run _ _ _ _ (store_only_prepare_data convert s p) E)
    as (_ & _ & Hp).
  assert (Hrun : main requests_get read_csv convert to_html sales_table product_table w
                 = (inl e, {| heap := heap w2; files := files w;
                              stdout := stdout w ++ ["Fetching data...";
                                                     "Preparing data..."]%string |})).
  { unfold main. unfold bind at 1. unfold print at 1. cbn iota.
    unfold bind at 1. rewrite Hf. cbn iota.
    unfold bind at 1. unfold print at 1. cbn [heap files stdout fst snd]. cbn iota.
    unfold bind at 1. rewrite Hp. cbn iota. rewrite <- !app_assoc. reflexivity. }
  rewrite Hrun. cbn [fst snd files stdout]. auto.
Qed.

(** No run returns, and no run writes a file: whatever the network
    answers, [main] raises; by then it has printed the progress lines of
    the stages it entered, one to three of them, and none of the lines
    after them; the files are as they were. *)
Theorem main_console :
  forall w : World,
    exists (e : exn) (k : nat),
      (main requests_get read_csv convert to_html sales_table product_table w).1 = inl e
      /\ (1 <= k <= 3)%nat
      /\ stdout (main requests_get read_csv convert to_html sales_table product_table w).2
         = stdout w
           ++ firstn k ["Fetching data..."; "Preparing data...";
                        "Creating dashboard..."]%string
      /\ files (main requests_get read_csv convert to_html sales_table product_table w).2
         = files w.
Proof.
  intros w.
  destruct (main requests_get read_csv convert to_html sales_table product_table w)
    as [r wf] eqn:Hmain.
  cbn [fst snd]. revert Hmain. unfold main.
  unfold bind at 1. unfold print at 1. cbn iota.
  unfold bind at 1.
  destruct (fetch_retail_data requests_get read_csv _) as [[e|[s p]] w1] eqn:E1;
    destruct (store_only_run _ _ _ _ (store_only_fetch_retail_data requests_get read_csv) E1)
      as (Hf1 & Ho1 & _); clear E1; cbn [files stdout] in Hf1, Ho1; cbn iota.
  { intros [= <- <-]. rewrite Hf1, Ho1.
    exists e, 1%nat. split; [reflexivity|]. split; [lia|]. split; reflexivity. }
  unfold bind at 1. unfold print at 1. cbn iota.
  unfold bind at 1. cbn [fst snd].
  destruct (prepare_data convert s p _) as [[e|[s' p']] w2] eqn:E2;
    destruct (store_only_run _ _ _ _ (store_only_prepare_data convert s p) E2)
      as (Hf2 & Ho2 & _); clear E2; cbn [files stdout] in Hf2, Ho2; cbn iota.
  { intros [= <- <-]. rewrite Hf2, Ho2, Hf1, Ho1, <- !app_assoc.
    exists e, 2%nat. split; [reflexivity|]. split; [lia|]. split; reflexivity. }
  unfold bind at 1. unfold print at 1. cbn iota.
  unfold bind at 1. cbn [fst snd].
  destruct (tables sales_table product_table s' p' _) as [[e|[st pt]] w3] eqn:E3;
    destruct (store_only_run _ _ _ _ (store_only_tables sales_table product_table s' p') E3)
      as (Hf3 & Ho3 & _); clear E3; cbn [files stdout] in Hf3, Ho3; cbn iota.
  { intros [= <- <-]. rewrite Hf3, Ho3, Hf2, Ho2, Hf1, Ho1, <- !app_assoc.
    exists e, 3%nat. split; [reflexivity|]. split; [lia|]. split; reflexivity. }
  unfold bind at 1. cbn [fst snd]. rewrite create_dashboard_run.
  intros [= <- <-]. rewrite Hf3, Ho3, Hf2, Ho2, Hf1, Ho1, <- !app_assoc.
  eexists. exists 3%nat. split; [reflexivity|]. split; [lia|]. split; reflexivity.
Qed.

End MainRuns.

Lemma main_raises_in_dashboard_served :
  main (serve product_csv) read_pages convert_iso page typed_sales typed_products empty_world
  = (inl (incompatible "pie" "xy" 1 2),
     {| heap := heap world_after_raw; files := files empty_world;
        stdout := stdout empty_world ++ ["Fetching data..."; "Preparing data...";
                                         "Creating dashboard..."]%string |}).
Proof.
  apply (main_raises_in_dashboard (serve product_csv) read_pages convert_iso page typed_sales
           typed_products empty_world raw_world world_after_raw
           1%positive 2%positive 3%positive 4%positive narrowed_sales narrowed_products
           served_orders served_products); vm_compute; reflexivity.
Defined.

Lemma main_fetch_fails_empty_body :
  (main serve_nothing read_pages convert_iso page typed_sales typed_products empty_world).1
  = inl (ValueError "No columns to parse from file")
  /\ files (main serve_nothing read_pages convert_iso page typed_sales typed_products
              empty_world).2 = files empty_world
  /\ stdout (main serve_nothing read_pages convert_iso page typed_sales typed_products
               empty_world).2 = stdout empty_world ++ ["Fetching data..."]%string.
Proof.
  apply (main_fetch_fails serve_nothing read_pages convert_iso page typed_sales typed_products
           empty_world (ValueError "No columns to parse from file")).
  vm_compute. reflexivity.
Defined.

Lemma main_prepare_fails_not_found :
  (main serve_not_found read_pages convert_iso page typed_sales typed_products empty_world).1
  = inl (KeyError "OrderDate")
  /\ files (main serve_not_found read_pages convert_iso page typed_sales typed_products
              empty_world).2 = files empty_world
  /\ stdout (main serve_not_found read_pages convert_iso page typed_sales typed_products
               empty_world).2
     = stdout empty_world ++ ["Fetching data..."; "Preparing data..."]%string.
Proof.
  apply (main_prepare_fails serve_not_found read_pages convert_iso page typed_sales
           typed_products empty_world
           (fetch_retail_data serve_not_found read_pages empty_world).2
           1%positive 2%positive (KeyError "OrderDate")); vm_compute; reflexivity.
Defined.

(** ** The month axis *)

Lemma all_below_spec (f : Z -> bool) (n : N) :
  all_below f n = true -> forall i, 0 <= i < Z.of_N n -> f i = true.
Proof.
  unfold all_below.
  assert (Hinv : (N.iter n (fun p : Z * bool => (p.1 + 1, p.2 && f p.1)) (0, true)).1
                 = Z.of_N n
                 /\ ((N.iter n (fun p : Z * bool => (p.1 + 1, p.2 && f p.1)) (0, true)).2
                     = true -> forall i, 0 <= i < Z.of_N n -> f i = true)).
  { induction n as [|n IH] using N.peano_ind.
    - split; [reflexivity|]. intros _ i Hi. cbn in Hi. lia.
    - rewrite N.iter_succ. destruct IH as [Hfst Hsnd].
      destruct (N.iter n _ (0, true)) as [j ok]. cbn [fst snd] in *. subst j.
      split; [lia|]. intros Hok i Hi. apply andb_prop in Hok as [Hok Hf].
      destruct (Z.eq_dec i (Z.of_N n)) as [->|Hne]; [exact Hf|].
      apply (Hsnd Hok). lia. }
  exact (proj2 Hinv).
Qed.

Lemma month_of_range (t : Timestamp) : 1 <= month_of t <= 12.
Proof.
  assert (Hall : all_below (fun doe =>
                   let yoe := (doe - doe / 1460 + doe / 36524 - doe / 146096) / 365 in
                   let doy := doe - (365 * yoe + yoe / 4 - yoe / 100) in
                   let mp := (5 * doy + 2) / 153 in
                   let m := if mp <? 10 then mp + 3 else mp - 9 in
                   (1 <=? m) && (m <=? 12)) 146097 = true)
    by (vm_compute; reflexivity).
  unfold month_of, civil_from_days. cbv zeta. cbn [fst snd].
  set (z' := t / ns_per_day + 719468).
  assert (Hdoe : 0 <= z' - z' / 146097 * 146097 < 146097).
  { pose proof (Z.mod_pos_bound z' 146097 eq_refl) as Hm.
    rewrite Z.mod_eq in Hm by discriminate. lia. }
  set (doe := z' - z' / 146097 * 146097) in *.
  pose proof (all_below_spec _ _ Hall doe Hdoe) as Hm. cbv zeta in Hm.
  apply andb_prop in Hm as [H1 H2]. lia.
Qed.

Lemma key_of_month_number_step (n : Z) :
  0 <= n < 107999 ->
  String_as_OT.compare (key_of_month_number n) (key_of_month_number (n + 1)) = Lt.
Proof.
  assert (Hall : all_below (fun i =>
                   match String_as_OT.compare (key_of_month_number i)
                                              (key_of_month_number (i + 1)) with
                   | Lt => true
                   | _ => false
                   end) 107999 = true)
    by (vm_compute; reflexivity).
  intros Hn. pose proof (all_below_spec _ _ Hall n Hn) as Hcmp. cbv beta in Hcmp.
  destruct (String_as_OT.compare _ _); [discriminate|reflexivity|discriminate].
Qed.

Lemma key_of_month_number_ahead (x d : Z) :
  0 <= d -> 0 <= x -> x + d + 1 <= 107999 ->
  String_as_OT.compare (key_of_month_number x) (key_of_month_number (x + d + 1)) = Lt.
Proof.
  intros Hd. revert x. pattern d. apply natlike_ind; [| |exact Hd].
  - intros x Hx Hb. rewrite Z.add_0_r. apply key_of_month_number_step. lia.
  - intros k Hk IH x Hx Hb. eapply string_compare_trans; [apply (IH x); lia|].
    replace (x + Z.succ k + 1) with (x + k + 1 + 1) by lia.
    apply key_of_month_number_step. lia.
Qed.

Lemma key_of_month_number_mono (x y : Z) :
  0 <= x -> x < y -> y <= 107999 ->
  String_as_OT.compare (key_of_month_number x) (key_of_month_number y) = Lt.
Proof.
  intros Hx Hxy Hy.
  replace y with (x + (y - x - 1) + 1) by lia.
  apply key_of_month_number_ahead; lia.
Qed.

Lemma strftime_Ym_number (t : Timestamp) :
  strftime_Ym t = key_of_month_number (month_number t).
Proof.
  pose proof (month_of_range t) as Hm.
  unfold strftime_Ym, key_of_month_number, month_number.
  replace (((year_of t - 1000) * 12 + (month_of t - 1)) / 12) with (year_of t - 1000).
  - replace (((year_of t - 1000) * 12 + (month_of t - 1)) mod 12) with (month_of t - 1).
    + repeat f_equal; lia.
    + symmetry. rewrite Z.add_comm, Z.mod_add by discriminate. apply Z.mod_small. lia.
  - symmetry. rewrite Z.add_comm, Z.div_add by discriminate.
    rewrite Z.div_small by lia. lia.
Qed.

Lemma month_number_before (a b : Timestamp) :
  month_before a b <-> month_number a < month_number b.
Proof.
  pose proof (month_of_range a). pose proof (month_of_range b).
  unfold month_before, month_number. lia.
Qed.

(** The month axis runs in time order: for order dates whose years have
    four digits, as all years of datetime64[ns] have, the month keys
    compare as texts the way the months compare in time. *)
Theorem month_keys_chronological :
  forall (A : Type) (a b : SalesRow A),
    1000 <= year_of (OrderDate a) <= 9999 ->
    1000 <= year_of (OrderDate b) <= 9999 ->
    (String_as_OT.lt (month_key a) (month_key b)
     <-> month_before (OrderDate a) (OrderDate b)).
Proof.
  intros A a b Ha Hb. unfold month_key, String_as_OT.lt.
  rewrite !strftime_Ym_number, month_number_before.
  pose proof (month_of_range (OrderDate a)) as Hma.
  pose proof (month_of_range (OrderDate b)) as Hmb.
  assert (Hna : 0 <= month_number (OrderDate a) <= 107999) by (unfold month_number; lia).
  assert (Hnb : 0 <= month_number (OrderDate b) <= 107999) by (unfold month_number; lia).
  set (na := month_number (OrderDate a)) in *. set (nb := month_number (OrderDate b)) in *.
  split.
  - intros Hcmp. destruct (Z.lt_trichotomy na nb) as [Hab|[Hab|Hab]]; [exact Hab| |].
    + rewrite Hab, string_compare_refl in Hcmp. discriminate.
    + pose proof (key_of_month_number_mono nb na (proj1 Hnb) Hab (proj2 Hna)) as Hrev.
      pose proof (string_compare_trans _ _ _ Hcmp Hrev) as Hirr.
      rewrite string_compare_refl in Hirr. discriminate.
  - intros Hab. apply key_of_month_number_mono; lia.
Qed.

Lemma month_keys_chronological_scenario :
  String_as_OT.lt (month_key (order (ymd 2022 12 31) 100%float))
                  (month_key (order (ymd 2023 1 15) 50%float))
  <-> month_before (ymd 2022 12 31) (ymd 2023 1 15).
Proof.
  apply (month_keys_chronological float (order (ymd 2022 12 31) 100%float)
           (order (ymd 2023 1 15) 50%float)); vm_compute; split; discriminate.
Defined.

(** ** Outputs that agree, effects that stay confined *)

Lemma count_le {X} (l : list (option X)) : (count l <= length l)%nat.
Proof.
  unfold count. induction l as [|[x|] l IH]; cbn; lia.
Qed.



Lemma alloc_keeps (h : gmap loc DataFrame) (x d : DataFrame) (l : loc) :
  h !! l = Some d -> <[fresh (dom h) := x]> h !! l = Some d.
Proof.
  intros Hl. rewrite lookup_insert_ne; [exact Hl|]. apply (fresh_loc_ne h l d Hl).
Qed.

(** Whatever its outcome, preparation stays within the order dates: it
    leaves the files, the console and every frame other than the
    caller's order frame as they were, and of that frame it keeps the
    column names, their order, and every column but OrderDate. *)
Theorem prepare_data_confined :
  forall (convert : Series -> exn + list Timestamp) (w : World)
         (sales_data product_data : loc),
    files (prepare_data convert sales_data product_data w).2 = files w
    /\ stdout (prepare_data convert sales_data product_data w).2 = stdout w
    /\ (forall l d, l <> sales_data -> heap w !! l = Some d ->
          heap (prepare_data convert sales_data product_data w).2 !! l = Some d)
    /\ (forall d, heap w !! sales_data = Some d ->
          exists d',
            heap (prepare_data convert sales_data product_data w).2 !! sales_data = Some d'
            /\ columns d' = columns d
            /\ forall c, c <> "OrderDate"%string -> getitem d' c = getitem d c).
Proof.
  intros convert w s p.
  destruct (prepare_data convert s p w) as [r wf] eqn:Hrun. cbn [snd].
  revert Hrun.
  assert (Hsame : forall e : exn + (loc * loc),
             (e, w) = (r, wf) ->
             files wf = files w /\ stdout wf = stdout w
             /\ (forall l d, l <> s -> heap w !! l = Some d -> heap wf !! l = Some d)
             /\ (forall d, heap w !! s = Some d ->
                   exists d', heap wf !! s = Some d' /\ columns d' = columns d
                              /\ forall c, c <> "OrderDate"%string ->
                                           getitem d' c = getitem d c)).
  { intros e [= <- <-]. repeat split; auto. intros d Hd. exists d. auto. }
  unfold prepare_data, bind at 1, deref at 1.
  destruct (heap w !! s) as [fs|] eqn:Hs; [|apply Hsame].
  unfold bind at 1, lift at 1.
  destruct (getitem fs "OrderDate") as [e|col] eqn:Hcol; [apply Hsame|].
  unfold bind at 1, lift at 1.
  destruct (to_datetime convert col) as [e|parsed]; [apply Hsame|].
  clear Hsame.
  unfold bind at 1, assign at 1. unfold bind at 1, deref at 1. cbn [heap].
  rewrite lookup_insert_eq.
  set (h1 := <[s := setitem fs "OrderDate" parsed]> (heap w)).
  assert (H1 : (forall l d, l <> s -> heap w !! l = Some d -> h1 !! l = Some d)
               /\ (forall d, Some fs = Some d ->
                     exists d', h1 !! s = Some d' /\ columns d' = columns d
                                /\ forall c, c <> "OrderDate"%string ->
                                             getitem d' c = getitem d c)).
  { split.
    - intros l d Hl Hd. unfold h1. rewrite lookup_insert_ne by congruence. exact Hd.
    - intros d [= <-]. exists (setitem fs "OrderDate" parsed).
      split; [apply lookup_insert_eq|]. split; [eapply columns_setitem, Hcol|].
      intros c Hc. rewrite getitem_setitem.
      destruct (String.eqb_spec c "OrderDate"); [contradiction|reflexivity]. }
  assert (Hgrow : forall (h : gmap loc DataFrame) (x : DataFrame),
             ((forall l d, l <> s -> heap w !! l = Some d -> h !! l = Some d)
              /\ (forall d, Some fs = Some d ->
                    exists d', h !! s = Some d' /\ columns d' = columns d
                               /\ forall c, c <> "OrderDate"%string ->
                                            getitem d' c = getitem d c)) ->
             (forall l d, l <> s -> heap w !! l = Some d ->
                <[fresh (dom h) := x]> h !! l = Some d)
             /\ (forall d, Some fs = Some d ->
                   exists d', <[fresh (dom h) := x]> h !! s = Some d' /\ columns d' = columns d
                              /\ forall c, c <> "OrderDate"%string ->
                                           getitem d' c = getitem d c)).
  { intros h x [Ho Hw]. split.
    - intros l d Hl Hd. apply alloc_keeps, Ho; assumption.
    - intros d Hd. destruct (Hw d Hd) as (d' & Hd' & Hrest).
      exists d'. split; [apply alloc_keeps, Hd'|exact Hrest]. }
  unfold bind at 1, lift at 1.
  destruct (select (setitem fs "OrderDate" parsed) sales_columns) as [e|ns].
  { intros [= <- <-]. cbn [files stdout heap]. fold h1. destruct H1. auto. }
  unfold bind at 1, alloc at 1. cbn [heap files stdout].
  fold h1. pose proof (Hgrow h1 ns H1) as H2.
  set (h2 := <[fresh (dom h1) := ns]> h1) in *.
  unfold bind at 1, deref at 1. cbn [heap].
  destruct (h2 !! p) as [fp|].
  2:{ intros [= <- <-]. cbn [files stdout heap]. destruct H2. auto. }
  unfold bind at 1, lift at 1.
  destruct (select fp product_columns) as [e|np].
  { intros [= <- <-]. cbn [files stdout heap]. destruct H2. auto. }
  unfold bind, alloc, ret. cbn [files stdout heap].
  intros [= <- <-]. cbn [files stdout heap].
  destruct (Hgrow h2 np H2). auto.
Qed.
